(** * DjangoXBlockUserStateClient: per-user XBlock state over the StudentModule table

    A shallow embedding of [lms/djangoapps/courseware/user_state_client.py].
    The client reads, overlays and clears JSON field maps stored in the
    [state] column of [StudentModule] rows, one row per (student, course,
    usage key).  Database effects are threaded explicitly through a small
    state-and-exception monad; Python generators are modelled as lists of
    effectful segments so that the laziness of the source is kept.
    Course keys are objects of several classes, ordered by their key
    fields within a class and not comparable across classes, so sorting a
    batch by course key can raise.  The order in which a parsed dict
    gives its keys is a parameter. *)

From Stdlib Require Import ZArith String OrderedTypeEx.
From stdpp Require Import base option list strings gmap sorting pretty.

Open Scope string_scope.
Open Scope list_scope.

(** ** Keys, scopes and users *)

(** [opaque_keys]: the classes of course keys.  A key written
    [org/course/run] is of the old-style class, a key written
    [course-v1:org+course+run] is a [CourseLocator]. *)
Inductive KeyClass :=
  | SlashSeparatedCourseKey
  | CourseLocator
  | CCXLocator
  | LibraryLocator.

#[global] Instance KeyClass_eq_dec : EqDecision KeyClass.
Proof. solve_decision. Defined.

#[global] Instance KeyClass_countable : Countable KeyClass :=
  inj_countable'
    (fun c => match c with
              | SlashSeparatedCourseKey => 0
              | CourseLocator => 1
              | CCXLocator => 2
              | LibraryLocator => 3
              end)
    (fun n => match n with
              | 0 => SlashSeparatedCourseKey
              | 1 => CourseLocator
              | 2 => CCXLocator
              | _ => LibraryLocator
              end)
    (fun c => match c with
              | SlashSeparatedCourseKey => eq_refl
              | CourseLocator => eq_refl
              | CCXLocator => eq_refl
              | LibraryLocator => eq_refl
              end).

(** [opaque_keys]: a course key is an object of one of these classes; it
    holds the values of the key fields of its class ([org], [course],
    [run], ...), [None] for a field that is not set.  Two keys are equal
    when they are of one class and hold the same values. *)
Record CourseKey := mkCourseKey {
  key_class : KeyClass;
  key_fields : list (option string)
}.

#[global] Instance CourseKey_eq_dec : EqDecision CourseKey.
Proof. solve_decision. Defined.

#[global] Instance CourseKey_countable : Countable CourseKey :=
  inj_countable'
    (fun c => (key_class c, key_fields c))
    (fun t => mkCourseKey t.1 t.2)
    (fun c => match c with mkCourseKey _ _ => eq_refl end).

(** [opaque_keys.edx.keys.UsageKey]: the attributes the client reads. *)
Record UsageKey := mkUsageKey {
  course_key : CourseKey;
  block_type : string;
  block_id : string
}.

Definition map_into_course (k : UsageKey) (c : CourseKey) : UsageKey :=
  mkUsageKey c (block_type k) (block_id k).

#[global] Instance UsageKey_eq_dec : EqDecision UsageKey.
Proof. solve_decision. Defined.

#[global] Instance UsageKey_countable : Countable UsageKey :=
  inj_countable'
    (fun k => (course_key k, block_type k, block_id k))
    (fun t => mkUsageKey t.1.1 t.1.2 t.2)
    (fun k => match k with mkUsageKey _ _ _ => eq_refl end).

(** [xblock.fields.Scope]: the named scopes. *)
Inductive Scope :=
  | user_state | settings | content | preferences
  | user_info | user_state_summary | children | parent.

#[global] Instance Scope_eq_dec : EqDecision Scope.
Proof. solve_decision. Defined.

(** [django.contrib.auth.models.User], identified by its user name. *)
Record User := mkUser { username : string }.

#[global] Instance User_eq_dec : EqDecision User.
Proof. solve_decision. Defined.

(** ** JSON documents *)

#[local] Unset Elimination Schemes.
Inductive json :=
  | JNull
  | JBool (b : bool)
  | JNum (z : Z)
  | JStr (s : string)
  | JArr (l : list json)
  | JObj (l : list (string * json)).
#[local] Set Elimination Schemes.

(** A Python dict with string keys and JSON values. *)
Abbreviation dict := (gmap string json).

(** The text of the [state] column.  [json.dumps] and [json.loads] are
    inverse on field maps, so a text is represented by the document it
    encodes; SQL NULL is [None] at the column. *)
Record JsonText := Dumps { doc : dict }.

Definition timestamp := Z.

(** ** Exceptions and the effect monad *)

Inductive exn :=
  | AssertionError
  | ValueError
  | TypeError
  | DoesNotExist
  | NotImplementedError.

#[global] Instance exn_eq_dec : EqDecision exn.
Proof. solve_decision. Defined.

Inductive Result (A : Type) :=
  | Ok (a : A)
  | Raise (e : exn).
Arguments Ok {A} a.
Arguments Raise {A} e.

Definition json_dumps (d : dict) : JsonText := Dumps d.

(** [json.loads(None)] raises [TypeError]. *)
Definition json_loads (s : option JsonText) : Result dict :=
  match s with
  | None => Raise TypeError
  | Some t => Ok (doc t)
  end.

(** ** The StudentModule table *)

Record StudentModule := mkStudentModule {
  student : User;
  course_id : CourseKey;
  module_state_key : UsageKey;
  module_type : string;
  state : option JsonText;
  modified : timestamp
}.

Definition with_state (sm : StudentModule) (s : option JsonText) : StudentModule :=
  mkStudentModule (student sm) (course_id sm) (module_state_key sm)
                  (module_type sm) s (modified sm).

Definition with_modified (sm : StudentModule) (t : timestamp) : StudentModule :=
  mkStudentModule (student sm) (course_id sm) (module_state_key sm)
                  (module_type sm) (state sm) t.

(** What the client asks of the record store, in the order it asks. *)
Inductive DbEvent :=
  | Query (u : string) (c : CourseKey) (ks : list UsageKey)
  | GetOrCreate (u : User) (c : CourseKey) (k : UsageKey)
  | Save (u : User) (c : CourseKey) (k : UsageKey).

(** The database: the rows in the order the store holds them, the time
    of the call (read by every write, not advanced by the model), and the
    log of what was asked of the store. *)
Record Db := mkDb {
  table : list StudentModule;
  now : timestamp;
  log : list DbEvent
}.

(** A computation returns or raises, and in both cases leaves a database:
    nothing is rolled back when an exception passes. *)
Definition M (A : Type) : Type := Db -> Result A * Db.

Definition ret {A} (a : A) : M A := fun db => (Ok a, db).

Definition raise {A} (e : exn) : M A := fun db => (Raise e, db).

Definition bind {A B} (m : M A) (f : A -> M B) : M B :=
  fun db =>
    match m db with
    | (Ok a, db') => f a db'
    | (Raise e, db') => (Raise e, db')
    end.

Definition lift {A} (r : Result A) : M A := fun db => (r, db).

Declare Scope m_scope.
Delimit Scope m_scope with M.
Notation "'do' x <- m ; k" := (bind m (fun x => k))
  (at level 10, x pattern, m at level 100, k at level 200) : m_scope.
Notation "m ;; k" := (bind m (fun _ => k))
  (at level 100, k at level 200, right associativity) : m_scope.
Open Scope m_scope.

Definition assert (b : bool) : M unit :=
  if b then ret tt else raise AssertionError.

(** [for x in l: body(x)] over an already computed list. *)
Fixpoint for_list {A} (l : list A) (body : A -> M unit) : M unit :=
  match l with
  | [] => ret tt
  | x :: l' => body x ;; for_list l' body
  end.

Fixpoint mapM {A B} (f : A -> M B) (l : list A) : M (list B) :=
  match l with
  | [] => ret []
  | x :: l' => do y <- f x; do ys <- mapM f l'; ret (y :: ys)
  end.

(** ** Generators

    A generator is a list of segments; running a segment performs its
    effects and gives the items it yields before the next segment starts.
    Nothing of a segment runs before the consumer asks for it. *)
Definition Generator (A : Type) : Type := list (M (list A)).

(** [next(g)]: the first item, [None] for [StopIteration]. *)
Fixpoint next {A} (g : Generator A) : M (option A) :=
  match g with
  | [] => ret None
  | seg :: g' =>
      do items <- seg;
      match items with
      | x :: _ => ret (Some x)
      | [] => next g'
      end
  end.

(** [for x in g: body(x)]. *)
Fixpoint for_in {A} (g : Generator A) (body : A -> M unit) : M unit :=
  match g with
  | [] => ret tt
  | seg :: g' => do items <- seg; for_list items body ;; for_in g' body
  end.

(** [list(g)]: run the generator to exhaustion. *)
Fixpoint consume {A} (g : Generator A) : M (list A) :=
  match g with
  | [] => ret []
  | seg :: g' => do items <- seg; do rest <- consume g'; ret (items ++ rest)
  end.

(** ** The ORM manager of StudentModule *)

Definition add_event (e : DbEvent) (db : Db) : Db :=
  mkDb (table db) (now db) (log db ++ [e]).

Definition same_row (a b : StudentModule) : bool :=
  bool_decide (student a = student b /\ course_id a = course_id b
               /\ module_state_key a = module_state_key b).

Definition in_query (u : string) (c : CourseKey) (ks : list UsageKey)
    (sm : StudentModule) : bool :=
  bool_decide (username (student sm) = u /\ course_id sm = c
               /\ module_state_key sm ∈ ks).

(** Modelled from the spec: [StudentModule.objects.chunked_filter] is
    [courseware.models] code; it is the record store's
    [find_records(owner, container, keys)], one batch lookup that returns
    the rows of the owner in the container whose key is among [ks], in
    the order the store holds them. *)
Definition chunked_filter (u : string) (c : CourseKey) (ks : list UsageKey)
    : M (list StudentModule) :=
  fun db =>
    (Ok (List.filter (in_query u c ks) (table db)), add_event (Query u c ks) db).

Definition is_row (u : User) (c : CourseKey) (k : UsageKey)
    (sm : StudentModule) : bool :=
  bool_decide (student sm = u /\ course_id sm = c /\ module_state_key sm = k).

(** Modelled from the spec: [StudentModule.objects.get_or_create] is Django
    code; find the record of (owner, container, key) or create it from the
    defaults, stamped with the current time; the flag says whether it was
    created. *)
Definition get_or_create (u : User) (c : CourseKey) (k : UsageKey)
    (default_state : JsonText) (default_type : string)
    : M (StudentModule * bool) :=
  fun db =>
    match List.find (is_row u c k) (table db) with
    | Some sm => (Ok (sm, false), add_event (GetOrCreate u c k) db)
    | None =>
        let sm := mkStudentModule u c k default_type (Some default_state) (now db) in
        (Ok (sm, true),
         add_event (GetOrCreate u c k) (mkDb (table db ++ [sm]) (now db) (log db)))
    end.

(** Modelled from the spec: [student_module.save(force_update=True)] is
    Django code; it writes the row read before back in place and sets its
    [modified] time, which is updated whenever the record is written. *)
Definition save (sm : StudentModule) : M unit :=
  fun db =>
    let sm' := with_modified sm (now db) in
    (Ok tt,
     add_event (Save (student sm) (course_id sm) (module_state_key sm))
       (mkDb (List.map (fun r => if same_row r sm then sm' else r) (table db))
             (now db) (log db))).

(** ** Python built-ins used by the client *)

(** The order of two key fields: Python 2 puts [None] before every
    string and orders strings by their characters. *)
Definition field_compare (a b : option string) : comparison :=
  match a, b with
  | None, None => Eq
  | None, Some _ => Lt
  | Some _, None => Gt
  | Some x, Some y => String.compare x y
  end.

(** The order of two tuples: that of the first position where they
    differ, a tuple that ends there being the smaller one. *)
Fixpoint tuple_compare (a b : list (option string)) : comparison :=
  match a, b with
  | [], [] => Eq
  | [], _ :: _ => Lt
  | _ :: _, [] => Gt
  | x :: a', y :: b' =>
      match field_compare x y with
      | Eq => tuple_compare a' b'
      | c => c
      end
  end.

(** [a < b] on course keys ([opaque_keys]): keys of different classes do
    not compare, the attempt raises [TypeError]; keys of one class
    compare as the tuples of their key fields. *)
Definition key_lt (a b : CourseKey) : Result bool :=
  if decide (key_class a = key_class b)
  then Ok (match tuple_compare (key_fields a) (key_fields b) with
           | Lt => true
           | _ => false
           end)
  else Raise TypeError.

(** [sorted(l, key=key)] on course keys: a stable sort that learns the
    order by asking [<] of two keys, and fails when a comparison does.
    Insertion stands for the sort of Python here.  The two ask different
    questions but end alike: with the keys all of one class both give the
    items in ascending order, equal keys in the order they came; with
    keys of two classes both raise [TypeError], since no sort can place
    two keys of different classes without comparing a pair of them
    (lemmas [sorted_ok], [sorted_raises], [sorted_sorted] and
    [filter_sorted] below). *)
Fixpoint insert_by {A} (key : A -> CourseKey) (x : A) (l : list A)
    : Result (list A) :=
  match l with
  | [] => Ok [x]
  | y :: l' =>
      match key_lt (key y) (key x) with
      | Raise e => Raise e
      | Ok false => Ok (x :: y :: l')
      | Ok true =>
          match insert_by key x l' with
          | Raise e => Raise e
          | Ok s => Ok (y :: s)
          end
      end
  end.

Fixpoint sorted {A} (key : A -> CourseKey) (l : list A) : Result (list A) :=
  match l with
  | [] => Ok []
  | x :: l' =>
      match sorted key l' with
      | Raise e => Raise e
      | Ok s => insert_by key x s
      end
  end.

(** [itertools.groupby(l, key)]: the maximal runs of adjacent items with
    equal keys, each with its key. *)
Fixpoint groupby {A} (key : A -> CourseKey) (l : list A)
    : list (CourseKey * list A) :=
  match l with
  | [] => []
  | x :: l' =>
      match groupby key l' with
      | (k, g) :: rest =>
          if decide (key x = k) then (k, x :: g) :: rest
          else (key x, [x]) :: (k, g) :: rest
      | [] => [(key x, [x])]
      end
  end.

(** [d.update(e)]: the keys of [e] overwrite those of [d]. *)
Definition update (d e : dict) : dict := e ∪ d.

(** [if field in d: del d[field]]. *)
Definition del_if_in (d : dict) (field : string) : dict :=
  if decide (is_Some (d !! field)) then delete field d else d.

(** [for field in d]: the keys of a dict, each once.  The order is the
    one the interpreter keeps for the dict (in Python 2 that of its hash
    table); the client is written against any such order. *)
Record DictOrder := mkDictOrder {
  keys : dict -> list string;
  keys_perm : forall d, keys d ≡ₚ (map_to_list d).*1
}.

(** ** The client *)

Record DjangoXBlockUserStateClient := mkClient { user : User }.

Section Client.

Variable self : DjangoXBlockUserStateClient.

(** The order in which dicts parsed from a state are iterated. *)
Variable order : DictOrder.

(** [assert self.user.username == username] *)
Definition assert_user (uname : string) : M unit :=
  assert (bool_decide (username (user self) = uname)).

(** [if scope != Scope.user_state: raise ValueError(...)] *)
Definition check_scope (scope : Scope) : M unit :=
  if decide (scope <> user_state) then raise ValueError else ret tt.

(** The keys are sorted when the generator is first advanced.  When the
    sort raises, the generator ends there: its one segment raises.
    Otherwise there is one segment per group of [by_course]: the query of
    the group, then the rows it returned. *)
Definition _get_student_modules (uname : string) (block_keys : list UsageKey)
    : Generator (StudentModule * UsageKey) :=
  match sorted course_key block_keys with
  | Raise e => [raise e]
  | Ok sorted_keys =>
      let by_course := groupby course_key sorted_keys in
      List.map
        (fun '(course_key, usage_keys) =>
           do query <- chunked_filter uname course_key usage_keys;
           ret (List.map
                  (fun student_module =>
                     (student_module,
                      map_into_course (module_state_key student_module)
                                      (course_id student_module)))
                  query))
        by_course
  end.

(** A generator: the two checks run when it is first advanced, so they
    are its first segment, which yields nothing.  [fields] is not used. *)
Definition get_many (uname : string) (block_keys : list UsageKey)
    (scope : Scope) (fields : option (list string))
    : Generator (UsageKey * dict) :=
  (assert_user uname ;; check_scope scope ;; ret [])
  :: List.map
       (fun seg =>
          do modules <- seg;
          mapM (fun '(module, usage_key) =>
                  do st <- match state module with
                           | None => ret ∅
                           | Some _ => lift (json_loads (state module))
                           end;
                  ret (usage_key, st))
               modules)
       (_get_student_modules uname block_keys).

(** [next] takes the first entry; [StopIteration] becomes [DoesNotExist]. *)
Definition get (uname : string) (block_key : UsageKey) (scope : Scope)
    (fields : option (list string)) : M dict :=
  assert_user uname ;;
  do r <- next (get_many uname [block_key] scope fields);
  match r with
  | None => raise DoesNotExist
  | Some (_usage_key, st) => ret st
  end.

(** A find-or-create per key, then an overlay of the new fields on the
    state just read.  The items are taken in the order of the finite
    map; the keys are distinct and each turn touches the row of its own
    key only. *)
Definition set_many (uname : string) (block_keys_to_state : gmap UsageKey dict)
    (scope : Scope) : M unit :=
  assert_user uname ;;
  check_scope scope ;;
  for_list (map_to_list block_keys_to_state)
    (fun '(usage_key, st) =>
       do (student_module, created) <-
         get_or_create (user self) (course_key usage_key) usage_key
                       (json_dumps st) (block_type usage_key);
       if created : bool then ret tt
       else
         do current_state <- match state student_module with
                             | None => ret ∅
                             | Some _ => lift (json_loads (state student_module))
                             end;
         let current_state := update current_state st in
         save (with_state student_module (Some (json_dumps current_state)))).

Definition set (uname : string) (block_key : UsageKey) (st : dict)
    (scope : Scope) : M unit :=
  assert_user uname ;;
  set_many uname {[ block_key := st ]} scope.

(** With [fields] the state is parsed without the test for [None] that
    the other methods make. *)
Definition delete_many (uname : string) (block_keys : list UsageKey)
    (scope : Scope) (fields : option (list string)) : M unit :=
  assert_user uname ;;
  check_scope scope ;;
  for_in (_get_student_modules uname block_keys)
    (fun '(student_module, _) =>
       do st <- match fields with
                | None => ret (Some (Dumps ∅))
                | Some fs =>
                    do current_state <- lift (json_loads (state student_module));
                    ret (Some (json_dumps (foldl del_if_in current_state fs)))
                end;
       save (with_state student_module st)).

Definition delete (uname : string) (block_key : UsageKey) (scope : Scope)
    (fields : option (list string)) : M unit :=
  assert_user uname ;;
  delete_many uname [block_key] scope fields.

(** A generator like [get_many]; a row without state is skipped. *)
Definition get_mod_date_many (uname : string) (block_keys : list UsageKey)
    (scope : Scope) (fields : option (list string))
    : Generator (UsageKey * string * timestamp) :=
  (assert_user uname ;; check_scope scope ;; ret [])
  :: List.map
       (fun seg =>
          do student_modules <- seg;
          do yielded <-
            mapM (fun '(student_module, usage_key) =>
                    match state student_module with
                    | None => ret []
                    | Some _ =>
                        do d <- lift (json_loads (state student_module));
                        ret (List.map
                               (fun field => (usage_key, field, modified student_module))
                               (keys order d))
                    end)
                 student_modules;
          ret (concat yielded))
       (_get_student_modules uname block_keys).

(** The dict comprehension over the tuples: a later tuple of a field
    overwrites an earlier one.  There is no check of its own here. *)
Definition get_mod_date (uname : string) (block_key : UsageKey) (scope : Scope)
    (fields : option (list string)) : M (gmap string timestamp) :=
  do results <- consume (get_mod_date_many uname [block_key] scope fields);
  ret (foldl (fun (m : gmap string timestamp) '(_, field, date) => <[field := date]> m)
             ∅ results).

Definition get_history (uname : string) (block_key : UsageKey) (scope : Scope)
    : M unit :=
  assert_user uname ;;
  check_scope scope ;;
  raise NotImplementedError.

Definition iter_all_for_block (block_key : UsageKey) (scope : Scope) : M unit :=
  check_scope scope ;;
  raise NotImplementedError.

Definition iter_all_for_course (course_key : CourseKey) (scope : Scope) : M unit :=
  check_scope scope ;;
  raise NotImplementedError.

End Client.

(** ** Concrete data for the examples *)

Definition alice : DjangoXBlockUserStateClient := mkClient (mkUser "alice").

(** The key [course-v1:org+course+run] and the old-style key
    [org/course/run]: neither has a branch or a version. *)
Definition course_v1 (org course run : string) : CourseKey :=
  mkCourseKey CourseLocator [Some org; Some course; Some run; None; None].
Definition slash_separated (org course run : string) : CourseKey :=
  mkCourseKey SlashSeparatedCourseKey [Some org; Some course; Some run; None; None].

Definition k1 : UsageKey := mkUsageKey (course_v1 "X" "1" "r") "problem" "p1".
Definition k2 : UsageKey := mkUsageKey (course_v1 "X" "1" "r") "problem" "p2".
Definition k3 : UsageKey := mkUsageKey (course_v1 "A" "2" "r") "html" "h1".
Definition db0 : Db := mkDb [] 100%Z [].

(** A key in an old-style course, and two in old-style courses whose
    organisations are [X] and [X.a]. *)
Definition k_old : UsageKey := mkUsageKey (slash_separated "X" "1" "r") "problem" "p1".
Definition k_xa : UsageKey := mkUsageKey (slash_separated "X.a" "1" "r") "problem" "p1".

(** The dict order that follows the finite map. *)
Definition map_order : DictOrder :=
  mkDictOrder (fun d => (map_to_list d).*1) (fun d => Permutation_refl _).

(** A table holding one row of alice at [k1] whose state is NULL. *)
Definition null_row : StudentModule :=
  mkStudentModule (mkUser "alice") (course_key k1) k1 "problem" None 7%Z.
Definition db_null : Db := mkDb [null_row] 100%Z [].

(** ** Notions used in the statements *)

(** The first segment of [get_many] and of [get_mod_date_many]. *)
Definition guard {A} self u scope : M (list A) :=
  assert_user self u ;; check_scope scope ;; ret [].

(** The groups of [_get_student_modules]; there is none when the sort
    raises. *)
Definition by_course (block_keys : list UsageKey)
    : list (CourseKey * list UsageKey) :=
  match sorted course_key block_keys with
  | Ok sorted_keys => groupby course_key sorted_keys
  | Raise _ => []
  end.

(** Are the keys of the items all of one class?  Then any two of them
    compare. *)
Definition one_class {A} (key : A -> CourseKey) (l : list A) : bool :=
  match l with
  | [] => true
  | x :: l' =>
      forallb (fun y => bool_decide (key_class (key y) = key_class (key x))) l'
  end.

(** [a < b] holds, and [b < a] does not, of two course keys. *)
Definition lt_course (a b : CourseKey) : Prop := key_lt a b = Ok true.
Definition le_course (a b : CourseKey) : Prop := key_lt b a = Ok false.

(** The order [sorted] sorts by. *)
Definition le_key {A} (key : A -> CourseKey) (a b : A) : Prop :=
  le_course (key a) (key b).

(** The rows one query finds, each with its usage key. *)
Definition resolve (db : Db) (u : string) (grp : CourseKey * list UsageKey)
    : list (StudentModule * UsageKey) :=
  List.map
    (fun sm => (sm, map_into_course (module_state_key sm) (course_id sm)))
    (List.filter (in_query u grp.1 grp.2) (table db)).

(** All the rows [_get_student_modules] yields when run to its end. *)
Definition student_modules_of (db : Db) (u : string) (block_keys : list UsageKey)
    : list (StudentModule * UsageKey) :=
  flat_map (resolve db u) (by_course block_keys).

(** The database with more events in its log. *)
Definition add_events (evs : list DbEvent) (db : Db) : Db :=
  mkDb (table db) (now db) (log db ++ evs).

(** The queries of a batch, one per group. *)
Definition queries (u : string) (block_keys : list UsageKey) : list DbEvent :=
  List.map (fun grp => Query u grp.1 grp.2) (by_course block_keys).

(** Is the event a batch query? *)
Definition is_query (e : DbEvent) : bool :=
  match e with
  | Query _ _ _ => true
  | _ => false
  end.

(** The number of batch queries in an access log. *)
Definition count_queries (evs : list DbEvent) : nat :=
  length (List.filter is_query evs).

(** The field map a row stands for: NULL reads as the empty map. *)
Definition fields_of (sm : StudentModule) : dict :=
  match state sm with
  | None => ∅
  | Some t => doc t
  end.

(** What [get_many] yields for a row. *)
Definition entry (p : StudentModule * UsageKey) : UsageKey * dict :=
  (p.2, fields_of p.1).

(** What [get_mod_date_many] yields for a row. *)
Definition dates_of (order : DictOrder) (p : StudentModule * UsageKey)
    : list (UsageKey * string * timestamp) :=
  match state p.1 with
  | None => []
  | Some t => List.map (fun field => (p.2, field, modified p.1)) (keys order (doc t))
  end.

(** The dict comprehension of [get_mod_date]. *)
Definition collect_dates (results : list (UsageKey * string * timestamp))
    : gmap string timestamp :=
  foldl (fun (m : gmap string timestamp) '(_, field, date) => <[field := date]> m)
        ∅ results.

(** The row of user [u] at key [k], as [get_or_create] finds it. *)
Definition find_row (db : Db) (u : string) (k : UsageKey) : option StudentModule :=
  List.find (is_row (mkUser u) (course_key k) k) (table db).

(** The stored field map of [u] at [k]; [None] when there is no record. *)
Definition stored (db : Db) (u : string) (k : UsageKey) : option dict :=
  fields_of <$> find_row db u k.

(** The columns of the table's uniqueness constraint. *)
Definition row_key (sm : StudentModule) : User * CourseKey * UsageKey :=
  (student sm, course_id sm, module_state_key sm).

(** The table's [unique_together] constraint. *)
Definition unique_together (t : list StudentModule) : Prop :=
  NoDup (row_key <$> t).

(** The body of the loop of [delete_many]. *)
Definition delete_row (fields : option (list string))
    (p : StudentModule * UsageKey) : M unit :=
  let '(student_module, _) := p in
  do st <- match fields with
           | None => ret (Some (Dumps ∅))
           | Some fs =>
               do current_state <- lift (json_loads (state student_module));
               ret (Some (json_dumps (foldl del_if_in current_state fs)))
           end;
  save (with_state student_module st).


(** ** Single-key operations as batches of one

    The definitions below follow the wording of the specification: each
    single-key operation is the plural one on a batch of one key. *)

Definition get_as_batch self (u : string) (k : UsageKey) (scope : Scope)
    (fields : option (list string)) : M dict :=
  do batch <- consume (get_many self u [k] scope fields);
  match batch with
  | [] => raise DoesNotExist
  | (_, st) :: _ => ret st
  end.

Definition set_as_batch self (u : string) (k : UsageKey) (st : dict)
    (scope : Scope) : M unit :=
  set_many self u {[ k := st ]} scope.

Definition delete_as_batch self (u : string) (k : UsageKey) (scope : Scope)
    (fields : option (list string)) : M unit :=
  delete_many self u [k] scope fields.

Definition get_mod_date_as_batch self order (u : string) (k : UsageKey)
    (scope : Scope) (fields : option (list string)) : M (gmap string timestamp) :=
  do results <- consume (get_mod_date_many self order u [k] scope fields);
  ret (collect_dates results).

(** ** Notions used for the batch operations *)

(** A row of another user at the same key, and a table with both. *)
Definition bob_row : StudentModule :=
  mkStudentModule (mkUser "bob") (course_key k1) k1 "problem"
                  (Some (Dumps {[ "a" := JNum 5 ]})) 9%Z.
Definition db_two : Db := mkDb [null_row; bob_row] 100%Z [].

(** A row of alice at [k1] with two fields, and a table holding it. *)
Definition alice_row : StudentModule :=
  mkStudentModule (mkUser "alice") (course_key k1) k1 "problem"
                  (Some (Dumps {[ "a" := JNum 1; "b" := JNum 2 ]})) 7%Z.
Definition db_alice : Db := mkDb [alice_row] 100%Z [].

(** A row of alice at [k3], in the course whose key is the lesser, and
    a table with it after the row whose state is NULL. *)
Definition alice_row3 : StudentModule :=
  mkStudentModule (mkUser "alice") (course_key k3) k3 "html"
                  (Some (Dumps {[ "a" := JNum 1; "c" := JNum 3 ]})) 8%Z.
Definition db_partial : Db := mkDb [null_row; alice_row3] 100%Z [].

(** Rows of alice in the old-style courses [X/1/r], with a field, and
    [X.a/1/r], with a NULL state, and a table with both. *)
Definition old_row : StudentModule :=
  mkStudentModule (mkUser "alice") (course_key k_old) k_old "problem"
                  (Some (Dumps {[ "a" := JNum 1 ]})) 5%Z.
Definition xa_null_row : StudentModule :=
  mkStudentModule (mkUser "alice") (course_key k_xa) k_xa "problem" None 6%Z.
Definition db_old : Db := mkDb [xa_null_row; old_row] 100%Z [].

(** The row [delete_many] saves over [r]. *)
Definition deleted_row (fields : option (list string)) (t : timestamp)
    (r : StudentModule) : StudentModule :=
  with_modified
    (with_state r
       (Some (Dumps (match fields with
                     | None => ∅
                     | Some L => foldl del_if_in (fields_of r) L
                     end))))
    t.

(** Is [r] a row of user [u] under a key of the batch [ks]? *)
Definition targeted (u : string) (ks : list UsageKey) (r : StudentModule) : bool :=
  bool_decide (username (student r) = u
               /\ module_state_key r ∈ ks
               /\ course_id r = course_key (module_state_key r)).

(** Is [r] among the rows that the query of one of the groups finds? *)
Definition in_groups (u : string) (gs : list (CourseKey * list UsageKey))
    (r : StudentModule) : bool :=
  existsb (fun grp => in_query u grp.1 grp.2 r) gs.

(** Only queries were added to the log of [db] to give [db']. *)
Definition only_queried (db db' : Db) : Prop :=
  exists evs, db' = add_events evs db /\ Forall (fun e => is_query e = true) evs.

(** The body of the loop of [set_many]. *)
Definition set_row (self : DjangoXBlockUserStateClient)
    (p : UsageKey * dict) : M unit :=
  let '(usage_key, st) := p in
  do (student_module, created) <-
    get_or_create (user self) (course_key usage_key) usage_key
                  (json_dumps st) (block_type usage_key);
  if created : bool then ret tt
  else
    do current_state <- match state student_module with
                        | None => ret ∅
                        | Some _ => lift (json_loads (state student_module))
                        end;
    let current_state := update current_state st in
    save (with_state student_module (Some (json_dumps current_state))).

(** The row [set_many] writes back over [sm], and the one it creates. *)
Definition written_row (sm : StudentModule) (P : dict) (t : timestamp)
    : StudentModule :=
  with_modified (with_state sm (Some (Dumps (update (fields_of sm) P)))) t.

Definition created_row (u : User) (k : UsageKey) (P : dict) (t : timestamp)
    : StudentModule :=
  mkStudentModule u (course_key k) k (block_type k) (Some (Dumps P)) t.

(** The database after one turn of the loop of [set_many]. *)
Definition set_row_db (u : User) (p : UsageKey * dict) (db : Db) : Db :=
  match List.find (is_row u (course_key p.1) p.1) (table db) with
  | Some sm =>
      mkDb (List.map (fun r => if same_row r sm
                               then written_row sm p.2 (now db) else r)
                     (table db))
           (now db)
           (log db ++ [GetOrCreate u (course_key p.1) p.1;
                       Save (student sm) (course_id sm) (module_state_key sm)])
  | None =>
      mkDb (table db ++ [created_row u p.1 p.2 (now db)])
           (now db)
           (log db ++ [GetOrCreate u (course_key p.1) p.1])
  end.

(** The rows of the users other than [u]. *)
Definition other_users (u : string) (t : list StudentModule) : list StudentModule :=
  List.filter (fun r => negb (bool_decide (username (student r) = u))) t.

(** Does the item have the key [c]? *)
Definition has_key {A} (key : A -> CourseKey) (c : CourseKey) (a : A) : bool :=
  bool_decide (key a = c).

(** The keys of one course in a batch, in the order of the batch. *)
Definition keys_of_course (c : CourseKey) (ks : list UsageKey) : list UsageKey :=
  List.filter (has_key course_key c) ks.

(** * Course tabs: who sees which tab

    A shallow embedding of the access checks and of the textbook tab
    collections of [openedx/core/djangoapps/course_views/tabs.py].  The
    base class [CourseTab], [has_access], [CourseEnrollment.is_enrolled]
    and [get_current_ccx] are code outside this file; the checks take
    what these return as parameters. *)

Module Tabs.

(** What a check returns: [FEATURES.get] may give [None]. *)
Inductive pyval :=
  | PyNone
  | PyBool (b : bool).

(** The truth value of a returned value. *)
Definition truthy (v : pyval) : bool :=
  match v with
  | PyBool true => true
  | _ => false
  end.

(** [x and y]: [x] when it is false, else [y]. *)
Definition py_and (x y : pyval) : pyval := if truthy x then y else x.

(** A user object; [None] at a [user] argument is no user at all. *)
Record TabUser := mkTabUser {
  user_name : string;
  is_authenticated : bool
}.

Record Textbook := mkTextbook { title : string }.

(** The attributes of the course descriptor the checks read;
    [syllabus_present] may be missing ([hasattr]). *)
Record Course := mkCourse {
  id : CourseKey;
  hide_progress_tab : bool;
  allow_public_wiki_access : bool;
  syllabus_present : option bool;
  textbooks : list Textbook;
  pdf_textbooks : list (gmap string string);
  html_textbooks : list (gmap string string)
}.

Record Settings := mkSettings {
  WIKI_ENABLED : bool;
  FEATURES : gmap string bool
}.

(** [settings.FEATURES.get(name)] and [settings.FEATURES.get(name, False)]. *)
Definition features_get (settings : Settings) (name : string) : pyval :=
  match FEATURES settings !! name with
  | Some b => PyBool b
  | None => PyNone
  end.

Definition features_get_default (settings : Settings) (name : string) : bool :=
  default false (FEATURES settings !! name).

Section Access.

(** [courseware.access.has_access(user, action, course, course_key)],
    [CourseEnrollment.is_enrolled(user, course_key)] and the truth value
    of [get_current_ccx()]. *)
Variable has_access : TabUser -> string -> Course -> CourseKey -> bool.
Variable is_enrolled : TabUser -> CourseKey -> bool.
Variable current_ccx : bool.

Definition is_user_staff (course : Course) (user : TabUser) : bool :=
  has_access user "staff" course (id course).

Definition is_user_enrolled_or_staff (course : Course) (user : TabUser) : bool :=
  is_user_staff course user || is_enrolled user (id course).

(** [not user or user.is_authenticated()] *)
Definition AuthenticatedCourseTab_is_enabled (course : Course)
    (settings : Settings) (user : option TabUser) : bool :=
  match user with
  | None => true
  | Some us => is_authenticated us
  end.

Definition EnrolledOrStaffTab_is_enabled (course : Course)
    (settings : Settings) (user : option TabUser) : bool :=
  match user with
  | None => true
  | Some us => is_user_enrolled_or_staff course us
  end.

Definition StaffTab_is_enabled (course : Course)
    (settings : Settings) (user : option TabUser) : bool :=
  match user with
  | None => true
  | Some us => is_user_staff course us
  end.

Definition ProgressTab_is_enabled (course : Course)
    (settings : Settings) (user : option TabUser) : bool :=
  let super_can_display := EnrolledOrStaffTab_is_enabled course settings user in
  super_can_display && negb (hide_progress_tab course).

Definition WikiTab_is_enabled (course : Course)
    (settings : Settings) (user : option TabUser) : bool :=
  if negb (WIKI_ENABLED settings) then false
  else
    match user with
    | None => true
    | Some us =>
        if allow_public_wiki_access course then true
        else is_user_enrolled_or_staff course us
    end.

Definition DiscussionTab_is_enabled (course : Course)
    (settings : Settings) (user : option TabUser) : pyval :=
  if features_get_default settings "CUSTOM_COURSES_EDX" && current_ccx
  then PyBool false
  else
    let super_can_display := EnrolledOrStaffTab_is_enabled course settings user in
    py_and (features_get settings "ENABLE_DISCUSSION_SERVICE")
           (PyBool super_can_display).

Definition TextbookTabs_is_enabled (course : Course)
    (settings : Settings) (user : option TabUser) : pyval :=
  features_get settings "ENABLE_TEXTBOOK".

Definition NotesTab_is_enabled (course : Course)
    (settings : Settings) (user : option TabUser) : pyval :=
  features_get settings "ENABLE_STUDENT_NOTES".

(** [hasattr(course, 'syllabus_present') and course.syllabus_present] *)
Definition SyllabusTab_is_enabled (course : Course)
    (settings : Settings) (user : option TabUser) : bool :=
  match syllabus_present course with
  | None => false
  | Some b => b
  end.

End Access.








End Tabs.

(** * Properties *)

(** ** Running guards *)

Ltac unfold_m :=
  unfold bind, ret, raise, lift, assert_user, check_scope, assert in *.

Lemma assert_user_ok self u db :
  username (user self) = u -> assert_user self u db = (Ok tt, db).
Proof. intros H. unfold_m. by rewrite bool_decide_eq_true_2. Qed.

Lemma assert_user_fails self u db :
  username (user self) <> u -> assert_user self u db = (Raise AssertionError, db).
Proof. intros H. unfold_m. by rewrite bool_decide_eq_false_2. Qed.

Lemma check_scope_ok db : check_scope user_state db = (Ok tt, db).
Proof. unfold_m. by case_decide. Qed.

Lemma check_scope_fails scope db :
  scope <> user_state -> check_scope scope db = (Raise ValueError, db).
Proof. intros H. unfold_m. by case_decide. Qed.

Lemma bind_ok {A B} (m : M A) (f : A -> M B) a db db' :
  m db = (Ok a, db') -> bind m f db = f a db'.
Proof. intros H. unfold bind. by rewrite H. Qed.

Lemma bind_raise {A B} (m : M A) (f : A -> M B) e db db' :
  m db = (Raise e, db') -> bind m f db = (Raise e, db').
Proof. intros H. unfold bind. by rewrite H. Qed.

Lemma guard_ok {A} self u db :
  username (user self) = u -> @guard A self u user_state db = (Ok [], db).
Proof.
  intros H. unfold guard.
  rewrite (bind_ok _ _ tt db db) by by apply assert_user_ok.
  by rewrite (bind_ok _ _ tt db db) by apply check_scope_ok.
Qed.

Lemma guard_bad_user {A} self u scope db :
  username (user self) <> u -> @guard A self u scope db = (Raise AssertionError, db).
Proof. intros H. unfold guard. by apply bind_raise, assert_user_fails. Qed.

Lemma guard_bad_scope {A} self u scope db :
  username (user self) = u -> scope <> user_state ->
  @guard A self u scope db = (Raise ValueError, db).
Proof.
  intros H Hs. unfold guard.
  rewrite (bind_ok _ _ tt db db) by by apply assert_user_ok.
  by apply bind_raise, check_scope_fails.
Qed.

Lemma consume_raise {A} (seg : M (list A)) g e db db' :
  seg db = (Raise e, db') -> consume (seg :: g) db = (Raise e, db').
Proof. intros H. simpl. by apply bind_raise. Qed.

Lemma next_raise {A} (seg : M (list A)) g e db db' :
  seg db = (Raise e, db') -> next (seg :: g) db = (Raise e, db').
Proof. intros H. simpl. by apply bind_raise. Qed.

(** C9: an operation called with a user name that is not the one of the
    user the client was built for ends in [AssertionError], whatever the
    keys and the scope are, and the database, its access log included, is
    as it was.  For the generator methods this is what the first [next],
    and so any consumption, does. *)
Theorem identity_check self order u (H : username (user self) <> u)
    k ks kst st scope fields db :
  get self u k scope fields db = (Raise AssertionError, db)
  /\ set self u k st scope db = (Raise AssertionError, db)
  /\ delete self u k scope fields db = (Raise AssertionError, db)
  /\ get_mod_date self order u k scope fields db = (Raise AssertionError, db)
  /\ next (get_many self u ks scope fields) db = (Raise AssertionError, db)
  /\ consume (get_many self u ks scope fields) db = (Raise AssertionError, db)
  /\ set_many self u kst scope db = (Raise AssertionError, db)
  /\ delete_many self u ks scope fields db = (Raise AssertionError, db)
  /\ next (get_mod_date_many self order u ks scope fields) db = (Raise AssertionError, db)
  /\ consume (get_mod_date_many self order u ks scope fields) db = (Raise AssertionError, db)
  /\ get_history self u k scope db = (Raise AssertionError, db).
Proof.
  pose proof (assert_user_fails self u db H) as Ha.
  pose proof (fun A => @guard_bad_user A self u scope db H) as Hg.
  repeat split.
  - unfold get. by apply bind_raise.
  - unfold set. by apply bind_raise.
  - unfold delete. by apply bind_raise.
  - unfold get_mod_date. apply bind_raise. apply consume_raise, Hg.
  - apply next_raise, Hg.
  - apply consume_raise, Hg.
  - unfold set_many. by apply bind_raise.
  - unfold delete_many. by apply bind_raise.
  - apply next_raise, Hg.
  - apply consume_raise, Hg.
  - unfold get_history. by apply bind_raise.
Qed.

Lemma identity_check_witness :
  get alice "bob" k1 settings None db_null = (Raise AssertionError, db_null)
  /\ set_many alice "bob" {[ k1 := {[ "a" := JNum 1 ]} ]} user_state db_null
     = (Raise AssertionError, db_null).
Proof.
  destruct (identity_check alice map_order "bob" ltac:(discriminate) k1 [k1]
              {[ k1 := {[ "a" := JNum 1 ]} ]} ∅ settings None db_null)
    as (Hget & _).
  destruct (identity_check alice map_order "bob" ltac:(discriminate) k1 [k1]
              {[ k1 := {[ "a" := JNum 1 ]} ]} ∅ user_state None db_null)
    as (_ & _ & _ & _ & _ & _ & Hset & _).
  split; [exact Hget | exact Hset].
Defined.

(** C4: called by the user the client was built for, with a scope other
    than [Scope.user_state], every operation ends in the [ValueError]
    that reports the unsupported scope, and the database, its access log
    included, is as it was: nothing was read and nothing written.  (With
    another user name the identity check comes first.) *)
Theorem unsupported_scope self order u (Hu : username (user self) = u)
    scope (Hs : scope <> user_state) k ks kst st fields db :
  get self u k scope fields db = (Raise ValueError, db)
  /\ set self u k st scope db = (Raise ValueError, db)
  /\ delete self u k scope fields db = (Raise ValueError, db)
  /\ get_mod_date self order u k scope fields db = (Raise ValueError, db)
  /\ next (get_many self u ks scope fields) db = (Raise ValueError, db)
  /\ consume (get_many self u ks scope fields) db = (Raise ValueError, db)
  /\ set_many self u kst scope db = (Raise ValueError, db)
  /\ delete_many self u ks scope fields db = (Raise ValueError, db)
  /\ next (get_mod_date_many self order u ks scope fields) db = (Raise ValueError, db)
  /\ consume (get_mod_date_many self order u ks scope fields) db = (Raise ValueError, db).
Proof.
  pose proof (assert_user_ok self u db Hu) as Ha.
  pose proof (check_scope_fails scope db Hs) as Hc.
  pose proof (fun A => @guard_bad_scope A self u scope db Hu Hs) as Hg.
  assert (Hsm : set_many self u kst scope db = (Raise ValueError, db)).
  { unfold set_many. rewrite (bind_ok _ _ _ _ _ Ha). by apply bind_raise. }
  assert (Hdm : forall l, delete_many self u l scope fields db = (Raise ValueError, db)).
  { intros l. unfold delete_many. rewrite (bind_ok _ _ _ _ _ Ha). by apply bind_raise. }
  repeat split.
  - unfold get. rewrite (bind_ok _ _ _ _ _ Ha). apply bind_raise, next_raise, Hg.
  - unfold set. rewrite (bind_ok _ _ _ _ _ Ha).
    unfold set_many. rewrite (bind_ok _ _ _ _ _ Ha). by apply bind_raise.
  - unfold delete. rewrite (bind_ok _ _ _ _ _ Ha). apply Hdm.
  - unfold get_mod_date. apply bind_raise. apply consume_raise, Hg.
  - apply next_raise, Hg.
  - apply consume_raise, Hg.
  - exact Hsm.
  - apply Hdm.
  - apply next_raise, Hg.
  - apply consume_raise, Hg.
Qed.

Lemma unsupported_scope_witness :
  get alice "alice" k1 settings None db_null = (Raise ValueError, db_null)
  /\ delete_many alice "alice" [k1; k3] content (Some ["a"]) db_null
     = (Raise ValueError, db_null).
Proof.
  destruct (unsupported_scope alice map_order "alice" eq_refl settings ltac:(discriminate)
              k1 [k1] ∅ ∅ None db_null) as (Hget & _).
  destruct (unsupported_scope alice map_order "alice" eq_refl content ltac:(discriminate)
              k1 [k1; k3] ∅ ∅ (Some ["a"]) db_null)
    as (_ & _ & _ & _ & _ & _ & _ & Hdel & _).
  split; [exact Hget | exact Hdel].
Defined.

(** ** The order of course keys *)

Lemma string_compare_lt_trans a b c :
  String.compare a b = Lt -> String.compare b c = Lt -> String.compare a c = Lt.
Proof.
  intros H1 H2. apply String_as_OT.cmp_lt.
  apply String_as_OT.lt_trans with b; by apply String_as_OT.cmp_lt.
Qed.

Lemma field_compare_eq a b : field_compare a b = Eq <-> a = b.
Proof.
  destruct a as [x|], b as [y|]; simpl; try (split; done).
  change (String.compare x y) with (String_as_OT.cmp x y).
  rewrite String_as_OT.cmp_eq. split; [by intros ->|by intros [= ->]].
Qed.

Lemma field_compare_antisym a b : field_compare a b = CompOpp (field_compare b a).
Proof.
  destruct a as [x|], b as [y|]; simpl; try done. apply String.compare_antisym.
Qed.

Lemma field_compare_lt_trans a b c :
  field_compare a b = Lt -> field_compare b c = Lt -> field_compare a c = Lt.
Proof.
  destruct a as [x|], b as [y|], c as [z|]; simpl; try done.
  apply string_compare_lt_trans.
Qed.

Lemma tuple_compare_eq a b : tuple_compare a b = Eq <-> a = b.
Proof.
  revert b. induction a as [|x a IH]; intros [|y b]; simpl; try (split; done).
  destruct (field_compare x y) eqn:E.
  - apply field_compare_eq in E as ->. rewrite IH.
    split; [by intros ->|by intros [= ->]].
  - split; [done|]. intros [= -> _].
    by rewrite (proj2 (field_compare_eq y y) eq_refl) in E.
  - split; [done|]. intros [= -> _].
    by rewrite (proj2 (field_compare_eq y y) eq_refl) in E.
Qed.

Lemma tuple_compare_antisym a b : tuple_compare a b = CompOpp (tuple_compare b a).
Proof.
  revert b. induction a as [|x a IH]; intros [|y b]; simpl; try done.
  rewrite (field_compare_antisym x y).
  destruct (field_compare y x); simpl; [apply IH|done..].
Qed.

Lemma tuple_compare_lt_trans a b c :
  tuple_compare a b = Lt -> tuple_compare b c = Lt -> tuple_compare a c = Lt.
Proof.
  revert b c. induction a as [|x a IH]; intros [|y b] [|z c]; simpl; try done.
  destruct (field_compare x y) eqn:Exy; [|clear IH|done].
  - apply field_compare_eq in Exy as ->.
    destruct (field_compare y z); [apply IH|done..].
  - destruct (field_compare y z) eqn:Eyz; [|intros _ _|done].
    + apply field_compare_eq in Eyz as ->. by rewrite Exy.
    + by rewrite (field_compare_lt_trans x y z).
Qed.

Lemma le_course_spec a b :
  le_course a b
  <-> key_class a = key_class b
      /\ tuple_compare (key_fields a) (key_fields b) <> Gt.
Proof.
  unfold le_course, key_lt. rewrite (tuple_compare_antisym (key_fields b)).
  case_decide as E.
  - destruct (tuple_compare (key_fields a) (key_fields b)); simpl;
      split; try done; try (by intros [_ H]); by intros _.
  - split; [done|]. by intros [H _].
Qed.

Lemma lt_course_spec a b :
  lt_course a b
  <-> key_class a = key_class b
      /\ tuple_compare (key_fields a) (key_fields b) = Lt.
Proof.
  unfold lt_course, key_lt. case_decide as E.
  - destruct (tuple_compare (key_fields a) (key_fields b));
      split; try done; by intros [_ H].
  - split; [done|]. by intros [H _].
Qed.

Lemma le_course_refl a : le_course a a.
Proof.
  apply le_course_spec. split; [done|].
  by rewrite (proj2 (tuple_compare_eq _ _) eq_refl).
Qed.

Lemma le_course_trans a b c : le_course a b -> le_course b c -> le_course a c.
Proof.
  rewrite !le_course_spec. intros [Hab Cab] [Hbc Cbc].
  split; [congruence|]. intros Hgt.
  rewrite tuple_compare_antisym in Hgt.
  destruct (tuple_compare (key_fields c) (key_fields a)) eqn:Eca; try done.
  destruct (tuple_compare (key_fields a) (key_fields b)) eqn:Eab; [| |done].
  - apply tuple_compare_eq in Eab. rewrite Eab in Eca.
    rewrite tuple_compare_antisym, Eca in Cbc. by apply Cbc.
  - pose proof (tuple_compare_lt_trans _ _ _ Eca Eab) as Ecb.
    rewrite tuple_compare_antisym, Ecb in Cbc. by apply Cbc.
Qed.

Lemma le_course_antisym a b : le_course a b -> le_course b a -> a = b.
Proof.
  rewrite !le_course_spec. intros [Hab Cab] [_ Cba].
  rewrite tuple_compare_antisym in Cba.
  destruct (tuple_compare (key_fields a) (key_fields b)) eqn:E; try done.
  apply tuple_compare_eq in E. destruct a, b; simpl in *. by subst.
Qed.

Lemma le_course_total a b :
  key_class a = key_class b -> le_course a b \/ le_course b a.
Proof.
  intros Hc. rewrite !le_course_spec.
  rewrite (tuple_compare_antisym (key_fields b)).
  destruct (tuple_compare (key_fields a) (key_fields b)); simpl; auto.
Qed.

Lemma le_course_class a b : le_course a b -> key_class a = key_class b.
Proof. by intros [H _]%le_course_spec. Qed.

(** [a < b] is [a <= b] between different keys. *)
Lemma lt_course_le a b : lt_course a b <-> le_course a b /\ a <> b.
Proof.
  rewrite lt_course_spec, le_course_spec. split.
  - intros [Hc Hlt]. split; [split; [done|by rewrite Hlt]|].
    intros ->. by rewrite (proj2 (tuple_compare_eq _ _) eq_refl) in Hlt.
  - intros [[Hc Hgt] Hne]. split; [done|].
    destruct (tuple_compare (key_fields a) (key_fields b)) eqn:E; try done.
    apply tuple_compare_eq in E. destruct Hne. destruct a, b; simpl in *.
    by subst.
Qed.

(** What a comparison answers: yes, no, or [TypeError] between classes. *)
Lemma key_lt_cases a b :
  (key_lt a b = Ok true /\ key_class a = key_class b)
  \/ (key_lt a b = Ok false /\ key_class a = key_class b)
  \/ (key_lt a b = Raise TypeError /\ key_class a <> key_class b).
Proof.
  unfold key_lt. case_decide; [|by right; right].
  destruct (tuple_compare _ _); auto.
Qed.

(** ** Sorting and grouping by course *)

Section Grouping.

Context {A : Type}.
Variable key : A -> CourseKey.

#[local] Abbreviation le_key := (le_key key).

Lemma one_class_spec l :
  one_class key l = true
  <-> forall a b, a ∈ l -> b ∈ l -> key_class (key a) = key_class (key b).
Proof.
  destruct l as [|x l]; simpl.
  - split; [|done]. intros _ a b Ha. by apply elem_of_nil in Ha.
  - rewrite forallb_forall. split.
    + intros H a b Ha Hb.
      assert (Hx : forall y, y ∈ x :: l -> key_class (key y) = key_class (key x)).
      { intros y [->|Hy]%elem_of_cons; [done|].
        eapply bool_decide_eq_true_1, H. by apply list_elem_of_In. }
      by rewrite (Hx a), (Hx b).
    + intros H y Hy. apply bool_decide_eq_true_2, H; [|by left].
      right. by apply list_elem_of_In.
Qed.

Lemma one_class_cons x l :
  one_class key (x :: l) = true
  <-> one_class key l = true
      /\ forall y, y ∈ l -> key_class (key y) = key_class (key x).
Proof.
  rewrite !one_class_spec. split.
  - intros H. split.
    + intros a b Ha Hb. apply H; by right.
    + intros y Hy. apply H; [by right|by left].
  - intros [Hl Hx] a b [->|Ha]%elem_of_cons [->|Hb]%elem_of_cons; auto.
    symmetry. auto.
Qed.

Lemma insert_by_perm x l s : insert_by key x l = Ok s -> s ≡ₚ x :: l.
Proof.
  revert s. induction l as [|y l IH]; intros s; simpl.
  - by intros [= <-].
  - destruct (key_lt (key y) (key x)) as [[]|]; [|by intros [= <-]|done].
    destruct (insert_by key x l) as [s'|]; [|done]. intros [= <-].
    rewrite (IH s' eq_refl). apply Permutation_swap.
Qed.

Lemma sorted_perm l s : sorted key l = Ok s -> s ≡ₚ l.
Proof.
  revert s. induction l as [|x l IH]; intros s; simpl.
  - by intros [= <-].
  - destruct (sorted key l) as [s'|]; [|done]. intros Hins.
    by rewrite (insert_by_perm _ _ _ Hins), (IH s' eq_refl).
Qed.

Lemma insert_by_sorted x l s :
  StronglySorted le_key l -> insert_by key x l = Ok s -> StronglySorted le_key s.
Proof.
  intros Hs. revert s. induction Hs as [|y l Hs IH Hall]; intros s; simpl.
  - intros [= <-]. repeat constructor.
  - destruct (key_lt_cases (key y) (key x)) as [[E Hc]|[[E Hc]|[E Hc]]];
      rewrite E; [| |done].
    + destruct (insert_by key x l) as [s'|] eqn:Hins; [|done]. intros [= <-].
      constructor; [by apply IH|].
      rewrite (insert_by_perm _ _ _ Hins). constructor; [|done].
      apply lt_course_le in E. apply E.
    + intros [= <-]. constructor; [by constructor|].
      constructor; [done|].
      eapply Forall_impl; [exact Hall|].
      intros z Hz. unfold le_key in *. by eapply le_course_trans.
Qed.

Lemma sorted_sorted l s : sorted key l = Ok s -> StronglySorted le_key s.
Proof.
  revert s. induction l as [|x l IH]; intros s; simpl.
  - intros [= <-]. constructor.
  - destruct (sorted key l) as [s'|]; [|done].
    apply insert_by_sorted. by apply IH.
Qed.

(** Inserting among items of the class of the new one succeeds. *)
Lemma insert_by_ok x l :
  (forall y, y ∈ l -> key_class (key y) = key_class (key x)) ->
  exists s, insert_by key x l = Ok s.
Proof.
  induction l as [|y l IH]; intros Hl; simpl; [by eexists|].
  destruct (key_lt_cases (key y) (key x)) as [[E Hc]|[[E Hc]|[E Hc]]]; rewrite E.
  - destruct IH as [s ->]; [|by eexists]. intros z Hz. apply Hl. by right.
  - by eexists.
  - destruct Hc. apply Hl. by left.
Qed.

(** Inserting into a sorted list that holds an item of another class
    raises [TypeError]. *)
Lemma insert_by_raises x l y :
  StronglySorted le_key l -> y ∈ l -> key_class (key y) <> key_class (key x) ->
  insert_by key x l = Raise TypeError.
Proof.
  intros Hs Hy Hne. destruct Hs as [|h l Hs Hall]; [by apply elem_of_nil in Hy|].
  simpl. destruct (key_lt_cases (key h) (key x)) as [[E Hc]|[[E Hc]|[E Hc]]];
    rewrite E; [| |done]; exfalso; apply Hne; rewrite <- Hc;
    (apply elem_of_cons in Hy as [->|Hy]; [done|]);
    rewrite Forall_forall in Hall; symmetry; apply le_course_class, Hall, Hy.
Qed.

Lemma sorted_raises_TypeError l e : sorted key l = Raise e -> e = TypeError.
Proof.
  revert e. induction l as [|x l IH]; intros e; simpl; [done|].
  destruct (sorted key l) as [s|e'] eqn:Hs; [|intros [= <-]; by apply IH].
  pose proof (sorted_sorted _ _ Hs) as Hsorted. clear Hs IH.
  induction Hsorted as [|y s Hs IH Hall]; simpl; [done|].
  destruct (key_lt_cases (key y) (key x)) as [[E Hc]|[[E Hc]|[E Hc]]];
    rewrite E; [|done|by intros [= <-]].
  destruct (insert_by key x s); [done|]. intros [= <-]. by apply IH.
Qed.

(** The sort returns when the keys are of one class... *)
Lemma sorted_ok l : one_class key l = true -> exists s, sorted key l = Ok s.
Proof.
  induction l as [|x l IH]; [by eexists|].
  intros [Hl Hx]%one_class_cons. destruct (IH Hl) as [s Hs].
  simpl. rewrite Hs. apply insert_by_ok.
  intros y Hy. apply Hx. by rewrite <- (sorted_perm _ _ Hs).
Qed.

(** ... and raises [TypeError] when they are not. *)
Lemma sorted_raises l : one_class key l = false -> sorted key l = Raise TypeError.
Proof.
  induction l as [|x l IH]; [done|]. intros Hmixed. simpl.
  destruct (sorted key l) as [s|e] eqn:Hs;
    [|by rewrite (sorted_raises_TypeError _ _ Hs)].
  cbn [one_class] in Hmixed.
  destruct (forallb _ l) eqn:Hall; [done|]. clear Hmixed.
  assert (Hy : exists y, y ∈ l /\ key_class (key y) <> key_class (key x)).
  { clear Hs IH. induction l as [|z l IHl]; [done|]. simpl in Hall.
    case_bool_decide as Ez.
    - destruct (IHl Hall) as (y & Hy & Hne). exists y. split; [by right|done].
    - exists z. split; [by left|done]. }
  destruct Hy as (y & Hy & Hne).
  apply (insert_by_raises x s y); [by apply (sorted_sorted l)| |done].
  by rewrite (sorted_perm _ _ Hs).
Qed.

Lemma sorted_Ok_one_kind l s : sorted key l = Ok s -> one_class key l = true.
Proof.
  intros Hs. destruct (one_class key l) eqn:E; [done|].
  by rewrite (sorted_raises l E) in Hs.
Qed.

(** The first run starts with the first item and carries its key. *)
Lemma groupby_head x l :
  exists g rest, groupby key (x :: l) = (key x, x :: g) :: rest.
Proof.
  simpl. destruct (groupby key l) as [|[k g] rest]; [by eexists _, _|].
  case_decide as E; [|by eexists _, _].
  rewrite <- E. by eexists _, _.
Qed.

Lemma groupby_concat l : concat (groupby key l).*2 = l.
Proof.
  induction l as [|x l IH]; simpl; [done|].
  destruct (groupby key l) as [|[k g] rest]; simpl in *; [by rewrite <- IH|].
  case_decide; simpl; by rewrite <- IH.
Qed.

Lemma groupby_same_key l :
  Forall (fun grp => Forall (fun a => key a = grp.1) grp.2) (groupby key l).
Proof.
  induction l as [|x l IH]; simpl; [constructor|].
  destruct (groupby key l) as [|[k g] rest]; [by repeat constructor|].
  inversion_clear IH as [|? ? Hg Hrest].
  case_decide; repeat constructor; done.
Qed.

Lemma groupby_keys l k : k ∈ (groupby key l).*1 <-> k ∈ key <$> l.
Proof.
  induction l as [|x l IH]; [done|].
  rewrite fmap_cons, elem_of_cons, <- IH. cbn [groupby].
  destruct (groupby key l) as [|[k' g] rest].
  - rewrite !fmap_cons, !elem_of_cons. cbn [fst]. tauto.
  - case_decide as E; rewrite !fmap_cons, !elem_of_cons; cbn [fst];
      intuition congruence.
Qed.

Lemma groupby_sorted_NoDup l :
  StronglySorted le_key l -> NoDup (groupby key l).*1.
Proof.
  induction 1 as [|x l Hs IH Hall]; [constructor|].
  cbn [groupby].
  destruct l as [|y l']; [cbn; repeat constructor; set_solver|].
  destruct (groupby_head y l') as (g & rest & Hg).
  rewrite Hg in *. case_decide as E; [done|].
  rewrite fmap_cons. cbn [fst]. constructor; [|done].
  intros Hin. apply E.
  assert (Hin2 : key x ∈ key <$> (y :: l')).
  { apply groupby_keys. by rewrite Hg. }
  apply list_elem_of_fmap in Hin2 as (z & Hz & Hzin).
  apply le_course_antisym.
  - rewrite Forall_forall in Hall. apply Hall. by left.
  - rewrite Hz. apply elem_of_cons in Hzin as [->|Hzin]; [apply le_course_refl|].
    inversion_clear Hs as [|? ? _ Hy]. rewrite Forall_forall in Hy.
    by apply Hy.
Qed.

(** Grouping a sorted batch gives one group per distinct key. *)
Lemma groupby_sorted_length l s :
  sorted key l = Ok s ->
  length (groupby key s) = length (remove_dups (key <$> l)).
Proof.
  intros Hs. rewrite <- (length_fmap fst).
  apply Permutation_length, NoDup_Permutation.
  - by apply groupby_sorted_NoDup, (sorted_sorted l).
  - apply NoDup_remove_dups.
  - intros k. rewrite groupby_keys, elem_of_remove_dups.
    by rewrite (sorted_perm _ _ Hs).
Qed.

End Grouping.

(** The segment of the lookup helper for one group. *)
Lemma get_student_modules_ok u ks :
  one_class course_key ks = true ->
  exists s,
    sorted course_key ks = Ok s
    /\ by_course ks = groupby course_key s
    /\ _get_student_modules u ks
       = List.map
           (fun '(course_key, usage_keys) =>
              do query <- chunked_filter u course_key usage_keys;
              ret (List.map
                     (fun student_module =>
                        (student_module,
                         map_into_course (module_state_key student_module)
                                         (course_id student_module)))
                     query))
           (by_course ks).
Proof.
  intros Hk. destruct (sorted_ok course_key ks Hk) as [s Hs].
  exists s. unfold by_course, _get_student_modules. by rewrite Hs.
Qed.

(** On keys of more than one class the helper raises when advanced. *)
Lemma get_student_modules_mixed u ks :
  one_class course_key ks = false ->
  _get_student_modules u ks = [raise TypeError] /\ by_course ks = [].
Proof.
  intros Hk. unfold by_course, _get_student_modules.
  by rewrite (sorted_raises course_key ks Hk).
Qed.

(** ** What the generators yield *)

Lemma add_events_nil db : add_events [] db = db.
Proof. destruct db. unfold add_events. simpl. by rewrite app_nil_r. Qed.

Lemma add_events_cons e evs db :
  add_events evs (add_event e db) = add_events (e :: evs) db.
Proof. unfold add_events, add_event. simpl. by rewrite <- app_assoc. Qed.

Lemma resolve_add_event db u e grp : resolve (add_event e db) u grp = resolve db u grp.
Proof. reflexivity. Qed.

Lemma mapM_pure {A B} (f : A -> M B) (h : A -> B) l db :
  (forall x db, f x db = (Ok (h x), db)) ->
  mapM f l db = (Ok (List.map h l), db).
Proof.
  intros Hf. induction l as [|x l IH]; simpl; [done|].
  unfold bind. rewrite Hf. fold (@mapM A B). by rewrite IH.
Qed.

Section Segments.

Context {B : Type}.
Variable u : string.
Variable proc : list (StudentModule * UsageKey) -> M (list B).
Variable post : list (StudentModule * UsageKey) -> list B.
Hypothesis proc_pure : forall x db, proc x db = (Ok (post x), db).

(** Running the segments of the lookup helper, each followed by a
    processing step without effects, asks one query per group and leaves
    the table alone. *)
Lemma consume_segments groups db :
  consume
    (List.map (fun seg => do x <- seg; proc x)
       (List.map
          (fun '(course_key, usage_keys) =>
             do query <- chunked_filter u course_key usage_keys;
             ret (List.map
                    (fun student_module =>
                       (student_module,
                        map_into_course (module_state_key student_module)
                                        (course_id student_module)))
                    query))
          groups)) db
  = (Ok (flat_map (fun grp => post (resolve db u grp)) groups),
     add_events (List.map (fun grp => Query u grp.1 grp.2) groups) db).
Proof.
  revert db. induction groups as [|[c g] groups IH]; intros db.
  - simpl. unfold ret. by rewrite add_events_nil.
  - cbn [List.map consume flat_map]. unfold bind at 1 2 3. unfold chunked_filter at 1.
    unfold ret at 1. rewrite proc_pure.
    unfold bind at 1. rewrite IH. unfold ret. cbn [fst snd].
    rewrite add_events_cons. f_equal.
Qed.

End Segments.

Lemma flat_map_map {A B C} (f : A -> list B) (h : B -> C) l :
  flat_map (fun x => List.map h (f x)) l = List.map h (flat_map f l).
Proof.
  induction l as [|x l IH]; simpl; [done|].
  by rewrite IH, List.map_app.
Qed.

Lemma flat_map_concat_map {A B C} (f : A -> list B) (h : B -> list C) l :
  flat_map (fun x => concat (List.map h (f x))) l = flat_map h (flat_map f l).
Proof.
  induction l as [|x l IH]; simpl; [done|].
  rewrite IH. rewrite List.flat_map_app. f_equal.
  induction (f x) as [|y ys IHy]; simpl; [done|]. by rewrite IHy.
Qed.

(** [get_many], run to its end by its owner, yields the whole stored
    field map of every row found. *)
Lemma consume_get_many self u ks fields db :
  username (user self) = u ->
  one_class course_key ks = true ->
  consume (get_many self u ks user_state fields) db
  = (Ok (List.map entry (student_modules_of db u ks)), add_events (queries u ks) db).
Proof.
  intros Hu Hk. unfold get_many. cbn [consume].
  rewrite (bind_ok _ _ [] db db) by by apply (@guard_ok _ self u db).
  destruct (get_student_modules_ok u ks Hk) as (s & _ & _ & ->).
  unfold bind at 1.
  rewrite (consume_segments u _ (List.map entry)).
  - unfold ret. cbn [app]. unfold student_modules_of, queries.
    by rewrite flat_map_map.
  - intros x db1. apply mapM_pure. intros [sm k] db2.
    unfold entry, fields_of, bind, ret, lift. simpl. by destruct (state sm).
Qed.

(** [get_mod_date_many], run to its end by its owner. *)
Lemma consume_get_mod_date_many self order u ks fields db :
  username (user self) = u ->
  one_class course_key ks = true ->
  consume (get_mod_date_many self order u ks user_state fields) db
  = (Ok (flat_map (dates_of order) (student_modules_of db u ks)),
     add_events (queries u ks) db).
Proof.
  intros Hu Hk. unfold get_mod_date_many. cbn [consume].
  rewrite (bind_ok _ _ [] db db) by by apply (@guard_ok _ self u db).
  destruct (get_student_modules_ok u ks Hk) as (s & _ & _ & ->).
  unfold bind at 1.
  rewrite (consume_segments u _ (fun x => concat (List.map (dates_of order) x))).
  - unfold ret. cbn [app]. unfold student_modules_of, queries.
    by rewrite flat_map_concat_map.
  - intros x db1. unfold bind.
    rewrite (mapM_pure _ (dates_of order)); [done|].
    intros [sm k] db2. unfold dates_of, bind, ret, lift. simpl.
    by destruct (state sm).
Qed.

(** On a batch with keys of more than one class the generators raise
    [TypeError] when first advanced, after their two checks and before
    any query. *)
Lemma get_many_mixed self u ks fields db :
  username (user self) = u ->
  one_class course_key ks = false ->
  consume (get_many self u ks user_state fields) db = (Raise TypeError, db)
  /\ next (get_many self u ks user_state fields) db = (Raise TypeError, db).
Proof.
  intros Hu Hk. unfold get_many. cbn [consume next].
  destruct (get_student_modules_mixed u ks Hk) as [-> _].
  split; by rewrite (bind_ok _ _ [] db db) by by apply (@guard_ok _ self u db).
Qed.

Lemma get_mod_date_many_mixed self order u ks fields db :
  username (user self) = u ->
  one_class course_key ks = false ->
  consume (get_mod_date_many self order u ks user_state fields) db
  = (Raise TypeError, db)
  /\ next (get_mod_date_many self order u ks user_state fields) db
     = (Raise TypeError, db).
Proof.
  intros Hu Hk. unfold get_mod_date_many. cbn [consume next].
  destruct (get_student_modules_mixed u ks Hk) as [-> _].
  split; by rewrite (bind_ok _ _ [] db db) by by apply (@guard_ok _ self u db).
Qed.

(** ** Rows and their keys *)

Lemma map_into_course_id k : map_into_course k (course_key k) = k.
Proof. by destruct k. Qed.

Lemma in_query_single u k sm :
  in_query u (course_key k) [k] sm = is_row (mkUser u) (course_key k) k sm.
Proof.
  unfold in_query, is_row. apply bool_decide_ext.
  rewrite list_elem_of_singleton.
  destruct sm as [[n] c m ty s t]; simpl. split.
  - by intros (-> & -> & ->).
  - intros (H & -> & ->). by inversion H.
Qed.

Lemma by_course_single k : by_course [k] = [(course_key k, [k])].
Proof. reflexivity. Qed.

Lemma find_filter {A} (p : A -> bool) l :
  List.find p l = head (List.filter p l).
Proof.
  induction l as [|x l IH]; simpl; [done|]. by destruct (p x).
Qed.

Lemma resolve_single db u k :
  resolve db u (course_key k, [k])
  = List.map (fun sm => (sm, k))
      (List.filter (is_row (mkUser u) (course_key k) k) (table db)).
Proof.
  unfold resolve. cbn [fst snd].
  rewrite (List.filter_ext _ _ (in_query_single u k)).
  apply List.map_ext_in. intros sm [_ Hsm]%List.filter_In.
  unfold is_row in Hsm. apply bool_decide_eq_true in Hsm as (_ & -> & ->).
  by rewrite map_into_course_id.
Qed.

Lemma student_modules_of_single db u k :
  student_modules_of db u [k] = resolve db u (course_key k, [k]).
Proof. unfold student_modules_of. rewrite by_course_single. simpl. by rewrite app_nil_r. Qed.

Lemma head_resolve_single db u k :
  head (resolve db u (course_key k, [k])) = (fun sm => (sm, k)) <$> find_row db u k.
Proof.
  rewrite resolve_single. unfold find_row. rewrite find_filter.
  by destruct (List.filter _ _).
Qed.

Lemma unique_filter t u c k sm :
  unique_together t ->
  List.find (is_row u c k) t = Some sm ->
  List.filter (is_row u c k) t = [sm].
Proof.
  unfold unique_together. induction t as [|r t IH]; [done|].
  rewrite fmap_cons, NoDup_cons. intros [Hnin Hnd]. simpl.
  destruct (is_row u c k r) eqn:E.
  - intros [= ->]. f_equal.
    destruct (List.filter (is_row u c k) t) as [|r' l] eqn:F; [done|].
    exfalso. apply Hnin.
    assert (Hr' : In r' (List.filter (is_row u c k) t)) by (rewrite F; by left).
    apply List.filter_In in Hr' as [Hin Hrow].
    apply list_elem_of_fmap. exists r'. split; [|by apply list_elem_of_In].
    unfold is_row, row_key in *.
    apply bool_decide_eq_true in E as (-> & -> & ->).
    by apply bool_decide_eq_true in Hrow as (-> & -> & ->).
  - by apply IH.
Qed.

(** [next] of [get_many] on a batch of one key. *)
Lemma next_get_many_single self u k fields db :
  username (user self) = u ->
  next (get_many self u [k] user_state fields) db
  = (Ok ((fun sm => (k, fields_of sm)) <$> find_row db u k),
     add_event (Query u (course_key k) [k]) db).
Proof.
  intros Hu. unfold get_many. cbn [next].
  rewrite (bind_ok _ _ [] db db) by by apply (@guard_ok _ self u db).
  unfold _get_student_modules. cbn [sorted insert_by groupby].
  cbn [List.map next]. unfold bind at 1 2 3. unfold chunked_filter at 1.
  unfold ret at 1.
  rewrite (mapM_pure _ entry).
  2:{ intros [sm k'] db2. unfold entry, fields_of, bind, ret, lift. simpl.
      by destruct (state sm). }
  change (List.map _ (List.filter _ (table db)))
    with (resolve db u (course_key k, [k])).
  pose proof (head_resolve_single db u k) as Hh.
  destruct (resolve db u (course_key k, [k])) as [|[sm k'] l]; simpl in *.
  - by destruct (find_row db u k).
  - destruct (find_row db u k); by simplify_eq/=.
Qed.

(** [get] by the owner: the stored map, or [DoesNotExist]. *)
Lemma get_eval self u k fields db :
  username (user self) = u ->
  get self u k user_state fields db
  = (match stored db u k with
     | Some d => Ok d
     | None => Raise DoesNotExist
     end, add_event (Query u (course_key k) [k]) db).
Proof.
  intros Hu. unfold get.
  rewrite (bind_ok _ _ tt db db) by by apply assert_user_ok.
  unfold bind. rewrite next_get_many_single by done.
  unfold stored. by destruct (find_row db u k).
Qed.

(** ** Writing a row *)

Lemma find_save (p : StudentModule -> bool) sm0 sm sm' l :
  List.find p l = Some sm0 ->
  (forall r, same_row r sm = p r) ->
  p sm' = true ->
  List.find p (List.map (fun r => if same_row r sm then sm' else r) l) = Some sm'.
Proof.
  intros Hfind Hsame Hsm'. induction l as [|r l IH]; [done|].
  simpl in *. rewrite Hsame. destruct (p r) eqn:E.
  - by rewrite Hsm'.
  - rewrite E. by apply IH.
Qed.

Lemma find_app_new {A} (p : A -> bool) l x :
  List.find p l = None -> p x = true -> List.find p (l ++ [x]) = Some x.
Proof.
  intros Hnone Hx. induction l as [|y l IH]; simpl in *; [by rewrite Hx|].
  destruct (p y); [done|]. by apply IH.
Qed.

Lemma is_row_found u c k t sm :
  List.find (is_row u c k) t = Some sm ->
  student sm = u /\ course_id sm = c /\ module_state_key sm = k.
Proof.
  intros [_ H]%List.find_some. by apply bool_decide_eq_true in H.
Qed.

Lemma same_row_key r sm : same_row r sm = true <-> row_key r = row_key sm.
Proof.
  unfold same_row, row_key. rewrite bool_decide_eq_true. split.
  - by intros (-> & -> & ->).
  - by intros [= -> -> ->].
Qed.

Lemma unique_save t sm sm' :
  row_key sm' = row_key sm ->
  unique_together t ->
  unique_together (List.map (fun r => if same_row r sm then sm' else r) t).
Proof.
  intros Hk. unfold unique_together.
  assert (Heq : row_key <$> List.map (fun r => if same_row r sm then sm' else r) t
                = row_key <$> t).
  { induction t as [|r t IH]; [done|]. cbn [List.map]. rewrite !fmap_cons, IH.
    f_equal. destruct (same_row r sm) eqn:E; [|done].
    apply same_row_key in E. by rewrite Hk, E. }
  unfold row_key in *. by rewrite Heq.
Qed.

Lemma unique_create t sm :
  List.find (is_row (student sm) (course_id sm) (module_state_key sm)) t = None ->
  unique_together t ->
  unique_together (t ++ [sm]).
Proof.
  intros Hnone. unfold unique_together. rewrite fmap_app. intros Hnd.
  apply NoDup_app. split; [done|]. split; [|apply NoDup_singleton].
  intros x Hx Hx'. apply list_elem_of_singleton in Hx' as ->.
  apply list_elem_of_fmap in Hx as (r & Hr & Hin).
  apply list_elem_of_In in Hin.
  pose proof (List.find_none _ _ Hnone r Hin) as Hrow.
  apply bool_decide_eq_false in Hrow. apply Hrow.
  by injection Hr as -> -> ->.
Qed.

(** [set] by the owner: the row of the key afterwards holds the overlay
    of the new fields on the stored ones and the time of the write. *)
Lemma set_eval self u k P db :
  username (user self) = u ->
  exists db' sm',
    set self u k P user_state db = (Ok tt, db')
    /\ find_row db' u k = Some sm'
    /\ state sm' = Some (Dumps (update (default ∅ (stored db u k)) P))
    /\ modified sm' = now db
    /\ now db' = now db
    /\ (unique_together (table db) -> unique_together (table db')).
Proof.
  intros Hu. destruct self as [[n]]. simpl in Hu. subst n.
  unfold set, set_many.
  rewrite !(bind_ok _ _ tt db db) by (by apply assert_user_ok || apply check_scope_ok).
  rewrite map_to_list_singleton. cbn [for_list user].
  unfold bind at 1 2. unfold get_or_create at 1. unfold stored.
  fold (find_row db u k). destruct (find_row db u k) as [sm|] eqn:F.
  - destruct (is_row_found _ _ _ _ _ F) as (Hs & Hc & Hk).
    set (d := update (fields_of sm) P).
    assert (Hd : (do current_state <- match state sm with
                                      | Some _ => lift (json_loads (state sm))
                                      | None => ret ∅
                                      end;
                  save (with_state sm (Some (json_dumps (update current_state P)))))
                 (add_event (GetOrCreate (mkUser u) (course_key k) k) db)
                 = save (with_state sm (Some (Dumps d)))
                     (add_event (GetOrCreate (mkUser u) (course_key k) k) db)).
    { unfold d, fields_of, bind, lift, ret, json_loads. by destruct (state sm). }
    rewrite Hd. unfold save, ret. cbn [with_state student course_id module_state_key].
    eexists _, (with_modified (with_state sm (Some (Dumps d))) (now db)).
    split; [reflexivity|]. split; [|split; [done|split; [done|split; [done|]]]].
    + unfold find_row. cbn [table add_event].
      apply (find_save _ sm); [done| |].
      * intros r. unfold same_row, is_row. simpl. by rewrite Hs, Hc, Hk.
      * unfold is_row. simpl. rewrite Hs, Hc, Hk. by apply bool_decide_eq_true.
    + cbn [table add_event]. by apply unique_save.
  - unfold ret.
    eexists _, (mkStudentModule (mkUser u) (course_key k) k (block_type k)
                  (Some (json_dumps P)) (now db)).
    split; [reflexivity|].
    split; [|split; [|split; [done|split; [done|]]]].
    + unfold find_row. cbn [table add_event].
      apply find_app_new; [done|].
      unfold is_row. simpl. by apply bool_decide_eq_true.
    + unfold update; simpl. by rewrite (right_id_L ∅ (∪)).
    + cbn [table add_event]. by apply unique_create.
Qed.

Lemma stored_find_row db u k sm :
  find_row db u k = Some sm -> stored db u k = Some (fields_of sm).
Proof. unfold stored. by intros ->. Qed.

(** C1: after [set(u, k, P)] by the owner, [get(u, k)] returns the stored
    field map overlaid with [P]: a key of [P] reads as [P] has it, any
    other key as it was stored; with no record before, it returns [P]
    itself.  So a set of a:1 is read back as a:1, and a further set of
    b:2 makes it a:1, b:2. *)
Theorem set_then_get self u (Hu : username (user self) = u) k P fields db :
  exists db',
    set self u k P user_state db = (Ok tt, db')
    /\ (get self u k user_state fields db').1
       = Ok (update (default ∅ (stored db u k)) P)
    /\ (forall f,
          update (default ∅ (stored db u k)) P !! f
          = match P !! f with
            | Some v => Some v
            | None => default ∅ (stored db u k) !! f
            end)
    /\ (stored db u k = None -> (get self u k user_state fields db').1 = Ok P)
    /\ (stored db u k = None -> P = {[ "a" := JNum 1 ]} ->
        (get self u k user_state fields db').1 = Ok {[ "a" := JNum 1 ]}
        /\ exists db'',
             set self u k {[ "b" := JNum 2 ]} user_state db' = (Ok tt, db'')
             /\ (get self u k user_state fields db'').1
                = Ok {[ "a" := JNum 1; "b" := JNum 2 ]}).
Proof.
  destruct (set_eval self u k P db Hu) as (db' & sm' & Hset & Hfind & Hst & _).
  assert (Hget : (get self u k user_state fields db').1
                 = Ok (update (default ∅ (stored db u k)) P)).
  { rewrite get_eval by done. cbn [fst].
    rewrite (stored_find_row _ _ _ _ Hfind). unfold fields_of. by rewrite Hst. }
  assert (Hnew : stored db u k = None -> (get self u k user_state fields db').1 = Ok P).
  { intros Hn. rewrite Hget, Hn. unfold update. simpl. by rewrite (right_id_L ∅ (∪)). }
  exists db'. split; [done|]. split; [done|]. split; [|split; [done|]].
  { intros f. unfold update. rewrite lookup_union.
    destruct (P !! f), (default ∅ (stored db u k) !! f); done. }
  intros Hn ->. split; [by apply Hnew|].
  - destruct (set_eval self u k {[ "b" := JNum 2 ]} db' Hu)
      as (db'' & sm'' & Hset2 & Hfind2 & Hst2 & _).
    exists db''. split; [done|].
    rewrite get_eval by done. cbn [fst].
    rewrite (stored_find_row _ _ _ _ Hfind2). unfold fields_of. rewrite Hst2.
    rewrite (stored_find_row _ _ _ _ Hfind). unfold fields_of. rewrite Hst.
    rewrite Hn. reflexivity.
Qed.

Lemma set_then_get_witness :
  exists db',
    set alice "alice" k1 {[ "a" := JNum 1 ]} user_state db0 = (Ok tt, db')
    /\ (get alice "alice" k1 user_state None db').1 = Ok {[ "a" := JNum 1 ]}.
Proof.
  destruct (set_then_get alice "alice" eq_refl k1 {[ "a" := JNum 1 ]} None db0)
    as (db' & Hset & _ & _ & Hnew & _).
  exists db'. split; [exact Hset|]. apply Hnew. reflexivity.
Defined.

(** ** Which rows a batch resolves to *)

Lemma by_course_elem ks c g k :
  In (c, g) (by_course ks) -> In k g -> course_key k = c /\ In k ks.
Proof.
  unfold by_course. destruct (sorted course_key ks) as [s|] eqn:Hs; [|done].
  intros Hg Hk. split.
  - pose proof (groupby_same_key course_key s) as Hall.
    rewrite Forall_forall in Hall. apply list_elem_of_In, Hall in Hg.
    rewrite Forall_forall in Hg. by apply Hg, list_elem_of_In.
  - apply list_elem_of_In. rewrite <- (sorted_perm course_key ks s Hs).
    rewrite <- (groupby_concat course_key s).
    apply list_elem_of_In, in_concat. exists g. split; [|done].
    apply list_elem_of_In, list_elem_of_fmap. exists (c, g).
    split; [done|]. by apply list_elem_of_In.
Qed.

Lemma by_course_covers ks k :
  one_class course_key ks = true ->
  In k ks -> exists g, In (course_key k, g) (by_course ks) /\ In k g.
Proof.
  intros Hone Hk. apply list_elem_of_In in Hk.
  destruct (get_student_modules_ok "" ks Hone) as (s & Hs & Hby & _).
  rewrite <- (sorted_perm course_key ks s Hs) in Hk.
  rewrite <- (groupby_concat course_key s), <- Hby in Hk.
  apply list_elem_of_In, in_concat in Hk as (g & Hg & Hkg).
  apply list_elem_of_In, list_elem_of_fmap in Hg as ([c g'] & -> & Hin).
  apply list_elem_of_In in Hin. simpl in Hkg.
  destruct (by_course_elem ks c g' k Hin Hkg) as [<- _]. by exists g'.
Qed.

(** The helper yields exactly the rows of the user whose key is in the
    batch, each under its own key. *)
Lemma student_modules_of_spec db u ks sm k :
  one_class course_key ks = true ->
  In (sm, k) (student_modules_of db u ks)
  <-> In sm (table db) /\ is_row (mkUser u) (course_key k) k sm = true /\ In k ks.
Proof.
  intros Hone. unfold student_modules_of. rewrite in_flat_map. split.
  - intros ([c g] & Hg & Hin). unfold resolve in Hin. cbn [fst snd] in Hin.
    apply in_map_iff in Hin as (sm' & [= -> <-] & Hf).
    apply List.filter_In in Hf as [Hsm Hq].
    apply bool_decide_eq_true in Hq as (Hu & Hc & Hm).
    apply list_elem_of_In in Hm.
    destruct (by_course_elem ks c g _ Hg Hm) as [Hck Hks].
    rewrite Hc, <- Hck, map_into_course_id.
    split; [done|]. split; [|done].
    apply bool_decide_eq_true. destruct sm as [[n] ? ? ? ? ?]; simpl in *.
    by subst.
  - intros (Hsm & Hrow & Hk).
    destruct (by_course_covers ks k Hone Hk) as (g & Hg & Hkg).
    exists (course_key k, g). split; [done|].
    apply bool_decide_eq_true in Hrow as (Hs & Hc & Hm).
    unfold resolve. apply in_map_iff. exists sm. split.
    + by rewrite Hc, Hm, map_into_course_id.
    + apply List.filter_In. split; [done|].
      apply bool_decide_eq_true. cbn [fst snd]. rewrite Hs, Hm.
      split; [done|]. split; [done|]. by apply list_elem_of_In.
Qed.

Lemma stored_none_iff db u k :
  stored db u k = None
  <-> forall sm, In sm (table db) -> is_row (mkUser u) (course_key k) k sm = false.
Proof.
  unfold stored, find_row. split.
  - intros H sm Hsm. destruct (List.find _ _) eqn:F; [done|].
    by apply (List.find_none _ _ F).
  - intros H. destruct (List.find _ _) as [sm|] eqn:F; [|done].
    apply List.find_some in F as [Hin Hrow]. by rewrite (H sm Hin) in Hrow.
Qed.

(** C5: [get_many] yields no entry for a key without a record, rather
    than an entry with an empty map: whatever the batch is and however
    consuming it ends, a list it returns has no entry under such a key.
    On a batch whose course keys are of one class it does return, with an
    entry, the stored map, for every key of the batch that has a record;
    on any other batch it raises [TypeError] and yields nothing.  [get]
    raises [DoesNotExist] exactly when the batch of that one key yields
    nothing, which for the owner and the supported scope is exactly when
    the key has no record. *)
Theorem missing_records self u (Hu : username (user self) = u) ks k fields db :
  (stored db u k = None ->
   forall batch db',
     consume (get_many self u ks user_state fields) db = (Ok batch, db') ->
     k ∉ batch.*1)
  /\ (one_class course_key ks = true ->
      exists batch,
        (consume (get_many self u ks user_state fields) db).1 = Ok batch
        /\ (stored db u k = None -> k ∉ batch.*1)
        /\ (forall k' d, In k' ks -> stored db u k' = Some d ->
                         (k', d) ∈ batch))
  /\ (one_class course_key ks = false ->
      consume (get_many self u ks user_state fields) db = (Raise TypeError, db))
  /\ (forall scope,
        (get self u k scope fields db).1 = Raise DoesNotExist
        <-> (consume (get_many self u [k] scope fields) db).1 = Ok [])
  /\ ((get self u k user_state fields db).1 = Raise DoesNotExist
      <-> stored db u k = None).
Proof.
  assert (Hget : (get self u k user_state fields db).1 = Raise DoesNotExist
                 <-> stored db u k = None).
  { rewrite get_eval by done. cbn [fst]. by destruct (stored db u k). }
  assert (Hmiss : one_class course_key ks = true -> stored db u k = None ->
                  k ∉ (List.map entry (student_modules_of db u ks)).*1).
  { intros Hone Hnone Hin.
    apply list_elem_of_fmap in Hin as ([k' d] & Hk & Hin).
    apply list_elem_of_In, in_map_iff in Hin as ([sm k''] & [= <- <-] & Hin).
    simpl in Hk. subst k''.
    apply student_modules_of_spec in Hin as (Hsm & Hrow & _); [|done].
    rewrite stored_none_iff in Hnone.
    by rewrite (Hnone sm Hsm) in Hrow. }
  split; [|split; [|split; [|split; [|done]]]].
  - intros Hnone batch db' Hrun.
    destruct (one_class course_key ks) eqn:Hone.
    + rewrite consume_get_many in Hrun by done. injection Hrun as <- _.
      by apply Hmiss.
    + destruct (get_many_mixed self u ks fields db Hu Hone) as (Hraise & _).
      by rewrite Hraise in Hrun.
  - intros Hone. eexists. rewrite consume_get_many by done.
    split; [reflexivity|]. split; [by apply Hmiss|].
    intros k' d Hk' Hst. unfold stored in Hst.
    destruct (find_row db u k') as [sm|] eqn:Hf; [|done].
    injection Hst as <-. apply List.find_some in Hf as [Hin Hrow].
    apply list_elem_of_In, in_map_iff. exists (sm, k'). split; [done|].
    by apply student_modules_of_spec.
  - intros Hone.
    by destruct (get_many_mixed self u ks fields db Hu Hone) as (Hraise & _).
  - intros scope. destruct (decide (scope = user_state)) as [->|Hs].
    + rewrite Hget, consume_get_many by done. cbn [fst].
      rewrite student_modules_of_single, resolve_single.
      unfold stored, find_row. rewrite find_filter.
      by destruct (List.filter _ _).
    + unfold get. rewrite (bind_ok _ _ tt db db) by by apply assert_user_ok.
      rewrite (bind_raise _ _ ValueError db db)
        by by apply next_raise, (@guard_bad_scope _ self u scope db).
      assert (Hc : consume (get_many self u [k] scope fields) db
                   = (Raise ValueError, db))
        by by apply consume_raise, (@guard_bad_scope _ self u scope db).
      by rewrite Hc.
Qed.

Lemma missing_records_witness :
  (exists batch,
     (consume (get_many alice "alice" [k1; k3] user_state None) db_alice).1
     = Ok batch
     /\ (k3 ∉ batch.*1) /\ ((k1, {[ "a" := JNum 1; "b" := JNum 2 ]}) ∈ batch))
  /\ (get alice "alice" k3 user_state None db_alice).1 = Raise DoesNotExist.
Proof.
  destruct (missing_records alice "alice" eq_refl [k1; k3] k3 None db_alice)
    as (_ & Hone & _ & _ & Hget).
  destruct (Hone eq_refl) as (batch & Hb & Hmiss & Hin).
  split; [|by apply Hget].
  exists batch. split; [exact Hb|]. split; [by apply Hmiss|].
  apply Hin; [by left|reflexivity].
Defined.

(** ** Single-key operations as batches of one *)

Lemma batch_of_one_unique self u k fields db :
  username (user self) = u ->
  unique_together (table db) ->
  exists batch,
    (consume (get_many self u [k] user_state fields) db).1 = Ok batch
    /\ length batch <= 1.
Proof.
  intros Hu Huniq. rewrite consume_get_many by done. cbn [fst].
  eexists. split; [reflexivity|].
  rewrite length_map, student_modules_of_single, resolve_single, length_map.
  destruct (List.find (is_row (mkUser u) (course_key k) k) (table db)) as [sm|] eqn:F.
  - rewrite (unique_filter _ _ _ _ _ Huniq F). simpl. lia.
  - rewrite find_filter in F. destruct (List.filter _ _); [simpl; lia|done].
Qed.

(** C7: each single-key operation does what its plural does on a batch of
    one key: [get] returns the state of the entry the batch yields and
    raises [DoesNotExist] when it yields none; [set], [delete] and
    [get_mod_date] are [set_many], [delete_many] and the collected
    [get_mod_date_many].  Under the table's uniqueness constraint the
    batch of one key has at most one entry. *)
Theorem single_key_is_batch self order u k st scope fields db :
  get self u k scope fields db = get_as_batch self u k scope fields db
  /\ set self u k st scope db = set_as_batch self u k st scope db
  /\ delete self u k scope fields db = delete_as_batch self u k scope fields db
  /\ get_mod_date self order u k scope fields db
     = get_mod_date_as_batch self order u k scope fields db
  /\ (username (user self) = u -> unique_together (table db) ->
      exists batch,
        (consume (get_many self u [k] user_state fields) db).1 = Ok batch
        /\ length batch <= 1).
Proof.
  split; [|split; [|split; [|split]]].
  - unfold get, get_as_batch.
    destruct (decide (username (user self) = u)) as [Hu|Hu].
    + rewrite (bind_ok _ _ tt db db) by by apply assert_user_ok.
      destruct (decide (scope = user_state)) as [->|Hs].
      * unfold bind. rewrite next_get_many_single, consume_get_many by done.
        rewrite student_modules_of_single, resolve_single.
        unfold find_row. rewrite find_filter.
        by destruct (List.filter _ _).
      * rewrite (bind_raise _ _ ValueError db db)
          by by apply next_raise, (@guard_bad_scope _ self u scope db).
        symmetry. apply bind_raise.
        by apply consume_raise, (@guard_bad_scope _ self u scope db).
    + rewrite (bind_raise _ _ AssertionError db db) by by apply assert_user_fails.
      symmetry. apply bind_raise.
      by apply consume_raise, (@guard_bad_user _ self u scope db).
  - unfold set, set_as_batch.
    destruct (decide (username (user self) = u)) as [Hu|Hu].
    + by rewrite (bind_ok _ _ tt db db) by by apply assert_user_ok.
    + rewrite (bind_raise _ _ AssertionError db db) by by apply assert_user_fails.
      symmetry. unfold set_many. by apply bind_raise, assert_user_fails.
  - unfold delete, delete_as_batch.
    destruct (decide (username (user self) = u)) as [Hu|Hu].
    + by rewrite (bind_ok _ _ tt db db) by by apply assert_user_ok.
    + rewrite (bind_raise _ _ AssertionError db db) by by apply assert_user_fails.
      symmetry. unfold delete_many. by apply bind_raise, assert_user_fails.
  - reflexivity.
  - apply batch_of_one_unique.
Qed.

Lemma single_key_is_batch_witness :
  get alice "alice" k1 user_state None db_null
  = get_as_batch alice "alice" k1 user_state None db_null
  /\ exists batch,
       (consume (get_many alice "alice" [k1] user_state None) db_null).1 = Ok batch
       /\ length batch <= 1.
Proof.
  destruct (single_key_is_batch alice map_order "alice" k1 ∅ user_state None db_null)
    as (Hget & _ & _ & _ & Huniq).
  split; [exact Hget|].
  apply Huniq; [reflexivity|].
  unfold unique_together. simpl. apply NoDup_singleton.
Defined.

(** C3: the [fields] argument of [get_many] changes nothing: for every
    [fields] the generator is the one for [None], so advancing or
    consuming it gives the same entries, or the same exception, and
    leaves the same database.  For the owner and a batch whose course
    keys are of one class, each entry carries the whole stored field map
    of its row, the fields not named in [fields] included; on any other
    batch both calls raise [TypeError] before any query. *)
Theorem get_many_ignores_fields self u ks scope fields db :
  get_many self u ks scope fields = get_many self u ks scope None
  /\ consume (get_many self u ks scope fields) db
     = consume (get_many self u ks scope None) db
  /\ next (get_many self u ks scope fields) db
     = next (get_many self u ks scope None) db
  /\ (username (user self) = u -> one_class course_key ks = true ->
      (consume (get_many self u ks user_state fields) db).1
      = Ok (List.map (fun p => (p.2, fields_of p.1)) (student_modules_of db u ks)))
  /\ (username (user self) = u -> one_class course_key ks = false ->
      consume (get_many self u ks user_state fields) db = (Raise TypeError, db)).
Proof.
  split; [reflexivity|]. split; [reflexivity|]. split; [reflexivity|]. split.
  - intros Hu Hone. by rewrite consume_get_many.
  - intros Hu Hone. by destruct (get_many_mixed self u ks fields db Hu Hone).
Qed.

Lemma get_many_ignores_fields_witness :
  (consume (get_many alice "alice" [k1; k3] user_state (Some ["a"])) db_alice).1
  = Ok [(k1, {[ "a" := JNum 1; "b" := JNum 2 ]})].
Proof.
  exact (proj1 (proj2 (proj2 (proj2
           (get_many_ignores_fields alice "alice" [k1; k3] user_state
              (Some ["a"]) db_alice)))) eq_refl eq_refl).
Defined.

(** ** Queries per batch *)

Lemma count_queries_app evs evs' :
  count_queries (evs ++ evs') = count_queries evs + count_queries evs'.
Proof. unfold count_queries. by rewrite List.filter_app, length_app. Qed.

Lemma count_queries_queries u ks :
  one_class course_key ks = true ->
  count_queries (queries u ks) = length (remove_dups (course_key <$> ks)).
Proof.
  intros Hone. destruct (get_student_modules_ok u ks Hone) as (s & Hs & Hby & _).
  unfold queries. rewrite Hby, <- (groupby_sorted_length course_key ks s Hs).
  generalize (groupby course_key s).
  intros l. unfold count_queries. induction l as [|grp l IH]; simpl; [done|].
  by rewrite IH.
Qed.

(** C8, as it stands, fails on a batch whose course keys are of two
    classes: the batch of an old-style key and a course-v1 key spans two
    courses, yet consuming [get_many] raises [TypeError] from the sort
    and asks no query at all. *)
Lemma one_query_per_course_counterexample :
  length (remove_dups (course_key <$> [k_old; k1])) = 2
  /\ consume (get_many alice "alice" [k_old; k1] user_state None) db0
     = (Raise TypeError, db0)
  /\ count_queries
       (log (consume (get_many alice "alice" [k_old; k1] user_state None) db0).2)
     = 0.
Proof. split; [|split]; reflexivity. Qed.

(** C8, amended: run to its end by its owner on a batch whose course
    keys are of one class, [get_many] asks the record store one batch
    query per group of the lookup helper and nothing else; the groups
    are as many as the distinct courses of the batch, each group holds
    keys of one course only, and together they hold the keys of the
    batch.  So such a batch over N courses costs N queries, however many
    keys it has.  On a batch with keys of more than one class the sort
    raises [TypeError] and no query is asked.  In both cases the table is
    left as it was. *)
Theorem one_query_per_course self u (Hu : username (user self) = u)
    ks fields db :
  let db' := (consume (get_many self u ks user_state fields) db).2 in
  (one_class course_key ks = true ->
   log db' = log db ++ queries u ks
   /\ count_queries (log db')
      = count_queries (log db) + length (remove_dups (course_key <$> ks))
   /\ Forall (fun e => exists c g, e = Query u c g
                                   /\ Forall (fun k => course_key k = c) g)
             (queries u ks)
   /\ concat (by_course ks).*2 ≡ₚ ks)
  /\ (one_class course_key ks = false ->
      consume (get_many self u ks user_state fields) db = (Raise TypeError, db))
  /\ table db' = table db.
Proof.
  intros db'. unfold db'. split; [|split].
  - intros Hone. rewrite consume_get_many by done. cbn [snd].
    unfold add_events. cbn [log table].
    destruct (get_student_modules_ok u ks Hone) as (s & Hs & Hby & _).
    split; [done|]. split; [|split].
    + by rewrite count_queries_app, count_queries_queries.
    + unfold queries. rewrite Hby. clear Hby.
      pose proof (groupby_same_key course_key s) as Hall.
      induction Hall as [|[c g] l Hg Hl IH]; simpl; constructor; [|done].
      by exists c, g.
    + by rewrite Hby, groupby_concat, (sorted_perm _ _ _ Hs).
  - intros Hone. by destruct (get_many_mixed self u ks fields db Hu Hone).
  - destruct (one_class course_key ks) eqn:Hone.
    + by rewrite consume_get_many by done.
    + by rewrite (proj1 (get_many_mixed self u ks fields db Hu Hone)).
Qed.

Lemma one_query_per_course_witness :
  count_queries
    (log (consume (get_many alice "alice" [k1; k3; k2] user_state None) db0).2)
  = 2.
Proof.
  exact (proj1 (proj2 (proj1 (one_query_per_course alice "alice" eq_refl
                                [k1; k3; k2] None db0) eq_refl))).
Defined.

(** ** Modification dates *)

Lemma collect_dates_lookup (k : UsageKey) (t : timestamp) (l : list string)
    (m0 : gmap string timestamp) f :
  foldl (fun (m : gmap string timestamp) '(_, field, date) => <[field := date]> m)
        m0 (List.map (fun field => (k, field, t)) l) !! f
  = if decide (f ∈ l) then Some t else m0 !! f.
Proof.
  revert m0. induction l as [|x l IH]; intros m0; cbn [List.map foldl].
  - destruct (decide (f ∈ [])); [set_solver|done].
  - rewrite IH. destruct (decide (f = x)) as [->|Hne].
    + rewrite lookup_insert_eq.
      destruct (decide (x ∈ l)) as [H1|H1], (decide (x ∈ x :: l)) as [H2|H2];
        try done; exfalso; apply H2; by left.
    + rewrite lookup_insert_ne by done.
      destruct (decide (f ∈ l)) as [H1|H1], (decide (f ∈ x :: l)) as [H2|H2];
        try done; exfalso.
      * apply H2. by right.
      * apply elem_of_cons in H2 as [?|?]; done.
Qed.

Lemma elem_of_keys order (d : dict) f : f ∈ keys order d <-> is_Some (d !! f).
Proof.
  rewrite (keys_perm order d), list_elem_of_fmap. split.
  - intros ([f' v] & -> & Hin). apply elem_of_map_to_list in Hin. by eexists.
  - intros [v Hv]. exists (f, v). split; [done|]. by apply elem_of_map_to_list.
Qed.

Lemma NoDup_keys order (d : dict) : NoDup (keys order d).
Proof. rewrite (keys_perm order d). apply NoDup_fst_map_to_list. Qed.

Lemma keys_empty order : keys order ∅ = [].
Proof.
  apply Permutation_nil_r. rewrite (keys_perm order ∅).
  by rewrite map_to_list_empty.
Qed.

Lemma collect_dates_row order (k : UsageKey) (t : timestamp) (d : dict) :
  collect_dates (List.map (fun field => (k, field, t)) (keys order d))
  = (fun _ => t) <$> d.
Proof.
  apply map_eq. intros f. unfold collect_dates.
  rewrite collect_dates_lookup, lookup_fmap, lookup_empty.
  case_decide as Hin.
  - apply elem_of_keys in Hin as [v ->]. done.
  - destruct (d !! f) eqn:E; [|done]. exfalso. apply Hin, elem_of_keys. by eexists.
Qed.

(** [get_mod_date] by the owner on a table that holds the key once. *)
Lemma get_mod_date_eval self order u k fields db sm :
  username (user self) = u ->
  List.filter (is_row (mkUser u) (course_key k) k) (table db) = [sm] ->
  get_mod_date self order u k user_state fields db
  = (Ok ((fun _ => modified sm) <$> fields_of sm),
     add_event (Query u (course_key k) [k]) db).
Proof.
  intros Hu Hf. unfold get_mod_date, bind.
  rewrite consume_get_mod_date_many by done.
  rewrite student_modules_of_single, resolve_single, Hf. unfold ret.
  f_equal. f_equal. simpl. rewrite app_nil_r.
  unfold dates_of, fields_of. simpl. destruct (state sm) as [t|].
  - apply collect_dates_row.
  - by rewrite fmap_empty.
Qed.

Lemma dates_of_row order sm key t :
  state sm = Some t ->
  NoDup (dates_of order (sm, key))
  /\ forall x, x ∈ dates_of order (sm, key)
               <-> exists f, is_Some (doc t !! f) /\ x = (key, f, modified sm).
Proof.
  intros Hst. unfold dates_of. cbn [fst snd]. rewrite Hst. split.
  - assert (Hinj : Inj (=) (=) (fun field : string => (key, field, modified sm)))
      by by intros f f' [= ->].
    apply (NoDup_fmap_2 _), NoDup_keys.
  - intros x. change (List.map ?f ?l) with (f <$> l). rewrite list_elem_of_fmap.
    split.
    + intros (f & -> & Hf). exists f. by rewrite <- elem_of_keys.
    + intros (f & Hf & ->). exists f. by rewrite elem_of_keys.
Qed.

Lemma dates_of_empty order sm key : fields_of sm = ∅ -> dates_of order (sm, key) = [].
Proof.
  unfold fields_of, dates_of. cbn [fst snd]. destruct (state sm) as [t|]; [|done].
  intros ->. by rewrite keys_empty.
Qed.

(** C6, as it stands, fails on a batch whose course keys are of two
    classes: alice has a record at [k1] with the fields a and b, yet on
    the batch of an old-style key and [k1] the generator raises
    [TypeError] when first advanced and yields no tuple for it. *)
Lemma mod_dates_counterexample :
  find_row db_alice "alice" k1 = Some alice_row
  /\ fields_of alice_row = {[ "a" := JNum 1; "b" := JNum 2 ]}
  /\ next (get_mod_date_many alice map_order "alice" [k_old; k1] user_state None)
          db_alice
     = (Raise TypeError, db_alice)
  /\ consume (get_mod_date_many alice map_order "alice" [k_old; k1] user_state None)
             db_alice
     = (Raise TypeError, db_alice).
Proof. split; [|split; [|split]]; reflexivity. Qed.

(** C6, amended: run to its end by its owner on a batch whose course
    keys are of one class, [get_mod_date_many] yields, for every row
    found (the rows of the owner under a key of the batch), one tuple
    per field name of its stored map and no other, each with the key of
    the row and the [modified] time of the row; a row with no state or
    with an empty map yields nothing.  This holds whatever the order in
    which a dict gives its keys.  On a batch with keys of more than one
    class the generator raises [TypeError] and yields nothing.  After a
    [set] of some fields, [get_mod_date] gives every one of them the same
    time, that of the write. *)
Theorem mod_dates self order u (Hu : username (user self) = u) ks k P fields db :
  (one_class course_key ks = true ->
   (consume (get_mod_date_many self order u ks user_state fields) db).1
   = Ok (flat_map (dates_of order) (student_modules_of db u ks))
   /\ forall sm key,
        In (sm, key) (student_modules_of db u ks)
        <-> In sm (table db)
            /\ is_row (mkUser u) (course_key key) key sm = true
            /\ In key ks)
  /\ (one_class course_key ks = false ->
      consume (get_mod_date_many self order u ks user_state fields) db
      = (Raise TypeError, db))
  /\ (forall sm key,
        (forall t, state sm = Some t ->
           NoDup (dates_of order (sm, key))
           /\ forall x, x ∈ dates_of order (sm, key)
                        <-> exists f, is_Some (doc t !! f)
                                      /\ x = (key, f, modified sm))
        /\ (fields_of sm = ∅ -> dates_of order (sm, key) = []))
  /\ (unique_together (table db) ->
      exists db' m,
        set self u k P user_state db = (Ok tt, db')
        /\ (get_mod_date self order u k user_state fields db').1 = Ok m
        /\ forall f, is_Some (P !! f) -> m !! f = Some (now db)).
Proof.
  split; [|split; [|split]].
  - intros Hone. split; [by rewrite consume_get_mod_date_many|].
    intros sm key. by apply student_modules_of_spec.
  - intros Hone.
    by destruct (get_mod_date_many_mixed self order u ks fields db Hu Hone).
  - intros sm key. split; [apply dates_of_row|apply dates_of_empty].
  - intros Huniq.
    destruct (set_eval self u k P db Hu)
      as (db' & sm' & Hset & Hfind & Hst & Hmod & _ & Huniq').
    exists db', ((fun _ => modified sm') <$> fields_of sm').
    split; [done|]. split.
    + rewrite (get_mod_date_eval self order u k fields db' sm') by
        (done || by apply unique_filter; [apply Huniq'|]).
      done.
    + intros f [v Hv]. rewrite lookup_fmap. unfold fields_of. rewrite Hst.
      cbn [doc]. unfold update. rewrite lookup_union, Hv, Hmod.
      by destruct (default ∅ (stored db u k) !! f).
Qed.

Lemma mod_dates_witness :
  (exists a b,
     (consume (get_mod_date_many alice map_order "alice" [k1; k3] user_state None)
        db_alice).1
     = Ok [(k1, a, 7%Z); (k1, b, 7%Z)])
  /\ exists db' m,
       set alice "alice" k1 {[ "a" := JNum 1; "b" := JNum 2 ]} user_state db0
       = (Ok tt, db')
       /\ (get_mod_date alice map_order "alice" k1 user_state None db').1 = Ok m
       /\ m !! "a" = Some 100%Z /\ m !! "b" = Some 100%Z.
Proof.
  split.
  - destruct (mod_dates alice map_order "alice" eq_refl [k1; k3] k1 ∅ None db_alice)
      as (Hrun & _).
    destruct (Hrun eq_refl) as [Hyield _].
    eexists _, _. exact Hyield.
  - destruct (mod_dates alice map_order "alice" eq_refl [k1] k1
                {[ "a" := JNum 1; "b" := JNum 2 ]} None db0)
      as (_ & _ & _ & Hset).
    destruct Hset as (db' & m & Hs & Hg & Hm); [apply NoDup_nil_2|].
    exists db', m. split; [exact Hs|]. split; [exact Hg|].
    split; apply Hm; by eexists.
Defined.

(** ** Deleting fields *)

Lemma delete_many_unfold self u ks fields db :
  username (user self) = u ->
  delete_many self u ks user_state fields db
  = for_in (_get_student_modules u ks) (delete_row fields) db.
Proof.
  intros Hu. unfold delete_many.
  by rewrite !(bind_ok _ _ tt db db) by (by apply assert_user_ok || apply check_scope_ok).
Qed.

Lemma delete_row_null L sm key db :
  state sm = None -> delete_row (Some L) (sm, key) db = (Raise TypeError, db).
Proof. intros Hst. unfold delete_row, bind, lift, json_loads. by rewrite Hst. Qed.

Lemma delete_row_all sm key db :
  delete_row None (sm, key) db = save (with_state sm (Some (Dumps ∅))) db.
Proof. reflexivity. Qed.

Lemma delete_row_named L sm key t db :
  state sm = Some t ->
  delete_row (Some L) (sm, key) db
  = save (with_state sm (Some (Dumps (foldl del_if_in (doc t) L)))) db.
Proof. intros Hst. unfold delete_row, bind, lift, json_loads. by rewrite Hst. Qed.

Lemma delete_many_single self u k fields db :
  username (user self) = u ->
  delete_many self u [k] user_state fields db
  = (for_list (List.map (fun sm => (sm, k))
                 (List.filter (is_row (mkUser u) (course_key k) k) (table db)))
              (delete_row fields) ;; ret tt)
      (add_event (Query u (course_key k) [k]) db).
Proof.
  intros Hu. rewrite delete_many_unfold by done.
  unfold _get_student_modules. cbn [sorted insert_by groupby].
  cbn [List.map for_in]. unfold bind at 1 2. unfold chunked_filter at 1.
  unfold ret at 1.
  pose proof (resolve_single db u k) as Hr. unfold resolve in Hr.
  cbn [fst snd] in Hr. by rewrite Hr.
Qed.

Lemma find_row_save db u k sm0 sm :
  find_row db u k = Some sm0 ->
  row_key sm = (mkUser u, course_key k, k) ->
  exists db',
    save sm db = (Ok tt, db')
    /\ find_row db' u k = Some (with_modified sm (now db))
    /\ now db' = now db
    /\ (unique_together (table db) -> unique_together (table db')).
Proof.
  intros Hfind Hkey. injection Hkey as Hs Hc Hk.
  eexists. split; [reflexivity|]. split; [|split; [done|]].
  - unfold find_row. cbn [table add_event].
    apply (find_save _ sm0); [done| |].
    + intros r. unfold same_row, is_row. by rewrite Hs, Hc, Hk.
    + unfold is_row. simpl. rewrite Hs, Hc, Hk. by apply bool_decide_eq_true.
  - cbn [table add_event]. by apply unique_save.
Qed.

Lemma foldl_del_lookup (d : dict) L f :
  foldl del_if_in d L !! f = if decide (f ∈ L) then None else d !! f.
Proof.
  revert d. induction L as [|x L IH]; intros d; cbn [foldl].
  - destruct (decide (f ∈ [])) as [H|H]; [by apply elem_of_nil in H|done].
  - rewrite IH. unfold del_if_in.
    destruct (decide (f ∈ L)) as [H1|H1], (decide (f ∈ x :: L)) as [H2|H2];
      try done.
    + exfalso. apply H2. by right.
    + apply elem_of_cons in H2 as [->|H2]; [|done].
      destruct (decide (is_Some (d !! x))) as [Hs|Hs].
      * apply lookup_delete_eq.
      * by apply eq_None_not_Some.
    + assert (f <> x) by (intros ->; apply H2; by left).
      destruct (decide (is_Some (d !! x))); [|done].
      by apply lookup_delete_ne.
Qed.

(** [delete_many] on one key of the owner whose row exists. *)
Lemma delete_many_found self u k fields db sm :
  username (user self) = u ->
  unique_together (table db) ->
  find_row db u k = Some sm ->
  (fields <> None -> state sm <> None) ->
  exists db',
    delete_many self u [k] user_state fields db = (Ok tt, db')
    /\ stored db' u k
       = Some (match fields with
               | None => ∅
               | Some L => foldl del_if_in (fields_of sm) L
               end)
    /\ unique_together (table db').
Proof.
  intros Hu Huniq Hfind Hst. rewrite delete_many_single by done.
  rewrite (unique_filter _ _ _ _ _ Huniq Hfind). cbn [List.map for_list].
  set (db1 := add_event (Query u (course_key k) [k]) db).
  assert (Hkey : forall s, row_key (with_state sm s) = (mkUser u, course_key k, k)).
  { intros s. destruct (is_row_found _ _ _ _ _ Hfind) as (Hs & Hc & Hk).
    unfold row_key. simpl. by rewrite Hs, Hc, Hk. }
  destruct fields as [L|].
  - destruct (state sm) as [t|] eqn:Est; [|by destruct Hst].
    destruct (find_row_save db1 u k sm _ Hfind (Hkey (Some (Dumps (foldl del_if_in (doc t) L)))))
      as (db' & Hsave & Hfind' & _ & Huniq').
    exists db'. unfold bind. rewrite (delete_row_named L sm k t) by done.
    rewrite Hsave. split; [done|]. split; [|by apply Huniq'].
    rewrite (stored_find_row _ _ _ _ Hfind'). unfold fields_of. by rewrite Est.
  - destruct (find_row_save db1 u k sm _ Hfind (Hkey (Some (Dumps ∅))))
      as (db' & Hsave & Hfind' & _ & Huniq').
    exists db'. unfold bind. rewrite delete_row_all, Hsave.
    split; [done|]. split; [|by apply Huniq'].
    by rewrite (stored_find_row _ _ _ _ Hfind').
Qed.

(** [delete_many] on one key of the owner that has no row. *)
Lemma delete_many_missing self u k fields db :
  username (user self) = u ->
  stored db u k = None ->
  delete_many self u [k] user_state fields db
  = (Ok tt, add_event (Query u (course_key k) [k]) db).
Proof.
  intros Hu Hnone. rewrite delete_many_single by done.
  unfold stored, find_row in Hnone. rewrite find_filter in Hnone.
  by destruct (List.filter _ _).
Qed.


(** *** A NULL state anywhere in a batch *)





(** [delete_many] on one key whose row has a state: with no [fields] the
    map is reset to the empty one, the row staying; with a list of names
    exactly those names are gone and every other field is as it was; a
    key without a row changes no row. *)
Lemma delete_many_on_stored_state self u k L db sm t :
  username (user self) = u ->
  unique_together (table db) ->
  find_row db u k = Some sm ->
  state sm = Some t ->
  (exists db',
     delete_many self u [k] user_state None db = (Ok tt, db')
     /\ stored db' u k = Some ∅
     /\ (get self u k user_state None db').1 = Ok ∅)
  /\ (exists db' d,
        delete_many self u [k] user_state (Some L) db = (Ok tt, db')
        /\ stored db' u k = Some d
        /\ forall f, d !! f = if decide (f ∈ L) then None else doc t !! f)
  /\ (forall k' fields,
        stored db u k' = None ->
        exists db',
          delete_many self u [k'] user_state fields db = (Ok tt, db')
          /\ table db' = table db).
Proof.
  intros Hu Huniq Hfind Hst. split; [|split].
  - destruct (delete_many_found self u k None db sm Hu Huniq Hfind)
      as (db' & Hdel & Hstored & _); [done|].
    exists db'. split; [done|]. split; [done|].
    rewrite get_eval by done. cbn [fst]. by rewrite Hstored.
  - destruct (delete_many_found self u k (Some L) db sm Hu Huniq Hfind)
      as (db' & Hdel & Hstored & _); [by rewrite Hst|].
    exists db', (foldl del_if_in (fields_of sm) L).
    split; [done|]. split; [done|].
    intros f. rewrite foldl_del_lookup. unfold fields_of. by rewrite Hst.
  - intros k' fields Hnone. eexists. split; [by apply delete_many_missing|done].
Qed.

Lemma is_row_row_key u c k r :
  is_row u c k r = true <-> row_key r = (u, c, k).
Proof.
  unfold is_row, row_key. rewrite bool_decide_eq_true. split.
  - by intros (-> & -> & ->).
  - by intros [= -> -> ->].
Qed.

(** [delete_many] on one key of the owner whose row exists: the row
    that is saved and what the store was asked. *)
Lemma delete_many_row self u k fields db sm :
  username (user self) = u ->
  unique_together (table db) ->
  find_row db u k = Some sm ->
  (fields <> None -> state sm <> None) ->
  exists db',
    delete_many self u [k] user_state fields db = (Ok tt, db')
    /\ find_row db' u k
       = Some (with_modified
                 (with_state sm
                    (Some (Dumps (match fields with
                                  | None => ∅
                                  | Some L => foldl del_if_in (fields_of sm) L
                                  end))))
                 (now db))
    /\ log db' = log db ++ [Query u (course_key k) [k];
                            Save (mkUser u) (course_key k) k]
    /\ unique_together (table db').
Proof.
  intros Hu Huniq Hfind Hst. rewrite delete_many_single by done.
  rewrite (unique_filter _ _ _ _ _ Huniq Hfind). cbn [List.map for_list].
  destruct (is_row_found _ _ _ _ _ Hfind) as (Hs & Hc & Hk).
  assert (Hfields : exists st,
            delete_row fields (sm, k) (add_event (Query u (course_key k) [k]) db)
            = save (with_state sm (Some (Dumps st)))
                   (add_event (Query u (course_key k) [k]) db)
            /\ st = match fields with
                    | None => ∅
                    | Some L => foldl del_if_in (fields_of sm) L
                    end).
  { destruct fields as [L|].
    - destruct (state sm) as [t|] eqn:Est; [|by destruct Hst].
      eexists. split; [by apply delete_row_named|].
      unfold fields_of. by rewrite Est.
    - eexists. by split; [apply delete_row_all|]. }
  destruct Hfields as (st & Hrow & ->).
  unfold bind. rewrite Hrow. unfold save, ret.
  eexists. split; [reflexivity|]. cbn [table log add_event now].
  split; [|split].
  - unfold find_row. cbn [table].
    apply (find_save _ sm); [done| |].
    + intros r. unfold same_row, is_row. cbn. by rewrite Hs, Hc, Hk.
    + apply is_row_row_key. unfold row_key. cbn. by rewrite Hs, Hc, Hk.
  - cbn. rewrite Hs, Hc, Hk. by rewrite <- app_assoc.
  - by apply unique_save.
Qed.

(** C2, at a row whose state is NULL: [get] reads the row as the empty
    map, yet [delete_many] with a list of names raises [TypeError] from
    [json.loads(None)] instead of leaving the empty map. *)
Theorem delete_named_fields_null_state :
  find_row db_null "alice" k1 = Some null_row
  /\ (get alice "alice" k1 user_state None db_null).1 = Ok ∅
  /\ delete_many alice "alice" [k1] user_state (Some ["a"]) db_null
     = (Raise TypeError,
        add_event (Query "alice" (course_key k1) [k1]) db_null)
  /\ exists db',
       delete_many alice "alice" [k1] user_state None db_null = (Ok tt, db')
       /\ (get alice "alice" k1 user_state None db').1 = Ok ∅.
Proof.
  split; [reflexivity|]. split; [reflexivity|]. split; [reflexivity|].
  eexists. split; reflexivity.
Qed.



(** ** The scenarios of the specification, run *)

Example overwrite_scenario :
  ((set alice "alice" k1 {[ "a" := JNum 1 ]} user_state ;;
    set alice "alice" k1 {[ "a" := JNum 9 ]} user_state ;;
    get alice "alice" k1 user_state None) db0).1
  = Ok {[ "a" := JNum 9 ]}.
Proof. reflexivity. Qed.

Example delete_all_scenario :
  ((set alice "alice" k1 {[ "a" := JNum 1; "b" := JNum 2 ]} user_state ;;
    delete alice "alice" k1 user_state None ;;
    get alice "alice" k1 user_state None) db0).1
  = Ok ∅.
Proof. reflexivity. Qed.

Example delete_named_scenario :
  ((set alice "alice" k1 {[ "a" := JNum 1; "b" := JNum 2 ]} user_state ;;
    delete alice "alice" k1 user_state (Some ["a"; "zz"]) ;;
    get alice "alice" k1 user_state None) db0).1
  = Ok {[ "b" := JNum 2 ]}.
Proof. reflexivity. Qed.

Example not_found_scenario :
  ((set alice "alice" k1 {[ "a" := JNum 1 ]} user_state ;;
    get alice "alice" k2 user_state None) db0).1
  = Raise DoesNotExist.
Proof. reflexivity. Qed.

Example batch_scenario :
  ((set_many alice "alice"
      {[ k1 := {[ "a" := JNum 1 ]}; k3 := {[ "c" := JNum 3 ]} ]} user_state ;;
    consume (get_many alice "alice" [k1; k2; k3] user_state None)) db0).1
  = Ok [(k3, {[ "c" := JNum 3 ]}); (k1, {[ "a" := JNum 1 ]})].
Proof. vm_compute. reflexivity. Qed.

(** * Further properties of the client *)

(** ** One turn of the loop of [set_many] *)

Lemma set_row_eval self p db :
  set_row self p db = (Ok tt, set_row_db (user self) p db).
Proof.
  destruct p as [k P]. unfold set_row, set_row_db. cbn [fst snd].
  unfold bind at 1. unfold get_or_create.
  destruct (List.find _ (table db)) as [sm|] eqn:F.
  - unfold bind, lift, ret, json_loads, save, add_event, written_row, fields_of.
    cbn [table now log with_state student course_id module_state_key state].
    destruct (state sm); cbn [table now log]; rewrite <- app_assoc; reflexivity.
  - reflexivity.
Qed.

Lemma for_list_set_row self l db :
  for_list l (set_row self) db
  = (Ok tt, foldl (fun d p => set_row_db (user self) p d) db l).
Proof.
  revert db. induction l as [|p l IH]; intros db; [done|].
  cbn [for_list foldl]. unfold bind. by rewrite set_row_eval, IH.
Qed.

Lemma set_many_unfold self u bks db :
  username (user self) = u ->
  set_many self u bks user_state db
  = (Ok tt, foldl (fun d p => set_row_db (user self) p d) db (map_to_list bks)).
Proof.
  intros Hu. unfold set_many.
  rewrite !(bind_ok _ _ tt db db) by (by apply assert_user_ok || apply check_scope_ok).
  apply (for_list_set_row self).
Qed.

Lemma find_save_other (p : StudentModule -> bool) sm sm' l :
  (forall r, same_row r sm = true -> p r = false) ->
  p sm' = false ->
  List.find p (List.map (fun r => if same_row r sm then sm' else r) l)
  = List.find p l.
Proof.
  intros Hsame Hsm'. induction l as [|r l IH]; [done|].
  cbn [List.map List.find]. destruct (same_row r sm) eqn:E.
  - by rewrite Hsm', (Hsame r E).
  - by rewrite IH.
Qed.

Lemma find_app_other {A} (p : A -> bool) l x :
  p x = false -> List.find p (l ++ [x]) = List.find p l.
Proof.
  intros Hx. induction l as [|y l IH]; simpl; [by rewrite Hx|].
  by destruct (p y).
Qed.

Lemma is_row_false u c k r : row_key r <> (u, c, k) -> is_row u c k r = false.
Proof.
  intros H. destruct (is_row u c k r) eqn:E; [|done].
  by apply is_row_row_key in E.
Qed.

Lemma row_key_written sm P t : row_key (written_row sm P t) = row_key sm.
Proof. reflexivity. Qed.

(** The row of the key written. *)
Lemma set_row_db_same u k P db :
  exists sm',
    List.find (is_row u (course_key k) k) (table (set_row_db u (k, P) db)) = Some sm'
    /\ fields_of sm'
       = update (default ∅ (fields_of <$> List.find (is_row u (course_key k) k)
                                                     (table db))) P
    /\ modified sm' = now db.
Proof.
  unfold set_row_db. cbn [fst snd].
  destruct (List.find _ (table db)) as [sm|] eqn:F.
  - exists (written_row sm P (now db)). split; [|done]. cbn [table].
    apply is_row_found in F as Hkey. destruct Hkey as (Hs & Hc & Hk).
    apply (find_save _ sm); [done| |].
    + intros r. unfold same_row, is_row. by rewrite Hs, Hc, Hk.
    + apply is_row_row_key. rewrite row_key_written. unfold row_key.
      by rewrite Hs, Hc, Hk.
  - exists (created_row u k P (now db)). split; [|split; [|done]].
    + cbn [table]. apply find_app_new; [done|]. by apply is_row_row_key.
    + unfold fields_of, update. simpl. by rewrite (right_id_L ∅ (∪)).
Qed.

(** The rows of the other keys and of the other users. *)
Lemma set_row_db_other u k P db u' c' k' :
  (u', c', k') <> (u, course_key k, k) ->
  List.find (is_row u' c' k') (table (set_row_db u (k, P) db))
  = List.find (is_row u' c' k') (table db).
Proof.
  intros Hne. unfold set_row_db. cbn [fst snd].
  destruct (List.find (is_row u _ k) (table db)) as [sm|] eqn:F; cbn [table].
  - apply is_row_found in F as Hkey. destruct Hkey as (Hs & Hc & Hk).
    assert (Hsm : row_key sm = (u, course_key k, k))
      by (unfold row_key; by rewrite Hs, Hc, Hk).
    apply find_save_other.
    + intros r Hr%same_row_key. apply is_row_false. congruence.
    + apply is_row_false. rewrite row_key_written. congruence.
  - apply find_app_other, is_row_false. unfold row_key. simpl. congruence.
Qed.

Lemma set_row_db_unique u p db :
  unique_together (table db) -> unique_together (table (set_row_db u p db)).
Proof.
  intros Huniq. destruct p as [k P]. unfold set_row_db. cbn [fst snd].
  destruct (List.find _ (table db)) as [sm|] eqn:F; cbn [table].
  - by apply unique_save.
  - by apply unique_create.
Qed.

Lemma row_keys_save t sm sm' :
  row_key sm' = row_key sm ->
  row_key <$> List.map (fun r => if same_row r sm then sm' else r) t
  = row_key <$> t.
Proof.
  intros Hk. induction t as [|r t IH]; [done|]. cbn [List.map].
  rewrite !fmap_cons, IH. f_equal.
  destruct (same_row r sm) eqn:E; [|done].
  apply same_row_key in E. by rewrite Hk, E.
Qed.

Lemma set_row_db_keys u p db :
  exists new, row_key <$> table (set_row_db u p db) = (row_key <$> table db) ++ new.
Proof.
  destruct p as [k P]. unfold set_row_db. cbn [fst snd].
  destruct (List.find _ (table db)) as [sm|] eqn:F; cbn [table].
  - exists []. by rewrite app_nil_r, row_keys_save.
  - eexists. by rewrite fmap_app.
Qed.

Lemma set_row_db_now u p db : now (set_row_db u p db) = now db.
Proof. unfold set_row_db. by destruct (List.find _ _). Qed.

(** ** [set_many] on a whole batch *)

Lemma filter_save_other (q : StudentModule -> bool) sm sm' t :
  (forall r, same_row r sm = true -> q r = false) ->
  q sm' = false ->
  List.filter q (List.map (fun r => if same_row r sm then sm' else r) t)
  = List.filter q t.
Proof.
  intros Hsame Hsm'. induction t as [|r t IH]; [done|].
  cbn [List.map List.filter]. destruct (same_row r sm) eqn:E.
  - by rewrite Hsm', (Hsame r E).
  - by rewrite IH.
Qed.

Lemma other_users_save u sm sm' t :
  username (student sm) = u ->
  student sm' = student sm ->
  other_users u (List.map (fun r => if same_row r sm then sm' else r) t)
  = other_users u t.
Proof.
  intros Hu Hs. unfold other_users. apply filter_save_other.
  - intros r Hr%same_row_key. injection Hr as -> _ _.
    by rewrite bool_decide_eq_true_2.
  - by rewrite Hs, bool_decide_eq_true_2.
Qed.

Lemma set_row_db_other_users u p db :
  other_users (username u) (table (set_row_db u p db))
  = other_users (username u) (table db).
Proof.
  destruct p as [k P]. unfold set_row_db. cbn [fst snd].
  destruct (List.find _ (table db)) as [sm|] eqn:F; cbn [table].
  - apply is_row_found in F as (Hs & _ & _).
    apply other_users_save; [by rewrite Hs|done].
  - unfold other_users. rewrite List.filter_app. cbn [List.filter created_row student].
    by rewrite bool_decide_eq_true_2, app_nil_r.
Qed.

(** The fold of the loop of [set_many] over pairs with distinct keys. *)
Lemma foldl_set_row_db u l db :
  NoDup l.*1 ->
  let db' := foldl (fun d p => set_row_db u p d) db l in
  (forall k P, (k, P) ∈ l ->
     fields_of <$> List.find (is_row u (course_key k) k) (table db')
     = Some (update (default ∅ (fields_of <$> List.find (is_row u (course_key k) k)
                                                        (table db))) P))
  /\ (forall u' c' k', k' ∉ l.*1 \/ u' <> u ->
        List.find (is_row u' c' k') (table db')
        = List.find (is_row u' c' k') (table db))
  /\ (unique_together (table db) -> unique_together (table db'))
  /\ (exists new, row_key <$> table db' = (row_key <$> table db) ++ new)
  /\ other_users (username u) (table db') = other_users (username u) (table db)
  /\ now db' = now db.
Proof.
  revert db. induction l as [|[k0 P0] l IH]; intros db Hnd; cbn [foldl].
  - split; [intros k P Hin; by apply elem_of_nil in Hin|].
    split; [done|]. split; [done|]. split; [|done].
    exists []. by rewrite app_nil_r.
  - rewrite fmap_cons in Hnd. apply NoDup_cons in Hnd as [Hk0 Hnd].
    cbn [fst] in Hk0.
    set (db1 := set_row_db u (k0, P0) db).
    destruct (IH db1 Hnd) as (Hin & Hout & Huniq & [new Hkeys] & Hothers & Hnow).
    assert (Hframe : forall u' c' k', k' <> k0 \/ u' <> u ->
              List.find (is_row u' c' k') (table db1)
              = List.find (is_row u' c' k') (table db)).
    { intros u' c' k' Hne. apply set_row_db_other. intros [= -> _ ->].
      by destruct Hne. }
    subst db1. cbv zeta.
    split; [|split; [|split; [|split; [|split]]]].
    + intros k P [[= -> ->]|Hl]%elem_of_cons.
      * rewrite Hout by by left.
        destruct (set_row_db_same u k0 P0 db) as (sm' & Hf & Hfo & _).
        rewrite Hf. cbn [fmap option_fmap option_map]. by rewrite Hfo.
      * assert (k <> k0).
        { intros ->. apply Hk0, list_elem_of_fmap. by exists (k0, P). }
        rewrite (Hin k P Hl). by rewrite Hframe by by left.
    + intros u' c' k' Hne. rewrite Hout.
      * apply Hframe. destruct Hne as [Hne|Hne]; [left|by right].
        intros ->. apply Hne. rewrite fmap_cons. by left.
      * destruct Hne as [Hne|Hne]; [left|by right].
        intros Hk'. apply Hne. rewrite fmap_cons. by right.
    + intros Hu. by apply Huniq, set_row_db_unique.
    + destruct (set_row_db_keys u (k0, P0) db) as [new1 Hkeys1].
      exists (new1 ++ new). by rewrite Hkeys, Hkeys1, app_assoc.
    + rewrite Hothers. apply set_row_db_other_users.
    + rewrite Hnow. apply set_row_db_now.
Qed.

(** [set_many] by the owner never fails; every key of the batch reads
    afterwards as its new fields overlaid on what was stored, every other
    key as before; rows are only added, never removed or re-keyed, and
    the uniqueness constraint of the table is kept. *)
Theorem set_many_batch self u (Hu : username (user self) = u) bks db :
  exists db',
    set_many self u bks user_state db = (Ok tt, db')
    /\ (forall k,
          stored db' u k
          = match bks !! k with
            | Some P => Some (update (default ∅ (stored db u k)) P)
            | None => stored db u k
            end)
    /\ (unique_together (table db) -> unique_together (table db'))
    /\ (exists new, row_key <$> table db' = (row_key <$> table db) ++ new)
    /\ now db' = now db.
Proof.
  eexists. split; [by apply set_many_unfold|].
  destruct self as [[n]]. simpl in Hu. subst n. cbn [user].
  destruct (foldl_set_row_db (mkUser u) (map_to_list bks) db
              (NoDup_fst_map_to_list bks))
    as (Hin & Hout & Huniq & Hkeys & _ & Hnow).
  split; [|done].
  intros k. unfold stored, find_row. destruct (bks !! k) as [P|] eqn:E.
  - apply Hin. by apply elem_of_map_to_list.
  - rewrite Hout; [done|]. left. intros Hk.
    apply list_elem_of_fmap in Hk as ([k' P] & -> & Hk).
    apply elem_of_map_to_list in Hk. cbn [fst] in E. congruence.
Qed.

Lemma set_many_batch_witness :
  exists db',
    set_many alice "alice"
      {[ k1 := {[ "a" := JNum 1 ]}; k3 := {[ "c" := JNum 3 ]} ]} user_state db_null
    = (Ok tt, db')
    /\ stored db' "alice" k1 = Some {[ "a" := JNum 1 ]}
    /\ stored db' "alice" k2 = None.
Proof.
  destruct (set_many_batch alice "alice" eq_refl
              {[ k1 := {[ "a" := JNum 1 ]}; k3 := {[ "c" := JNum 3 ]} ]} db_null)
    as (db' & Hset & Hst & _).
  exists db'. split; [exact Hset|]. split.
  - rewrite (Hst k1). reflexivity.
  - rewrite (Hst k2). reflexivity.
Defined.

(** ** What the writes leave alone *)

Lemma save_ok sm db : save sm db = (Ok tt, (save sm db).2).
Proof. reflexivity. Qed.

Lemma delete_row_cases fields sm key db :
  delete_row fields (sm, key) db = (Raise TypeError, db)
  \/ exists st, delete_row fields (sm, key) db
                = (Ok tt, (save (with_state sm st) db).2).
Proof.
  destruct fields as [L|].
  - destruct (state sm) as [t|] eqn:Est.
    + right. eexists. by rewrite (delete_row_named L sm key t).
    + left. by apply delete_row_null.
  - right. eexists. by rewrite delete_row_all.
Qed.

Section DeleteInvariant.

Variable u : string.
Variable fields : option (list string).
Variable Q : Db -> Prop.
Hypothesis Q_event : forall d e, Q d -> Q (add_event e d).
Hypothesis Q_save :
  forall d sm st, Q d -> username (student sm) = u ->
                  Q (save (with_state sm st) d).2.

Lemma for_list_delete_inv rows db :
  Forall (fun p => username (student p.1) = u) rows ->
  Q db -> Q (for_list rows (delete_row fields) db).2.
Proof.
  intros Hrows. revert db.
  induction Hrows as [|[sm key] rows Hsm _ IH]; intros db HQ; [done|].
  cbn [for_list]. unfold bind.
  destruct (delete_row_cases fields sm key db) as [->|[st ->]]; [done|].
  apply IH. by apply Q_save.
Qed.

Lemma for_in_delete_inv groups db :
  Q db ->
  Q (for_in
       (List.map
          (fun '(course_key, usage_keys) =>
             do query <- chunked_filter u course_key usage_keys;
             ret (List.map
                    (fun student_module =>
                       (student_module,
                        map_into_course (module_state_key student_module)
                                        (course_id student_module)))
                    query))
          groups)
       (delete_row fields) db).2.
Proof.
  revert db. induction groups as [|[c g] groups IH]; intros db HQ; [done|].
  cbn [List.map for_in]. unfold bind at 1 2. unfold chunked_filter at 1.
  unfold ret at 1.
  set (rows := List.map _ (List.filter (in_query u c g) (table db))).
  assert (Hrows : Forall (fun p => username (student p.1) = u) rows).
  { apply Forall_forall. intros [sm key] Hin.
    apply list_elem_of_In, in_map_iff in Hin as (sm' & [= -> _] & Hf).
    apply List.filter_In in Hf as [_ Hq].
    by apply bool_decide_eq_true in Hq as (Hq & _). }
  pose proof (for_list_delete_inv rows (add_event (Query u c g) db) Hrows
                (Q_event _ _ HQ)) as Hstep.
  unfold bind.
  destruct (for_list rows (delete_row fields) (add_event (Query u c g) db))
    as [[[]|e] d]; [|done].
  by apply IH.
Qed.

(** Whatever it is called with and however it ends, [delete_many] keeps
    an invariant that queries and saves of the user's rows keep. *)
Lemma delete_many_inv self ks scope db :
  Q db -> Q (delete_many self u ks scope fields db).2.
Proof.
  intros HQ. unfold delete_many.
  destruct (decide (username (user self) = u)) as [Hu|Hu].
  - rewrite (bind_ok _ _ tt db db) by by apply assert_user_ok.
    destruct (decide (scope = user_state)) as [->|Hs].
    + rewrite (bind_ok _ _ tt db db) by apply check_scope_ok.
      destruct (one_class course_key ks) eqn:Hone.
      * destruct (get_student_modules_ok u ks Hone) as (s & _ & _ & ->).
        by apply for_in_delete_inv.
      * by destruct (get_student_modules_mixed u ks Hone) as [-> _].
    + by rewrite (bind_raise _ _ ValueError db db) by by apply check_scope_fails.
  - by rewrite (bind_raise _ _ AssertionError db db) by by apply assert_user_fails.
Qed.

End DeleteInvariant.

Lemma find_is_Some_keys u c k t :
  is_Some (List.find (is_row u c k) t) <-> (u, c, k) ∈ row_key <$> t.
Proof.
  rewrite list_elem_of_fmap. split.
  - intros [sm Hf]. apply List.find_some in Hf as [Hin Hrow].
    exists sm. split; [|by apply list_elem_of_In].
    symmetry. by apply is_row_row_key.
  - intros (sm & Hk & Hin). apply list_elem_of_In in Hin.
    destruct (List.find (is_row u c k) t) eqn:F; [by eexists|].
    pose proof (List.find_none _ _ F sm Hin) as Hrow.
    by rewrite (proj2 (is_row_row_key u c k sm)) in Hrow.
Qed.

Lemma delete_many_rows_kept self u ks scope fields db :
  let db' := (delete_many self u ks scope fields db).2 in
  row_key <$> table db' = row_key <$> table db
  /\ (forall u' k, is_Some (stored db' u' k) <-> is_Some (stored db u' k))
  /\ other_users u (table db') = other_users u (table db)
  /\ (unique_together (table db) -> unique_together (table db'))
  /\ now db' = now db.
Proof.
  intros db'.
  assert (Hkeys : row_key <$> table db' = row_key <$> table db).
  { apply (delete_many_inv u fields
             (fun d => row_key <$> table d = row_key <$> table db)); [done| |done].
    intros d sm st Hd _. cbn [save snd add_event table].
    by rewrite row_keys_save. }
  split; [done|]. split; [|split; [|split]].
  - intros u' k. unfold stored, find_row. rewrite !fmap_is_Some.
    by rewrite !find_is_Some_keys, Hkeys.
  - apply (delete_many_inv u fields
             (fun d => other_users u (table d) = other_users u (table db)));
      [done| |done].
    intros d sm st Hd Hsm. cbn [save snd add_event table].
    by rewrite other_users_save.
  - unfold unique_together. by rewrite Hkeys.
  - apply (delete_many_inv u fields (fun d => now d = now db)); done.
Qed.

(** [delete_many] is a reset of contents, never of rows: whatever the
    arguments and whether it returns or raises, the table afterwards has
    the same rows under the same keys in the same order, so a key has a
    record after exactly when it had one before; the rows of the other
    users are as they were, and the uniqueness constraint is kept. *)
Theorem delete_many_keeps_rows self u ks scope fields db :
  let db' := (delete_many self u ks scope fields db).2 in
  row_key <$> table db' = row_key <$> table db
  /\ (forall u' k, is_Some (stored db' u' k) <-> is_Some (stored db u' k))
  /\ other_users u (table db') = other_users u (table db)
  /\ (unique_together (table db) -> unique_together (table db'))
  /\ now db' = now db.
Proof. apply delete_many_rows_kept. Qed.

Lemma set_many_cases self u bks scope db :
  (exists e, set_many self u bks scope db = (Raise e, db))
  \/ (username (user self) = u
      /\ set_many self u bks scope db
         = (Ok tt, foldl (fun d p => set_row_db (user self) p d) db (map_to_list bks))).
Proof.
  destruct (decide (username (user self) = u)) as [Hu|Hu].
  - destruct (decide (scope = user_state)) as [->|Hs].
    + right. split; [done|]. by apply set_many_unfold.
    + left. exists ValueError. unfold set_many.
      rewrite (bind_ok _ _ tt db db) by by apply assert_user_ok.
      by apply bind_raise, check_scope_fails.
  - left. exists AssertionError. unfold set_many.
    by apply bind_raise, assert_user_fails.
Qed.

Lemma single_set_is_set_many self u k st scope db :
  set self u k st scope db = set_many self u {[ k := st ]} scope db.
Proof.
  unfold set. destruct (decide (username (user self) = u)) as [Hu|Hu].
  - by rewrite (bind_ok _ _ tt db db) by by apply assert_user_ok.
  - rewrite (bind_raise _ _ AssertionError db db) by by apply assert_user_fails.
    symmetry. unfold set_many. by apply bind_raise, assert_user_fails.
Qed.

Lemma single_delete_is_delete_many self u k scope fields db :
  delete self u k scope fields db = delete_many self u [k] scope fields db.
Proof.
  unfold delete. destruct (decide (username (user self) = u)) as [Hu|Hu].
  - by rewrite (bind_ok _ _ tt db db) by by apply assert_user_ok.
  - rewrite (bind_raise _ _ AssertionError db db) by by apply assert_user_fails.
    symmetry. unfold delete_many. by apply bind_raise, assert_user_fails.
Qed.

Lemma find_other_users u u' c k t :
  username u' <> u ->
  List.find (is_row u' c k) (other_users u t) = List.find (is_row u' c k) t.
Proof.
  intros Hne. unfold other_users. induction t as [|r t IH]; [done|].
  cbn [List.filter List.find].
  destruct (bool_decide (username (student r) = u)) eqn:E; cbn [negb].
  - apply bool_decide_eq_true in E.
    rewrite IH. rewrite is_row_false; [done|].
    unfold row_key. intros [= Hs _ _]. apply Hne. by rewrite <- Hs.
  - cbn [List.find]. by rewrite IH.
Qed.

(** The writes of one user's client never touch another user's records:
    whatever the arguments and the outcome, after [set_many], [set],
    [delete_many] or [delete] for user [u], every key of every other
    user has the very row it had. *)
Theorem writes_leave_other_users self u u' (Hne : u' <> u)
    k0 ks bks st scope fields db k :
  find_row (set_many self u bks scope db).2 u' k = find_row db u' k
  /\ find_row (set self u k0 st scope db).2 u' k = find_row db u' k
  /\ find_row (delete_many self u ks scope fields db).2 u' k = find_row db u' k
  /\ find_row (delete self u k0 scope fields db).2 u' k = find_row db u' k.
Proof.
  assert (Hset : forall m, find_row (set_many self u m scope db).2 u' k
                           = find_row db u' k).
  { intros m. destruct (set_many_cases self u m scope db) as [[e ->]|[Hu ->]];
      [done|].
    cbn [snd]. unfold find_row.
    destruct (foldl_set_row_db (user self) (map_to_list m) db
                (NoDup_fst_map_to_list m)) as (_ & Hout & _).
    apply Hout. right. intros Heq. apply Hne. by rewrite <- Hu, <- Heq. }
  assert (Hdel : forall l, find_row (delete_many self u l scope fields db).2 u' k
                           = find_row db u' k).
  { intros l. unfold find_row.
    destruct (delete_many_rows_kept self u l scope fields db)
      as (_ & _ & Hothers & _).
    rewrite <- (find_other_users u (mkUser u')) by done.
    rewrite Hothers. by apply find_other_users. }
  split; [apply Hset|]. split; [|split; [apply Hdel|]].
  - pose proof (single_set_is_set_many self u k0 st scope db) as ->. apply Hset.
  - pose proof (single_delete_is_delete_many self u k0 scope fields db) as ->.
    apply Hdel.
Qed.

Lemma writes_leave_other_users_witness :
  find_row (set_many alice "alice" {[ k1 := {[ "a" := JNum 1 ]} ]} user_state
              db_two).2 "bob" k1
  = Some bob_row
  /\ find_row (delete_many alice "alice" [k1] user_state None db_two).2 "bob" k1
     = Some bob_row.
Proof.
  destruct (writes_leave_other_users alice "alice" "bob" ltac:(discriminate)
              k1 [k1] {[ k1 := {[ "a" := JNum 1 ]} ]} ∅ user_state None db_two k1)
    as (Hset & _ & Hdel & _).
  split; [exact Hset | exact Hdel].
Defined.

(** ** What the reads leave alone *)

Lemma only_queried_refl db : only_queried db db.
Proof. exists []. by rewrite add_events_nil. Qed.

Lemma only_queried_query u c g db db' :
  only_queried (add_event (Query u c g) db) db' -> only_queried db db'.
Proof.
  intros (evs & -> & Hall). exists (Query u c g :: evs).
  split; [by rewrite add_events_cons|]. by constructor.
Qed.

Lemma get_many_proc_pure (x : list (StudentModule * UsageKey)) db :
  mapM (fun '(module, usage_key) =>
          do st <- match state module with
                   | None => ret ∅
                   | Some _ => lift (json_loads (state module))
                   end;
          ret (usage_key, st))
       x db
  = (Ok (List.map entry x), db).
Proof.
  apply mapM_pure. intros [sm k] db2.
  unfold entry, fields_of, bind, ret, lift. simpl. by destruct (state sm).
Qed.

Lemma get_mod_date_many_proc_pure order (x : list (StudentModule * UsageKey)) db :
  (do yielded <-
     mapM (fun '(student_module, usage_key) =>
             match state student_module with
             | None => ret []
             | Some _ =>
                 do d <- lift (json_loads (state student_module));
                 ret (List.map
                        (fun field => (usage_key, field, modified student_module))
                        (keys order d))
             end)
          x;
   ret (concat yielded)) db
  = (Ok (concat (List.map (dates_of order) x)), db).
Proof.
  unfold bind. rewrite (mapM_pure _ (dates_of order)); [done|].
  intros [sm k] db2. unfold dates_of, bind, ret, lift. simpl.
  by destruct (state sm).
Qed.

Lemma guard_cases {A} self u scope db :
  @guard A self u scope db = (Ok [], db)
  \/ exists e, @guard A self u scope db = (Raise e, db).
Proof.
  destruct (decide (username (user self) = u)) as [Hu|Hu].
  - destruct (decide (scope = user_state)) as [->|Hs].
    + left. by apply guard_ok.
    + right. exists ValueError. by apply guard_bad_scope.
  - right. exists AssertionError. by apply guard_bad_user.
Qed.

Lemma consume_only_queried {B} (g : Generator B) db :
  Forall (fun seg => forall d, only_queried d (seg d).2) g ->
  only_queried db (consume g db).2.
Proof.
  intros Hg. revert db. induction Hg as [|seg g Hseg _ IH]; intros db.
  - apply only_queried_refl.
  - cbn [consume]. unfold bind at 1. pose proof (Hseg db) as Hs.
    destruct (seg db) as [[items|e] d]; [|done]. cbn [snd] in Hs.
    unfold bind. pose proof (IH d) as Hd.
    destruct (consume g d) as [[rest|e] d']; cbn [snd] in *.
    all: destruct Hs as (evs & -> & Hevs), Hd as (evs' & -> & Hevs').
    all: exists (evs ++ evs'); split; [|by apply Forall_app].
    all: unfold add_events; cbn [table now log]; by rewrite app_assoc.
Qed.

Lemma next_only_queried {B} (g : Generator B) db :
  Forall (fun seg => forall d, only_queried d (seg d).2) g ->
  only_queried db (next g db).2.
Proof.
  intros Hg. revert db. induction Hg as [|seg g Hseg _ IH]; intros db.
  - apply only_queried_refl.
  - cbn [next]. unfold bind at 1. pose proof (Hseg db) as Hs.
    destruct (seg db) as [[[|x items]|e] d]; cbn [snd] in Hs; [|done..].
    pose proof (IH d) as Hd.
    destruct Hs as (evs & -> & Hevs), Hd as (evs' & -> & Hevs').
    exists (evs ++ evs'). split; [|by apply Forall_app].
    unfold add_events; cbn [table now log]. by rewrite app_assoc.
Qed.

Lemma query_segments_only_queried {B} u
    (proc : list (StudentModule * UsageKey) -> M (list B))
    (post : list (StudentModule * UsageKey) -> list B) ks :
  (forall x db, proc x db = (Ok (post x), db)) ->
  Forall (fun seg => forall d, only_queried d (seg d).2)
    (List.map (fun seg => do x <- seg; proc x) (_get_student_modules u ks)).
Proof.
  intros Hproc. unfold _get_student_modules.
  destruct (sorted course_key ks) as [s|e].
  - induction (groupby course_key s) as [|[c g] groups IH];
      cbn [List.map]; constructor; [|done].
    intros d. unfold bind, chunked_filter, ret. rewrite Hproc. cbn [snd].
    apply (only_queried_query u c g), only_queried_refl.
  - cbn [List.map]. constructor; [|constructor].
    intros d. apply only_queried_refl.
Qed.

Lemma guard_only_queried {A} self u scope db :
  only_queried db (@guard A self u scope db).2.
Proof.
  destruct (@guard_cases A self u scope db) as [->|[e ->]];
    apply only_queried_refl.
Qed.

(** The reads never write: whatever the arguments and the outcome, after
    [get], [get_many], [get_mod_date] or [get_mod_date_many], advanced
    once or run to the end, the table and the clock are as before, and
    the store was asked nothing but batch queries. *)
Theorem reads_only_query self order u k ks scope fields db :
  only_queried db (get self u k scope fields db).2
  /\ only_queried db (next (get_many self u ks scope fields) db).2
  /\ only_queried db (consume (get_many self u ks scope fields) db).2
  /\ only_queried db (get_mod_date self order u k scope fields db).2
  /\ only_queried db (next (get_mod_date_many self order u ks scope fields) db).2
  /\ only_queried db (consume (get_mod_date_many self order u ks scope fields) db).2
  /\ (forall db', only_queried db db' ->
                  table db' = table db /\ now db' = now db).
Proof.
  assert (Hgm : forall l, Forall (fun seg => forall d, only_queried d (seg d).2)
                            (get_many self u l scope fields)).
  { intros l. unfold get_many. constructor.
    - intros d. apply (@guard_only_queried (UsageKey * dict) self u scope d).
    - apply (query_segments_only_queried u _ (List.map entry)).
      apply get_many_proc_pure. }
  assert (Hgd : forall l, Forall (fun seg => forall d, only_queried d (seg d).2)
                            (get_mod_date_many self order u l scope fields)).
  { intros l. unfold get_mod_date_many. constructor.
    - intros d.
      apply (@guard_only_queried (UsageKey * string * timestamp) self u scope d).
    - apply (query_segments_only_queried u _
               (fun x => concat (List.map (dates_of order) x))).
      apply get_mod_date_many_proc_pure. }
  split; [|split; [by apply next_only_queried|
           split; [by apply consume_only_queried|
           split; [|split; [by apply next_only_queried|
           split; [by apply consume_only_queried|]]]]]].
  - unfold get. destruct (decide (username (user self) = u)) as [Hu|Hu].
    + rewrite (bind_ok _ _ tt db db) by by apply assert_user_ok.
      unfold bind. pose proof (next_only_queried _ db (Hgm [k])) as Hn.
      by destruct (next (get_many self u [k] scope fields) db) as [[[[? ?]|]|e] d].
    + rewrite (bind_raise _ _ AssertionError db db) by by apply assert_user_fails.
      apply only_queried_refl.
  - unfold get_mod_date, bind.
    pose proof (consume_only_queried _ db (Hgd [k])) as Hn.
    by destruct (consume (get_mod_date_many self order u [k] scope fields) db)
      as [[?|e] d].
  - by intros db' (evs & -> & _).
Qed.

Lemma reads_only_query_witness :
  table (consume (get_many alice "alice" [k1; k3] user_state None) db_two).2
  = table db_two.
Proof.
  destruct (reads_only_query alice map_order "alice" k1 [k1; k3] user_state None db_two)
    as (_ & _ & Hc & _ & _ & _ & Hframe).
  exact (proj1 (Hframe _ Hc)).
Defined.

(** ** What a batch read yields, exactly *)

Lemma NoDup_fmap_inj_on {A B} (f : A -> B) (l : list A) x y :
  NoDup (f <$> l) -> x ∈ l -> y ∈ l -> f x = f y -> x = y.
Proof.
  induction l as [|a l IH]; [by intros _ Hx%elem_of_nil|].
  rewrite fmap_cons, NoDup_cons. intros [Hnin Hnd] Hx Hy Hf.
  apply elem_of_cons in Hx as [->|Hx], Hy as [->|Hy]; [done| | |by apply IH].
  - exfalso. apply Hnin. rewrite Hf. by apply list_elem_of_fmap_2.
  - exfalso. apply Hnin. rewrite <- Hf. by apply list_elem_of_fmap_2.
Qed.

Lemma NoDup_List_filter {A} (p : A -> bool) (l : list A) :
  NoDup l -> NoDup (List.filter p l).
Proof.
  induction 1 as [|x l Hx Hl IH]; [constructor|].
  cbn [List.filter]. destruct (p x); [|done].
  constructor; [|done].
  intros Hin%list_elem_of_In%List.filter_In. apply Hx, list_elem_of_In, Hin.
Qed.

(** Under the uniqueness constraint the row of a key is the row [find]
    meets. *)
Lemma unique_find t u c k sm :
  unique_together t ->
  In sm t /\ is_row u c k sm = true <-> List.find (is_row u c k) t = Some sm.
Proof.
  intros Huniq. split.
  - intros [Hin Hrow].
    destruct (List.find (is_row u c k) t) as [sm0|] eqn:F.
    + f_equal. apply List.find_some in F as [Hin0 Hrow0].
      apply (NoDup_fmap_inj_on row_key t); [done|by apply list_elem_of_In..|].
      apply is_row_row_key in Hrow, Hrow0. congruence.
    + by rewrite (List.find_none _ _ F sm Hin) in Hrow.
  - intros F. by apply List.find_some in F.
Qed.

Lemma by_course_NoDup ks : NoDup (by_course ks).*1.
Proof.
  unfold by_course. destruct (sorted course_key ks) as [s|e] eqn:Hs.
  - by apply groupby_sorted_NoDup, (sorted_sorted course_key ks).
  - constructor.
Qed.

Lemma student_modules_of_NoDup db u ks :
  unique_together (table db) -> NoDup (student_modules_of db u ks).*2.
Proof.
  intros Huniq.
  destruct (one_class course_key ks) eqn:Hone.
  2:{ unfold student_modules_of.
      rewrite (proj2 (get_student_modules_mixed u ks Hone)). constructor. }
  assert (Hrows : NoDup (student_modules_of db u ks)).
  { unfold student_modules_of.
    change (flat_map ?f ?l) with (l ≫= f). apply NoDup_bind.
    - intros [c1 g1] [c2 g2] [sm k] Hg1 Hg2 H1 H2.
      apply (NoDup_fmap_inj_on fst (by_course ks)); [apply by_course_NoDup|done..|].
      unfold resolve in H1, H2. cbn [fst snd] in *.
      apply list_elem_of_In, in_map_iff in H1 as (sm1 & [= -> _] & Hf1).
      apply list_elem_of_In, in_map_iff in H2 as (sm2 & [= -> _] & Hf2).
      apply List.filter_In in Hf1 as [_ Hq1], Hf2 as [_ Hq2].
      apply bool_decide_eq_true in Hq1 as (_ & Hc1 & _).
      apply bool_decide_eq_true in Hq2 as (_ & Hc2 & _). congruence.
    - intros grp _. unfold resolve.
      change (List.map ?f ?l) with (f <$> l).
      apply NoDup_fmap_2_strong; [by intros x y _ _ [= ->]|].
      apply NoDup_List_filter. by apply (NoDup_fmap_1 row_key).
    - apply (NoDup_fmap_1 fst), by_course_NoDup. }
  apply NoDup_fmap_2_strong; [|done].
  intros [sm1 k1'] [sm2 k2'] H1 H2 Hk. cbn [snd] in Hk. subst k2'. f_equal.
  apply list_elem_of_In, student_modules_of_spec in H1 as (Hin1 & Hr1 & _);
    [|done].
  apply list_elem_of_In, student_modules_of_spec in H2 as (Hin2 & Hr2 & _);
    [|done].
  apply (NoDup_fmap_inj_on row_key (table db)); [done|by apply list_elem_of_In..|].
  apply is_row_row_key in Hr1, Hr2. congruence.
Qed.

(** Under the uniqueness constraint, [get_many] run to its end by its
    owner on a batch whose course keys are of one class yields exactly
    the records of the keys asked for: an entry [(k, d)] is yielded when
    and only when [k] is in the batch and [d] is the stored map at [k],
    and no key is yielded twice, even when the batch names it twice. *)
Theorem get_many_exact self u (Hu : username (user self) = u) ks fields db
    (Hone : one_class course_key ks = true)
    (Huniq : unique_together (table db)) :
  exists batch,
    (consume (get_many self u ks user_state fields) db).1 = Ok batch
    /\ (forall k d, (k, d) ∈ batch <-> k ∈ ks /\ stored db u k = Some d)
    /\ NoDup batch.*1.
Proof.
  eexists. rewrite consume_get_many by done. split; [reflexivity|]. split.
  - intros k d. change (List.map ?f ?l) with (f <$> l).
    rewrite list_elem_of_fmap. unfold stored, find_row. split.
    + intros ([sm k'] & [= <- ->] & Hin). cbn [fst snd] in *.
      apply list_elem_of_In, student_modules_of_spec in Hin as (Hin & Hrow & Hk);
        [|done].
      split; [by apply list_elem_of_In|].
      by rewrite (proj1 (unique_find _ _ _ _ sm Huniq) (conj Hin Hrow)).
    + intros [Hk Hst].
      destruct (List.find _ (table db)) as [sm|] eqn:F; [|done].
      injection Hst as <-. exists (sm, k). split; [done|].
      apply list_elem_of_In, student_modules_of_spec; [done|].
      apply (unique_find _ _ _ _ sm Huniq) in F as [Hin Hrow].
      split; [done|]. split; [done|]. by apply list_elem_of_In.
  - change (List.map ?f ?l) with (f <$> l). rewrite <- list_fmap_compose.
    by apply student_modules_of_NoDup.
Qed.

Lemma get_many_exact_witness :
  exists batch,
    (consume (get_many alice "alice" [k1; k1; k3] user_state None) db_two).1
    = Ok batch
    /\ (k1, ∅) ∈ batch
    /\ NoDup batch.*1.
Proof.
  assert (Huniq : unique_together (table db_two)).
  { unfold unique_together. simpl. apply NoDup_ListNoDup.
    repeat constructor; simpl; intuition discriminate. }
  destruct (get_many_exact alice "alice" eq_refl [k1; k1; k3] None db_two
              eq_refl Huniq)
    as (batch & Hb & Hiff & Hnd).
  exists batch. split; [exact Hb|]. split; [|exact Hnd].
  apply Hiff. split; [by left|reflexivity].
Defined.

(** ** The groups and the order of the queries *)

Section GroupShape.

Context {A : Type}.
Variable key : A -> CourseKey.

#[local] Abbreviation has_key := (has_key key).

Lemma filter_insert_by c x l s :
  insert_by key x l = Ok s ->
  List.filter (has_key c) s = List.filter (has_key c) (x :: l).
Proof.
  revert s. induction l as [|y l IH]; intros s; cbn [insert_by].
  - by intros [= <-].
  - destruct (key_lt (key y) (key x)) as [[]|] eqn:E; [|by intros [= <-]|done].
    destruct (insert_by key x l) as [s'|]; [|done]. intros [= <-].
    cbn [List.filter] in *. rewrite (IH s' eq_refl). unfold has_key.
    destruct (bool_decide (key x = c)) eqn:Ex, (bool_decide (key y = c)) eqn:Ey;
      try done.
    apply bool_decide_eq_true in Ex, Ey.
    apply lt_course_le in E as [_ Hne]. destruct Hne. congruence.
Qed.

(** [sorted] is stable: the items of one key keep their order. *)
Lemma filter_sorted c l s :
  sorted key l = Ok s ->
  List.filter (has_key c) s = List.filter (has_key c) l.
Proof.
  revert s. induction l as [|x l IH]; intros s; cbn [sorted].
  - by intros [= <-].
  - destruct (sorted key l) as [s'|]; [|done]. intros Hins.
    rewrite (filter_insert_by c x s' s Hins). cbn [List.filter].
    by rewrite (IH s' eq_refl).
Qed.

Lemma filter_has_key_all c g :
  Forall (fun a => key a = c) g -> List.filter (has_key c) g = g.
Proof.
  induction 1 as [|a g Ha _ IH]; [done|]. cbn [List.filter]. unfold has_key at 1.
  by rewrite bool_decide_eq_true_2, IH.
Qed.

Lemma filter_has_key_none c c' g :
  c' <> c -> Forall (fun a => key a = c') g -> List.filter (has_key c) g = [].
Proof.
  intros Hne. induction 1 as [|a g Ha _ IH]; [done|]. cbn [List.filter].
  unfold has_key at 1. rewrite bool_decide_eq_false_2 by congruence. apply IH.
Qed.

Lemma groups_filter (gs : list (CourseKey * list A)) c g :
  Forall (fun grp => Forall (fun a => key a = grp.1) grp.2) gs ->
  NoDup gs.*1 ->
  (c, g) ∈ gs ->
  List.filter (has_key c) (concat gs.*2) = g.
Proof.
  intros Hsame. induction Hsame as [|[c0 g0] gs Hg0 Hgs IH]; [by intros _ ?%elem_of_nil|].
  rewrite !fmap_cons, NoDup_cons. cbn [fst snd concat] in *.
  intros [Hnin Hnd] Hin. rewrite List.filter_app.
  apply elem_of_cons in Hin as [[= -> ->]|Hin].
  - rewrite filter_has_key_all by done.
    assert (Hrest : List.filter (has_key c0) (concat gs.*2) = []).
    { clear IH Hnd. induction Hgs as [|[c1 g1] gs Hg1 _ IH]; [done|].
      rewrite fmap_cons. cbn [snd concat]. rewrite List.filter_app.
      rewrite fmap_cons in Hnin. cbn [fst] in *.
      rewrite (filter_has_key_none c0 c1); [|intros ->; apply Hnin; by left|done].
      apply IH. intros ?. apply Hnin. by right. }
    by rewrite Hrest, app_nil_r.
  - rewrite (filter_has_key_none c c0); [by apply IH| |done].
    intros ->. apply Hnin. apply list_elem_of_fmap. by exists (c, g).
Qed.

Lemma groupby_nonempty l : Forall (fun grp => grp.2 <> []) (groupby key l).
Proof.
  induction l as [|x l IH]; [constructor|]. cbn [groupby].
  destruct (groupby key l) as [|[k g] rest]; [by repeat constructor|].
  inversion_clear IH. case_decide; by repeat constructor.
Qed.

(** Each group of a sorted batch holds all the items of its key, in the
    order of the batch. *)
Lemma groupby_sorted_filter l s c g :
  sorted key l = Ok s ->
  (c, g) ∈ groupby key s -> g = List.filter (has_key c) l.
Proof.
  intros Hs Hin. rewrite <- (filter_sorted c l s Hs).
  rewrite <- (groupby_concat key s).
  symmetry. apply groups_filter; [apply groupby_same_key| |done].
  by apply groupby_sorted_NoDup, (sorted_sorted key l).
Qed.

(** The keys of the groups of a sorted batch strictly ascend. *)
Lemma groupby_sorted_ascending l :
  StronglySorted (le_key key) l ->
  StronglySorted lt_course (groupby key l).*1.
Proof.
  induction 1 as [|x l Hs IH Hall]; [constructor|].
  cbn [groupby]. destruct l as [|y l']; [cbn; repeat constructor|].
  pose proof (groupby_keys key (y :: l')) as Hkeys.
  destruct (groupby_head key y l') as (g & rest & Hg).
  rewrite Hg in *. case_decide as E.
  - by rewrite fmap_cons in *.
  - rewrite fmap_cons. cbn [fst]. constructor; [done|].
    apply Forall_forall. intros k Hk. apply Hkeys in Hk.
    apply list_elem_of_fmap in Hk as (z & -> & Hz).
    rewrite Forall_forall in Hall. apply lt_course_le. split; [by apply Hall|].
    intros Hxz. apply E. apply le_course_antisym; [apply Hall; by left|].
    rewrite Hxz. apply elem_of_cons in Hz as [->|Hz]; [apply le_course_refl|].
    inversion_clear Hs as [|? ? _ Hy]. rewrite Forall_forall in Hy. by apply Hy.
Qed.

End GroupShape.

(** The queries [get_many] asks, run to its end by its owner on a batch
    whose course keys are of one class: one per course of the batch, in
    strictly ascending order of the course keys as [<] compares them
    (by their key fields, not by their written form), each with all the
    keys of the batch in that course, in the order of the batch and with
    its repetitions, and never with no key. *)
Theorem queries_by_course self u (Hu : username (user self) = u) ks
    (Hone : one_class course_key ks = true) fields db :
  log (consume (get_many self u ks user_state fields) db).2
  = log db ++ List.map (fun c => Query u c (keys_of_course c ks)) (by_course ks).*1
  /\ StronglySorted lt_course (by_course ks).*1
  /\ (forall c, c ∈ (by_course ks).*1 <-> c ∈ course_key <$> ks)
  /\ (forall c, c ∈ (by_course ks).*1 -> keys_of_course c ks <> []).
Proof.
  destruct (get_student_modules_ok u ks Hone) as (s & Hs & Hby & _).
  assert (Hgrp : forall c g, (c, g) ∈ by_course ks -> g = keys_of_course c ks).
  { intros c g Hin. rewrite Hby in Hin.
    by apply (groupby_sorted_filter course_key ks s). }
  split; [|split; [|split]].
  - rewrite consume_get_many by done. cbn [snd add_events log]. f_equal.
    unfold queries. change (List.map ?f ?l) with (f <$> l).
    rewrite <- list_fmap_compose. apply list_fmap_ext.
    intros i [c g] Hi%list_elem_of_lookup_2. cbn. f_equal. by apply Hgrp.
  - rewrite Hby. by apply groupby_sorted_ascending, (sorted_sorted course_key ks).
  - intros c. by rewrite Hby, groupby_keys, (sorted_perm _ _ _ Hs).
  - intros c Hc. apply list_elem_of_fmap in Hc as ([c' g] & -> & Hin).
    cbn [fst]. rewrite <- (Hgrp c' g Hin).
    pose proof (groupby_nonempty course_key s) as Hne.
    rewrite Forall_forall in Hne. rewrite Hby in Hin. apply (Hne (c', g) Hin).
Qed.

Lemma queries_by_course_witness :
  log (consume (get_many alice "alice" [k1; k3; k2; k1] user_state None) db0).2
  = [Query "alice" (course_key k3) [k3];
     Query "alice" (course_key k1) [k1; k2; k1]]
  /\ log (consume (get_many alice "alice" [k_xa; k_old] user_state None) db0).2
     = [Query "alice" (slash_separated "X" "1" "r") [k_old];
        Query "alice" (slash_separated "X.a" "1" "r") [k_xa]].
Proof.
  split.
  - exact (proj1 (queries_by_course alice "alice" eq_refl [k1; k3; k2; k1]
                    eq_refl None db0)).
  - exact (proj1 (queries_by_course alice "alice" eq_refl [k_xa; k_old]
                    eq_refl None db0)).
Defined.

(** ** Modification dates of one key *)

(** [get_mod_date] by its owner never raises [DoesNotExist]: under the
    uniqueness constraint it returns, for a key with a record, the
    stored field names each with the [modified] time of the row, and for
    a key without record the empty dict. *)
Theorem get_mod_date_total self order u (Hu : username (user self) = u) k fields db
    (Huniq : unique_together (table db)) :
  (get_mod_date self order u k user_state fields db).1
  = Ok (match find_row db u k with
        | Some sm => (fun _ => modified sm) <$> fields_of sm
        | None => ∅
        end).
Proof.
  destruct (find_row db u k) as [sm|] eqn:F.
  - rewrite (get_mod_date_eval self order u k fields db sm); [done..|].
    by apply unique_filter.
  - unfold get_mod_date, bind. rewrite consume_get_mod_date_many by done.
    rewrite student_modules_of_single, resolve_single.
    unfold find_row in F. rewrite find_filter in F.
    by destruct (List.filter _ _).
Qed.

Lemma get_mod_date_total_witness :
  (get_mod_date alice map_order "alice" k2 user_state None db_alice).1 = Ok ∅
  /\ (get_mod_date alice map_order "alice" k1 user_state None db_alice).1
     = Ok {[ "a" := 7%Z; "b" := 7%Z ]}.
Proof.
  assert (Huniq : unique_together (table db_alice)).
  { unfold unique_together. simpl. apply NoDup_singleton. }
  split.
  - exact (get_mod_date_total alice map_order "alice" eq_refl k2 None db_alice Huniq).
  - exact (get_mod_date_total alice map_order "alice" eq_refl k1 None db_alice Huniq).
Defined.

(** ** Operations without an implementation *)

(** [get_history], [iter_all_for_block] and [iter_all_for_course] never
    return and never touch the database: with the supported scope they
    raise [NotImplementedError], with another scope [ValueError], and
    [get_history] checks the user name before the scope; the two
    iterations take no user name and check none. *)
Theorem unimplemented_operations self u k c scope db :
  (exists e, get_history self u k scope db = (Raise e, db))
  /\ (username (user self) <> u ->
      get_history self u k scope db = (Raise AssertionError, db))
  /\ (username (user self) = u -> scope <> user_state ->
      get_history self u k scope db = (Raise ValueError, db))
  /\ (username (user self) = u ->
      get_history self u k user_state db = (Raise NotImplementedError, db))
  /\ iter_all_for_block k user_state db = (Raise NotImplementedError, db)
  /\ iter_all_for_course c user_state db = (Raise NotImplementedError, db)
  /\ (scope <> user_state ->
      iter_all_for_block k scope db = (Raise ValueError, db)
      /\ iter_all_for_course c scope db = (Raise ValueError, db)).
Proof.
  assert (H1 : username (user self) <> u ->
               get_history self u k scope db = (Raise AssertionError, db)).
  { intros Hu. unfold get_history. by apply bind_raise, assert_user_fails. }
  assert (H2 : username (user self) = u -> scope <> user_state ->
               get_history self u k scope db = (Raise ValueError, db)).
  { intros Hu Hs. unfold get_history.
    rewrite (bind_ok _ _ tt db db) by by apply assert_user_ok.
    by apply bind_raise, check_scope_fails. }
  assert (H3 : username (user self) = u ->
               get_history self u k user_state db = (Raise NotImplementedError, db)).
  { intros Hu. unfold get_history.
    by rewrite !(bind_ok _ _ tt db db)
      by (by apply assert_user_ok || apply check_scope_ok). }
  split; [|split; [done|split; [done|split; [done|]]]].
  - destruct (decide (username (user self) = u)) as [Hu|Hu]; [|by eexists; apply H1].
    destruct (decide (scope = user_state)) as [->|Hs]; eexists; eauto.
  - split; [|split].
    + unfold iter_all_for_block. by rewrite (bind_ok _ _ tt db db) by apply check_scope_ok.
    + unfold iter_all_for_course. by rewrite (bind_ok _ _ tt db db) by apply check_scope_ok.
    + intros Hs. split.
      * unfold iter_all_for_block. by apply bind_raise, check_scope_fails.
      * unfold iter_all_for_course. by apply bind_raise, check_scope_fails.
Qed.

Lemma unimplemented_operations_witness :
  get_history alice "alice" k1 user_state db_alice
  = (Raise NotImplementedError, db_alice)
  /\ get_history alice "bob" k1 settings db_alice = (Raise AssertionError, db_alice)
  /\ iter_all_for_block k1 settings db_alice = (Raise ValueError, db_alice).
Proof.
  destruct (unimplemented_operations alice "alice" k1 (course_key k1) settings
              db_alice) as (_ & _ & _ & H3 & _ & _ & H5).
  destruct (unimplemented_operations alice "bob" k1 (course_key k1) settings
              db_alice) as (_ & H1 & _).
  split; [exact (H3 eq_refl)|]. split; [exact (H1 ltac:(discriminate))|].
  exact (proj1 (H5 ltac:(discriminate))).
Defined.

(** ** Deleting from a row that has a state *)

Lemma delete_many_on_stored_state_witness :
  exists db' d,
    delete_many alice "alice" [k1] user_state (Some ["a"; "zz"]) db_alice
    = (Ok tt, db')
    /\ stored db' "alice" k1 = Some d
    /\ d !! "a" = None /\ d !! "b" = Some (JNum 2).
Proof.
  assert (Huniq : unique_together (table db_alice)).
  { unfold unique_together. simpl. apply NoDup_singleton. }
  destruct (delete_many_on_stored_state alice "alice" k1 ["a"; "zz"] db_alice
              alice_row _ eq_refl Huniq eq_refl eq_refl)
    as (_ & (db' & d & Hdel & Hst & Hd) & _).
  exists db', d. split; [exact Hdel|]. split; [exact Hst|].
  split; [exact (Hd "a") | exact (Hd "b")].
Defined.

(** [delete_many] by the owner writes every row it resolves, whether or
    not a field goes: the row keeps its place, its key and its
    [module_type], takes the time of the call as [modified], and when no
    name of the list is a stored field its map is what it was.  The
    store is asked one query and one save. *)
Theorem delete_many_rewrites_row self order u (Hu : username (user self) = u)
    k L db sm t
    (Huniq : unique_together (table db))
    (Hfind : find_row db u k = Some sm)
    (Hst : state sm = Some t) :
  exists db' sm',
    delete_many self u [k] user_state (Some L) db = (Ok tt, db')
    /\ find_row db' u k = Some sm'
    /\ modified sm' = now db
    /\ module_type sm' = module_type sm
    /\ row_key <$> table db' = row_key <$> table db
    /\ ((forall f, f ∈ L -> doc t !! f = None) -> fields_of sm' = doc t)
    /\ log db' = log db ++ [Query u (course_key k) [k];
                            Save (mkUser u) (course_key k) k]
    /\ (get_mod_date self order u k user_state None db').1
       = Ok ((fun _ => now db) <$> fields_of sm').
Proof.
  destruct (delete_many_row self u k (Some L) db sm Hu Huniq Hfind)
    as (db' & Hdel & Hfind' & Hlog & Huniq'); [by rewrite Hst|].
  exists db'. eexists. split; [done|]. split; [exact Hfind'|].
  split; [done|]. split; [done|]. split; [|split; [|split; [done|]]].
  - pose proof (delete_many_rows_kept self u [k] user_state (Some L) db) as Hk.
    rewrite Hdel in Hk. apply Hk.
  - intros Hnone. unfold fields_of at 1. cbn. unfold fields_of. rewrite Hst.
    apply map_eq. intros f. rewrite foldl_del_lookup.
    destruct (decide (f ∈ L)) as [Hf|Hf]; [|done]. by rewrite Hnone.
  - match type of Hfind' with
    | _ = Some ?x => rewrite (get_mod_date_eval self order u k None db' x Hu)
    end; [done|].
    by apply unique_filter.
Qed.

Lemma delete_many_rewrites_row_witness :
  exists db' sm',
    delete_many alice "alice" [k1] user_state (Some ["zz"]) db_alice = (Ok tt, db')
    /\ find_row db' "alice" k1 = Some sm'
    /\ modified sm' = 100%Z
    /\ fields_of sm' = {[ "a" := JNum 1; "b" := JNum 2 ]}.
Proof.
  assert (Huniq : unique_together (table db_alice)).
  { unfold unique_together. simpl. apply NoDup_singleton. }
  destruct (delete_many_rewrites_row alice map_order "alice" eq_refl k1 ["zz"] db_alice
              alice_row _ Huniq eq_refl eq_refl)
    as (db' & sm' & Hdel & Hfind & Hmod & _ & _ & Hsame & _).
  exists db', sm'. split; [exact Hdel|]. split; [exact Hfind|].
  split; [exact Hmod|]. apply Hsame.
  intros f Hf. apply list_elem_of_singleton in Hf as ->. reflexivity.
Defined.

(** ** What one [set] does to the table *)

Lemma set_eval_db self u k P db :
  username (user self) = u ->
  set self u k P user_state db = (Ok tt, set_row_db (mkUser u) (k, P) db).
Proof.
  intros Hu. rewrite single_set_is_set_many, set_many_unfold by done.
  rewrite map_to_list_singleton. cbn [foldl].
  destruct self as [[n]]. simpl in Hu. by subst n.
Qed.

(** [set] by the owner asks the store one find-or-create.  When the key
    had no record, a row is added at the end of the table, with the
    block type of the key as [module_type], the new fields as state and
    the time of the call; nothing is saved.  When it had one, that row
    is saved once, in its place and with its [module_type], holding the
    overlay and the time of the call, and no row is added. *)
Theorem set_writes_one_row self u (Hu : username (user self) = u) k P db :
  exists db',
    set self u k P user_state db = (Ok tt, db')
    /\ match find_row db u k with
       | None =>
           table db' = table db
                       ++ [mkStudentModule (mkUser u) (course_key k) k
                             (block_type k) (Some (Dumps P)) (now db)]
           /\ log db' = log db ++ [GetOrCreate (mkUser u) (course_key k) k]
       | Some sm =>
           find_row db' u k
           = Some (mkStudentModule (mkUser u) (course_key k) k (module_type sm)
                     (Some (Dumps (update (fields_of sm) P))) (now db))
           /\ row_key <$> table db' = row_key <$> table db
           /\ log db' = log db ++ [GetOrCreate (mkUser u) (course_key k) k;
                                   Save (mkUser u) (course_key k) k]
       end.
Proof.
  eexists. split; [by apply set_eval_db|].
  unfold find_row, set_row_db. cbn [fst snd].
  destruct (List.find _ (table db)) as [sm|] eqn:F; cbn [table log]; [|done].
  destruct (is_row_found _ _ _ _ _ F) as (Hs & Hc & Hk).
  split; [|split].
  - rewrite (find_save _ sm sm (written_row sm P (now db))); [|done| |].
    + unfold written_row, with_modified, with_state. cbn. by rewrite Hs, Hc, Hk.
    + intros r. unfold same_row, is_row. by rewrite Hs, Hc, Hk.
    + apply is_row_row_key. rewrite row_key_written. unfold row_key.
      by rewrite Hs, Hc, Hk.
  - by apply row_keys_save.
  - by rewrite Hs, Hc, Hk.
Qed.

Lemma set_writes_one_row_witness :
  exists db',
    set alice "alice" k2 {[ "c" := JNum 3 ]} user_state db_alice = (Ok tt, db')
    /\ table db'
       = [alice_row;
          mkStudentModule (mkUser "alice") (course_key k2) k2 "problem"
            (Some (Dumps {[ "c" := JNum 3 ]})) 100%Z].
Proof.
  destruct (set_writes_one_row alice "alice" eq_refl k2 {[ "c" := JNum 3 ]} db_alice)
    as (db' & Hset & Hrest).
  exists db'. split; [exact Hset|]. exact (proj1 Hrest).
Defined.

Lemma update_update (d P Q : dict) : update (update d P) Q = update d (update P Q).
Proof. unfold update. by rewrite (assoc_L (∪)). Qed.

(** Two [set]s on a key by the owner read back as the one [set] of the
    second overlaid on the first; a [set] repeated reads back as done
    once. *)
Theorem set_twice self u (Hu : username (user self) = u) k P Q fields db :
  exists db1 db2 db12,
    set self u k P user_state db = (Ok tt, db1)
    /\ set self u k Q user_state db1 = (Ok tt, db2)
    /\ set self u k (update P Q) user_state db = (Ok tt, db12)
    /\ (get self u k user_state fields db2).1
       = (get self u k user_state fields db12).1
    /\ (get self u k user_state fields db2).1
       = Ok (update (default ∅ (stored db u k)) (update P Q))
    /\ (Q = P ->
        (get self u k user_state fields db2).1
        = (get self u k user_state fields db1).1).
Proof.
  destruct (set_eval self u k P db Hu) as (db1 & sm1 & Hs1 & Hf1 & Hst1 & _).
  destruct (set_eval self u k Q db1 Hu) as (db2 & sm2 & Hs2 & Hf2 & Hst2 & _).
  destruct (set_eval self u k (update P Q) db Hu)
    as (db12 & sm12 & Hs12 & Hf12 & Hst12 & _).
  assert (H1 : stored db1 u k = Some (update (default ∅ (stored db u k)) P)).
  { rewrite (stored_find_row _ _ _ _ Hf1). unfold fields_of. by rewrite Hst1. }
  assert (H2 : stored db2 u k
               = Some (update (default ∅ (stored db u k)) (update P Q))).
  { rewrite (stored_find_row _ _ _ _ Hf2). unfold fields_of. rewrite Hst2, H1.
    cbn. by rewrite update_update. }
  assert (H12 : stored db12 u k
                = Some (update (default ∅ (stored db u k)) (update P Q))).
  { rewrite (stored_find_row _ _ _ _ Hf12). unfold fields_of. by rewrite Hst12. }
  exists db1, db2, db12. split; [done|]. split; [done|]. split; [done|].
  rewrite !get_eval by done. cbn [fst]. rewrite H1, H2, H12.
  split; [done|]. split; [done|].
  intros ->. f_equal. unfold update. by rewrite (idemp_L (∪)).
Qed.

Lemma set_twice_witness :
  exists db1 db2,
    set alice "alice" k1 {[ "a" := JNum 9 ]} user_state db_alice = (Ok tt, db1)
    /\ set alice "alice" k1 {[ "c" := JNum 3 ]} user_state db1 = (Ok tt, db2)
    /\ (get alice "alice" k1 user_state None db2).1
       = Ok {[ "a" := JNum 9; "b" := JNum 2; "c" := JNum 3 ]}.
Proof.
  destruct (set_twice alice "alice" eq_refl k1 {[ "a" := JNum 9 ]}
              {[ "c" := JNum 3 ]} None db_alice)
    as (db1 & db2 & db12 & H1 & H2 & _ & _ & Hget & _).
  exists db1, db2. split; [exact H1|]. split; [exact H2|]. exact Hget.
Defined.

(** ** Empty batches *)

(** An empty batch costs nothing: by the owner, [get_many] and
    [get_mod_date_many] yield nothing, [set_many] and [delete_many]
    return, and the database, its access log included, is as it was: no
    query is asked. *)
Theorem empty_batches self order u (Hu : username (user self) = u) fields db :
  consume (get_many self u [] user_state fields) db = (Ok [], db)
  /\ next (get_many self u [] user_state fields) db = (Ok None, db)
  /\ consume (get_mod_date_many self order u [] user_state fields) db = (Ok [], db)
  /\ set_many self u ∅ user_state db = (Ok tt, db)
  /\ delete_many self u [] user_state fields db = (Ok tt, db).
Proof.
  split; [|split; [|split; [|split]]].
  - rewrite consume_get_many by done. by rewrite add_events_nil.
  - unfold get_many. cbn [next _get_student_modules sorted groupby List.map].
    by rewrite (bind_ok _ _ [] db db) by by apply (@guard_ok _ self u db).
  - rewrite consume_get_mod_date_many by done. by rewrite add_events_nil.
  - rewrite set_many_unfold by done. by rewrite map_to_list_empty.
  - by rewrite delete_many_unfold by done.
Qed.

Lemma empty_batches_witness :
  set_many alice "alice" ∅ user_state db_alice = (Ok tt, db_alice)
  /\ delete_many alice "alice" [] user_state None db_alice = (Ok tt, db_alice).
Proof.
  destruct (empty_batches alice map_order "alice" eq_refl None db_alice)
    as (_ & _ & _ & Hs & Hd).
  split; [exact Hs | exact Hd].
Defined.

(** ** No rollback *)

Lemma by_course_two ka kb :
  lt_course (course_key ka) (course_key kb) ->
  forall ks, ks = [ka; kb] \/ ks = [kb; ka] ->
  by_course ks = [(course_key ka, [ka]); (course_key kb, [kb])]
  /\ one_class course_key ks = true.
Proof.
  intros Hlt ks Hks. pose proof Hlt as [Hle Hne]%lt_course_le.
  unfold lt_course in Hlt. unfold le_course in Hle.
  assert (Hby : by_course ks = [(course_key ka, [ka]); (course_key kb, [kb])]).
  { unfold by_course. destruct Hks as [->| ->]; cbn [sorted insert_by];
      rewrite ?Hle, ?Hlt; cbn [groupby]; by rewrite decide_False by done. }
  split; [done|].
  destruct (one_class course_key ks) eqn:Hone; [done|].
  by rewrite (proj2 (get_student_modules_mixed "" ks Hone)) in Hby.
Qed.

Lemma query_single_rows db u k :
  List.map
    (fun student_module =>
       (student_module,
        map_into_course (module_state_key student_module) (course_id student_module)))
    (List.filter (in_query u (course_key k) [k]) (table db))
  = List.map (fun sm => (sm, k))
      (List.filter (is_row (mkUser u) (course_key k) k) (table db)).
Proof. apply (resolve_single db u k). Qed.

(** [delete_many] does not undo what it did when it raises.  For two
    keys of the owner in different courses, given in either order, the
    course key of the first being less than that of the second as [<]
    compares them (so the two are of one class), when the row of the
    greater course has a NULL state and the row of the lesser course has
    not: the call raises [TypeError], yet the row of the lesser course
    has lost the named fields and carries the time of the call, and the
    row with the NULL state is as it was. *)
Theorem delete_many_partial self u (Hu : username (user self) = u)
    ka kb L db sa sb t ks
    (Huniq : unique_together (table db))
    (Hlt : lt_course (course_key ka) (course_key kb))
    (Ha : find_row db u ka = Some sa) (Hsa : state sa = Some t)
    (Hb : find_row db u kb = Some sb) (Hsb : state sb = None)
    (Hks : ks = [ka; kb] \/ ks = [kb; ka]) :
  exists db',
    delete_many self u ks user_state (Some L) db = (Raise TypeError, db')
    /\ find_row db' u ka
       = Some (with_modified
                 (with_state sa (Some (Dumps (foldl del_if_in (doc t) L))))
                 (now db))
    /\ find_row db' u kb = Some sb
    /\ log db' = log db ++ [Query u (course_key ka) [ka];
                            Save (mkUser u) (course_key ka) ka;
                            Query u (course_key kb) [kb]].
Proof.
  destruct (by_course_two ka kb Hlt ks Hks) as [Hgroups Hone].
  rewrite delete_many_unfold by done.
  destruct (get_student_modules_ok u ks Hone) as (s & _ & _ & ->).
  rewrite Hgroups.
  cbn [List.map for_in]. unfold bind at 1 2. unfold chunked_filter at 1.
  unfold ret at 1. rewrite query_single_rows.
  rewrite (unique_filter _ _ _ _ _ Huniq Ha). cbn [List.map for_list].
  unfold bind at 1 2. rewrite (delete_row_named L sa ka t) by done.
  set (sa' := with_state sa (Some (Dumps (foldl del_if_in (doc t) L)))).
  destruct (is_row_found _ _ _ _ _ Ha) as (Hs & Hc & Hk).
  assert (Hkey : row_key sa' = (mkUser u, course_key ka, ka))
    by (unfold row_key; cbn; by rewrite Hs, Hc, Hk).
  assert (Hne : kb <> ka).
  { intros ->. apply lt_course_le in Hlt as [_ Hne]. by destruct Hne. }
  destruct (find_row_save (add_event (Query u (course_key ka) [ka]) db)
              u ka sa sa' Ha Hkey) as (db1 & Hsave & Hfa & _ & _).
  rewrite Hsave. unfold ret at 1.
  assert (Hfb : find_row db1 u kb = Some sb).
  { injection Hsave as <-. unfold find_row. cbn [table add_event].
    rewrite find_save_other; [done| |].
    - intros r Hr%same_row_key. apply is_row_false. rewrite Hr, Hkey. congruence.
    - apply is_row_false. change (row_key (with_modified sa' _)) with (row_key sa').
      rewrite Hkey. congruence. }
  cbn [for_in]. unfold bind at 1 2. unfold chunked_filter at 1. unfold ret at 1.
  rewrite query_single_rows.
  unfold find_row in Hfb. rewrite find_filter in Hfb.
  destruct (List.filter (is_row (mkUser u) (course_key kb) kb) (table db1))
    as [|r l] eqn:F; [done|].
  injection Hfb as ->. cbn [List.map for_list]. unfold bind.
  rewrite delete_row_null by done.
  eexists. split; [reflexivity|]. split; [exact Hfa|]. split.
  - unfold find_row. cbn [table add_event]. rewrite find_filter, F. done.
  - injection Hsave as <-. cbn. rewrite Hs, Hc, Hk.
    by rewrite <- !app_assoc.
Qed.

Lemma delete_many_partial_witness :
  (exists db',
     delete_many alice "alice" [k1; k3] user_state (Some ["a"]) db_partial
     = (Raise TypeError, db')
     /\ stored db' "alice" k3 = Some {[ "c" := JNum 3 ]}
     /\ find_row db' "alice" k1 = Some null_row)
  /\ exists db',
       delete_many alice "alice" [k_xa; k_old] user_state (Some ["a"]) db_old
       = (Raise TypeError, db')
       /\ stored db' "alice" k_old = Some ∅
       /\ find_row db' "alice" k_xa = Some xa_null_row.
Proof.
  split.
  - assert (Huniq : unique_together (table db_partial)).
    { unfold unique_together. simpl. apply NoDup_ListNoDup.
      repeat constructor; simpl; intuition discriminate. }
    destruct (delete_many_partial alice "alice" eq_refl k3 k1 ["a"] db_partial
                alice_row3 null_row _ [k1; k3] Huniq eq_refl eq_refl eq_refl
                eq_refl eq_refl (or_intror eq_refl))
      as (db' & Hdel & Hfa & Hfb & _).
    exists db'. split; [exact Hdel|]. split; [|exact Hfb].
    unfold stored. rewrite Hfa. reflexivity.
  - assert (Huniq : unique_together (table db_old)).
    { unfold unique_together. simpl. apply NoDup_ListNoDup.
      repeat constructor; simpl; intuition discriminate. }
    destruct (delete_many_partial alice "alice" eq_refl k_old k_xa ["a"] db_old
                old_row xa_null_row _ [k_xa; k_old] Huniq eq_refl eq_refl eq_refl
                eq_refl eq_refl (or_intror eq_refl))
      as (db' & Hdel & Hfa & Hfb & _).
    exists db'. split; [exact Hdel|]. split; [|exact Hfb].
    unfold stored. rewrite Hfa. reflexivity.
Defined.

(** ** [delete_many] on a whole batch *)

Lemma delete_row_save fields sm key db :
  (fields <> None -> state sm <> None) ->
  delete_row fields (sm, key) db
  = (Ok tt,
     add_event (Save (student sm) (course_id sm) (module_state_key sm))
       (mkDb (List.map (fun r => if same_row r sm
                                 then deleted_row fields (now db) sm else r)
                       (table db))
             (now db) (log db))).
Proof.
  intros Hst. destruct fields as [L|].
  - destruct (state sm) as [t|] eqn:Est; [|by destruct Hst].
    rewrite (delete_row_named L sm key t) by done.
    unfold save, deleted_row, fields_of. by rewrite Est.
  - by rewrite delete_row_all.
Qed.

Lemma row_key_deleted fields t r : row_key (deleted_row fields t r) = row_key r.
Proof. reflexivity. Qed.

(** The loop over rows of the table with distinct keys saves each of
    them and no other row. *)
Lemma for_list_delete_rows fields (rows : list (StudentModule * UsageKey)) db :
  unique_together (table db) ->
  NoDup (row_key <$> rows.*1) ->
  (forall sm, sm ∈ rows.*1 -> In sm (table db)) ->
  (fields <> None -> forall sm, sm ∈ rows.*1 -> state sm <> None) ->
  exists db',
    for_list rows (delete_row fields) db = (Ok tt, db')
    /\ table db'
       = List.map (fun r => if bool_decide (row_key r ∈ row_key <$> rows.*1)
                            then deleted_row fields (now db) r else r)
                  (table db)
    /\ now db' = now db.
Proof.
  revert db. induction rows as [|[sm key] rows IH]; intros db Huniq Hnd Hin Hst.
  - exists db. split; [done|]. split; [|done].
    rewrite <- (List.map_id (table db)) at 1. apply List.map_ext. intros r.
    by rewrite bool_decide_eq_false_2 by apply not_elem_of_nil.
  - rewrite !fmap_cons in Hnd. cbn [fst] in Hnd.
    apply NoDup_cons in Hnd as [Hsm Hnd].
    cbn [for_list]. unfold bind.
    rewrite delete_row_save by (intros Hf; apply (Hst Hf); rewrite fmap_cons; by left).
    match goal with |- context [for_list rows _ ?d] => set (db1 := d) end.
    assert (Hsm_in : In sm (table db)) by (apply Hin; rewrite fmap_cons; by left).
    destruct (IH db1) as (db' & Hok & Htab & Hnow).
    + unfold db1. cbn [table add_event]. by apply unique_save.
    + done.
    + intros sm' Hsm'. unfold db1. cbn [table add_event].
      apply in_map_iff. exists sm'. split.
      * destruct (same_row sm' sm) eqn:E; [|done].
        apply same_row_key in E. destruct Hsm. rewrite <- E.
        by apply list_elem_of_fmap_2.
      * apply Hin. rewrite fmap_cons. by right.
    + intros Hf sm' Hsm'. apply (Hst Hf). rewrite fmap_cons. by right.
    + exists db'. split; [done|]. split; [|by rewrite Hnow].
      rewrite Htab. unfold db1. cbn [table add_event now]. rewrite List.map_map.
      apply List.map_ext_in. intros r Hr. rewrite !fmap_cons. cbn [fst].
      destruct (same_row r sm) eqn:E.
      * apply same_row_key in E as Ekey.
        assert (r = sm) as ->.
        { apply (NoDup_fmap_inj_on row_key (table db));
            [done|by apply list_elem_of_In..|done]. }
        rewrite row_key_deleted.
        rewrite (bool_decide_eq_false_2 (row_key sm ∈ _)) by done.
        rewrite bool_decide_eq_true_2; [done|by left].
      * apply (f_equal (fun b : bool => if b then _ else _)).
        apply bool_decide_ext. rewrite elem_of_cons.
        split; [by right|]. intros [Hk|Hk]; [|done].
        apply same_row_key in Hk. congruence.
Qed.

Lemma in_query_key u c g r r' :
  row_key r' = row_key r -> in_query u c g r' = in_query u c g r.
Proof. unfold in_query. by intros [= -> -> ->]. Qed.

Lemma in_groups_key u gs r r' :
  row_key r' = row_key r -> in_groups u gs r' = in_groups u gs r.
Proof.
  intros Hk. unfold in_groups. induction gs as [|grp gs IH]; [done|].
  cbn [existsb]. by rewrite IH, (in_query_key _ _ _ r r').
Qed.

Lemma in_groups_course u gs r :
  in_groups u gs r = true -> course_id r ∈ gs.*1.
Proof.
  unfold in_groups. intros ([c g] & Hin & Hq)%existsb_exists.
  cbn [fst snd] in Hq. apply bool_decide_eq_true in Hq as (_ & Hc & _).
  apply list_elem_of_fmap. exists (c, g).
  split; [done|]. by apply list_elem_of_In.
Qed.

Lemma NoDup_fmap_List_filter {A B} (f : A -> B) (p : A -> bool) l :
  NoDup (f <$> l) -> NoDup (f <$> List.filter p l).
Proof.
  induction l as [|x l IH]; [done|]. rewrite fmap_cons, NoDup_cons.
  intros [Hx Hl]. cbn [List.filter]. destruct (p x); [|by apply IH].
  rewrite fmap_cons. constructor; [|by apply IH].
  intros (y & Hy & Hin)%list_elem_of_fmap. apply Hx. rewrite Hy.
  apply list_elem_of_fmap_2, list_elem_of_In.
  by apply list_elem_of_In, List.filter_In in Hin as [? _].
Qed.

Lemma row_keys_map (h : StudentModule -> StudentModule) t :
  (forall r, row_key (h r) = row_key r) ->
  row_key <$> List.map h t = row_key <$> t.
Proof.
  intros Hh. induction t as [|r t IH]; [done|]. cbn [List.map].
  by rewrite !fmap_cons, IH, Hh.
Qed.

Lemma find_map_keys (h : StudentModule -> StudentModule) (p : StudentModule -> bool) t :
  (forall r, p (h r) = p r) ->
  List.find p (List.map h t) = h <$> List.find p t.
Proof.
  intros Hh. induction t as [|r t IH]; [done|]. cbn [List.map List.find].
  rewrite Hh. by destruct (p r).
Qed.

(** The loop of [delete_many] over groups of distinct courses. *)
Lemma for_in_delete_groups u fields gs db :
  unique_together (table db) ->
  NoDup gs.*1 ->
  (fields <> None ->
   forall r, In r (table db) -> in_groups u gs r = true -> state r <> None) ->
  exists db',
    for_in
      (List.map
         (fun '(course_key, usage_keys) =>
            do query <- chunked_filter u course_key usage_keys;
            ret (List.map
                   (fun student_module =>
                      (student_module,
                       map_into_course (module_state_key student_module)
                                       (course_id student_module)))
                   query))
         gs)
      (delete_row fields) db
    = (Ok tt, db')
    /\ table db'
       = List.map (fun r => if in_groups u gs r
                            then deleted_row fields (now db) r else r)
                  (table db)
    /\ now db' = now db.
Proof.
  revert db. induction gs as [|[c g] gs IH]; intros db Huniq Hnd Hst.
  - exists db. split; [done|]. split; [|done].
    rewrite <- (List.map_id (table db)) at 1. by apply List.map_ext.
  - rewrite fmap_cons in Hnd. cbn [fst] in Hnd. apply NoDup_cons in Hnd as [Hc Hnd].
    cbn [List.map for_in]. unfold bind at 1 2. unfold chunked_filter at 1.
    unfold ret at 1.
    set (rows := List.map _ (List.filter (in_query u c g) (table db))).
    set (dbq := add_event (Query u c g) db).
    assert (Hrows : rows.*1 = List.filter (in_query u c g) (table db)).
    { unfold rows. change (List.map ?f ?l) with (f <$> l).
      rewrite <- list_fmap_compose. apply list_fmap_id. }
    destruct (for_list_delete_rows fields rows dbq) as (db1 & Hok & Htab1 & Hnow1).
    + done.
    + rewrite Hrows. by apply NoDup_fmap_List_filter.
    + intros sm Hsm. rewrite Hrows in Hsm.
      by apply list_elem_of_In, List.filter_In in Hsm as [? _].
    + intros Hf sm Hsm. rewrite Hrows in Hsm.
      apply list_elem_of_In, List.filter_In in Hsm as [Hin Hq].
      apply (Hst Hf sm Hin). unfold in_groups. cbn [existsb fst snd].
      by rewrite Hq.
    + assert (Htab1' : table db1
                = List.map (fun r => if in_query u c g r
                                     then deleted_row fields (now db) r else r)
                           (table db)).
      { rewrite Htab1. apply List.map_ext_in. intros r Hr.
        apply (f_equal (fun b : bool => if b then _ else _)).
        rewrite Hrows. apply eq_true_iff_eq.
        rewrite bool_decide_eq_true, list_elem_of_fmap. split.
        - intros (r' & Hk & Hin).
          apply list_elem_of_In, List.filter_In in Hin as [_ Hq].
          by rewrite (in_query_key _ _ _ r' r).
        - intros Hq. exists r. split; [done|].
          by apply list_elem_of_In, List.filter_In. }
      assert (Hdisj : forall r, in_query u c g r = true -> in_groups u gs r = false).
      { intros r Hq. destruct (in_groups u gs r) eqn:E; [|done].
        apply in_groups_course in E.
        apply bool_decide_eq_true in Hq as (_ & Hcr & _).
        exfalso. apply Hc. by rewrite <- Hcr. }
      destruct (IH db1) as (db' & Hok' & Htab' & Hnow').
      * rewrite Htab1'. unfold unique_together. rewrite row_keys_map; [done|].
        intros r. by destruct (in_query u c g r).
      * done.
      * intros Hf r1 Hr1 Hg1. rewrite Htab1' in Hr1.
        apply in_map_iff in Hr1 as (r & <- & Hr).
        destruct (in_query u c g r) eqn:Eq.
        -- rewrite (in_groups_key _ _ r) in Hg1 by apply row_key_deleted.
           by rewrite (Hdisj r Eq) in Hg1.
        -- apply (Hst Hf r Hr). unfold in_groups in *. cbn [existsb fst snd].
           by rewrite Hg1, orb_true_r.
      * exists db'. unfold bind. rewrite Hok. split; [exact Hok'|].
        split; [|by rewrite Hnow', Hnow1].
        rewrite Htab', Htab1', List.map_map. apply List.map_ext. intros r.
        rewrite Hnow1. unfold in_groups at 2. cbn [existsb fst snd now add_event].
        fold (in_groups u gs r).
        destruct (in_query u c g r) eqn:Eq; cbn [orb].
        -- rewrite (in_groups_key _ _ r) by apply row_key_deleted.
           by rewrite (Hdisj r Eq).
        -- done.
Qed.

Lemma in_groups_by_course u ks r :
  one_class course_key ks = true ->
  in_groups u (by_course ks) r = targeted u ks r.
Proof.
  intros Hone. apply eq_true_iff_eq. unfold in_groups, targeted.
  rewrite existsb_exists, bool_decide_eq_true. split.
  - intros ([c g] & Hin & Hq). apply bool_decide_eq_true in Hq as (Hu & Hc & Hm).
    cbn [fst snd] in *. apply list_elem_of_In in Hm.
    destruct (by_course_elem ks c g _ Hin Hm) as [Hck Hks].
    split; [done|]. split; [by apply list_elem_of_In|congruence].
  - intros (Hu & Hm & Hc). apply list_elem_of_In in Hm.
    destruct (by_course_covers ks _ Hone Hm) as (g & Hg & Hkg).
    exists (course_key (module_state_key r), g). split; [done|].
    apply bool_decide_eq_true. cbn [fst snd].
    split; [done|]. split; [done|]. by apply list_elem_of_In.
Qed.

Lemma delete_many_batch_eval self u (Hu : username (user self) = u) ks fields db
    (Hone : one_class course_key ks = true)
    (Huniq : unique_together (table db))
    (Hst : fields <> None ->
           forall r, In r (table db) -> targeted u ks r = true -> state r <> None) :
  exists db',
    delete_many self u ks user_state fields db = (Ok tt, db')
    /\ table db'
       = List.map (fun r => if targeted u ks r
                            then deleted_row fields (now db) r else r)
                  (table db)
    /\ (forall k, k ∈ ks ->
          stored db' u k
          = (fun d => match fields with
                      | None => ∅
                      | Some L => foldl del_if_in d L
                      end) <$> stored db u k)
    /\ (forall k, k ∉ ks -> find_row db' u k = find_row db u k).
Proof.
  destruct (for_in_delete_groups u fields (by_course ks) db Huniq
              (by_course_NoDup ks)) as (db' & Hok & Htab & _).
  { intros Hf r Hr Hg. apply (Hst Hf r Hr). by rewrite <- in_groups_by_course. }
  assert (Htab' : table db'
            = List.map (fun r => if targeted u ks r
                                 then deleted_row fields (now db) r else r)
                       (table db)).
  { rewrite Htab. apply List.map_ext. intros r. by rewrite in_groups_by_course. }
  assert (Hfind : forall k,
            find_row db' u k
            = (fun r => if targeted u ks r
                        then deleted_row fields (now db) r else r)
                <$> find_row db u k).
  { intros k. unfold find_row. rewrite Htab'. apply find_map_keys.
    intros r. unfold is_row. by destruct (targeted u ks r). }
  exists db'. split.
  { rewrite delete_many_unfold by done.
    by destruct (get_student_modules_ok u ks Hone) as (s & _ & _ & ->). }
  split; [done|]. split.
  - intros k Hk. unfold stored. rewrite Hfind.
    destruct (find_row db u k) as [sm|] eqn:F; [|done]. cbn.
    destruct (is_row_found _ _ _ _ _ F) as (Hs & Hc & Hm).
    unfold targeted. rewrite bool_decide_eq_true_2; [done|].
    split; [by rewrite Hs|]. split; [by rewrite Hm|]. by rewrite Hc, Hm.
  - intros k Hk. rewrite Hfind.
    destruct (find_row db u k) as [sm|] eqn:F; [|done]. cbn.
    destruct (is_row_found _ _ _ _ _ F) as (Hs & Hc & Hm).
    unfold targeted. rewrite bool_decide_eq_false_2; [done|].
    rewrite Hm. by intros (_ & ? & _).
Qed.

(** [delete_many] by the owner on a batch whose course keys are of one
    class, when no row it resolves has a NULL state or when [fields] is
    [None]: it returns, and the table is the one before with exactly the
    rows of the user under a key of the batch rewritten, each keeping
    its place; so every key of the batch with a record loses the named
    fields, or all of them, and every other key reads as before. *)
Theorem delete_many_batch self u (Hu : username (user self) = u) ks fields db
    (Hone : one_class course_key ks = true)
    (Huniq : unique_together (table db))
    (Hst : fields <> None ->
           forall r, In r (table db) -> targeted u ks r = true -> state r <> None) :
  exists db',
    delete_many self u ks user_state fields db = (Ok tt, db')
    /\ table db'
       = List.map (fun r => if targeted u ks r
                            then deleted_row fields (now db) r else r)
                  (table db)
    /\ (forall k, k ∈ ks ->
          stored db' u k
          = (fun d => match fields with
                      | None => ∅
                      | Some L => foldl del_if_in d L
                      end) <$> stored db u k)
    /\ (forall k, k ∉ ks -> find_row db' u k = find_row db u k).
Proof. by apply delete_many_batch_eval. Qed.

Lemma delete_many_batch_witness :
  exists db',
    delete_many alice "alice" [k1; k3; k2] user_state None db_partial = (Ok tt, db')
    /\ stored db' "alice" k1 = Some ∅
    /\ stored db' "alice" k3 = Some ∅
    /\ stored db' "alice" k2 = None.
Proof.
  assert (Huniq : unique_together (table db_partial)).
  { unfold unique_together. simpl. apply NoDup_ListNoDup.
    repeat constructor; simpl; intuition discriminate. }
  destruct (delete_many_batch alice "alice" eq_refl [k1; k3; k2] None db_partial
              eq_refl Huniq ltac:(done))
    as (db' & Hdel & _ & Hin & _).
  exists db'. split; [exact Hdel|].
  split; [|split].
  - rewrite (Hin k1) by (by left). reflexivity.
  - rewrite (Hin k3) by (right; by left). reflexivity.
  - rewrite (Hin k2) by (right; right; by left). reflexivity.
Defined.

(** ** Deleting, then setting *)

(** After [delete] with no [fields], nothing of the old state is left to
    overlay on: a following [set] of [P] by the owner is read back as
    exactly [P], whether or not the key had a record, and whatever its
    state was; and the deletion itself leaves the empty map where there
    was a record and no record where there was none. *)
Theorem delete_then_set self u (Hu : username (user self) = u) k P fields db
    (Huniq : unique_together (table db)) :
  exists db1 db2,
    delete self u k user_state None db = (Ok tt, db1)
    /\ stored db1 u k = (fun _ => ∅) <$> stored db u k
    /\ set self u k P user_state db1 = (Ok tt, db2)
    /\ (get self u k user_state fields db2).1 = Ok P.
Proof.
  destruct (delete_many_batch_eval self u Hu [k] None db eq_refl Huniq ltac:(done))
    as (db1 & Hdel & _ & Hin & _).
  destruct (set_eval self u k P db1 Hu) as (db2 & sm2 & Hset & Hf2 & Hst2 & _).
  exists db1, db2.
  split; [by rewrite single_delete_is_delete_many|].
  assert (Hst1 : stored db1 u k = (fun _ => ∅) <$> stored db u k)
    by (apply Hin; by left).
  split; [done|]. split; [done|].
  rewrite get_eval by done. cbn [fst].
  rewrite (stored_find_row _ _ _ _ Hf2). unfold fields_of. rewrite Hst2, Hst1.
  cbn [doc]. f_equal. unfold update.
  destruct (stored db u k); cbn; by rewrite (right_id_L ∅ (∪)).
Qed.

Lemma delete_then_set_witness :
  exists db1 db2,
    delete alice "alice" k1 user_state None db_alice = (Ok tt, db1)
    /\ set alice "alice" k1 {[ "c" := JNum 3 ]} user_state db1 = (Ok tt, db2)
    /\ (get alice "alice" k1 user_state None db2).1 = Ok {[ "c" := JNum 3 ]}.
Proof.
  assert (Huniq : unique_together (table db_alice)).
  { unfold unique_together. simpl. apply NoDup_singleton. }
  destruct (delete_then_set alice "alice" eq_refl k1 {[ "c" := JNum 3 ]} None
              db_alice Huniq) as (db1 & db2 & Hdel & _ & Hset & Hget).
  exists db1, db2. split; [exact Hdel|]. split; [exact Hset | exact Hget].
Defined.

(** * Properties of the course tabs *)

Section TabAccess.

Import Tabs.

Variable has_access : TabUser -> string -> Course -> CourseKey -> bool.
Variable is_enrolled : TabUser -> CourseKey -> bool.
Variable current_ccx : bool.

#[local] Abbreviation staff := (is_user_staff has_access).
#[local] Abbreviation enrolled_or_staff :=
  (EnrolledOrStaffTab_is_enabled has_access is_enrolled).
#[local] Abbreviation discussion :=
  (DiscussionTab_is_enabled has_access is_enrolled current_ccx).

(** With no user given, the tab classes make no access check: the
    authenticated, enrolled-or-staff and staff tabs are enabled, the
    progress tab is enabled unless the course hides it, the wiki tab
    follows [WIKI_ENABLED] alone, and the discussion tab is enabled when
    the discussion service is on and the request is not in a custom
    course with custom courses on. *)
Theorem tabs_without_user course settings :
  AuthenticatedCourseTab_is_enabled course settings None = true
  /\ enrolled_or_staff course settings None = true
  /\ StaffTab_is_enabled has_access course settings None = true
  /\ ProgressTab_is_enabled has_access is_enrolled course settings None
     = negb (hide_progress_tab course)
  /\ WikiTab_is_enabled has_access is_enrolled course settings None
     = WIKI_ENABLED settings
  /\ truthy (discussion course settings None)
     = truthy (features_get settings "ENABLE_DISCUSSION_SERVICE")
       && negb (features_get_default settings "CUSTOM_COURSES_EDX" && current_ccx).
Proof.
  repeat split.
  - unfold WikiTab_is_enabled. by destruct (WIKI_ENABLED settings).
  - unfold DiscussionTab_is_enabled, py_and, features_get.
    destruct (features_get_default settings "CUSTOM_COURSES_EDX" && current_ccx).
    + cbn. by rewrite andb_false_r.
    + cbn. rewrite andb_true_r.
      by destruct (FEATURES settings !! "ENABLE_DISCUSSION_SERVICE") as [[]|].
Qed.

(** Every tab that is enabled for a user through an access check is
    enabled by the enrolled-or-staff check: a staff tab, a progress tab
    (whose course then does not hide it) and a discussion tab (whose
    service flag is then set to true) are enabled only for users for
    whom the enrolled-or-staff tab is; a wiki tab only when the wiki is
    on and the wiki is public or that check passes.  A user with staff
    access passes all of them, enrolled or not. *)
Theorem tabs_access_hierarchy course settings (user : option TabUser) :
  (StaffTab_is_enabled has_access course settings user = true ->
   enrolled_or_staff course settings user = true)
  /\ (ProgressTab_is_enabled has_access is_enrolled course settings user = true ->
      enrolled_or_staff course settings user = true
      /\ hide_progress_tab course = false)
  /\ (truthy (discussion course settings user) = true ->
      enrolled_or_staff course settings user = true
      /\ FEATURES settings !! "ENABLE_DISCUSSION_SERVICE" = Some true
      /\ features_get_default settings "CUSTOM_COURSES_EDX" && current_ccx = false)
  /\ (WikiTab_is_enabled has_access is_enrolled course settings user = true ->
      WIKI_ENABLED settings = true
      /\ (allow_public_wiki_access course = true
          \/ enrolled_or_staff course settings user = true))
  /\ (forall us, user = Some us -> staff course us = true ->
      enrolled_or_staff course settings user = true
      /\ StaffTab_is_enabled has_access course settings user = true
      /\ ProgressTab_is_enabled has_access is_enrolled course settings user
         = negb (hide_progress_tab course)
      /\ WikiTab_is_enabled has_access is_enrolled course settings user
         = WIKI_ENABLED settings).
Proof.
  split; [|split; [|split; [|split]]].
  - destruct user as [us|]; [|done]. cbn.
    unfold is_user_enrolled_or_staff. by intros ->.
  - unfold ProgressTab_is_enabled. intros [H1 H2]%andb_true_iff.
    split; [done|]. by apply negb_true_iff.
  - unfold DiscussionTab_is_enabled, py_and, features_get.
    destruct (features_get_default settings "CUSTOM_COURSES_EDX" && current_ccx);
      [done|].
    destruct (FEATURES settings !! "ENABLE_DISCUSSION_SERVICE") as [[]|]; cbn;
      [|done..].
    by destruct (EnrolledOrStaffTab_is_enabled _ _ _ _ _).
  - unfold WikiTab_is_enabled. destruct (WIKI_ENABLED settings); [|done]. cbn.
    destruct user as [us|]; [|by intros _; split; [|right]].
    destruct (allow_public_wiki_access course); [by intros _; split; [|left]|].
    intros H. split; [done|]. by right.
  - intros us -> Hstaff. cbn.
    unfold ProgressTab_is_enabled, WikiTab_is_enabled, is_user_enrolled_or_staff.
    cbn. unfold is_user_enrolled_or_staff. rewrite Hstaff. cbn.
    split; [done|]. split; [done|]. split; [done|].
    destruct (WIKI_ENABLED settings); cbn; [|done].
    by destruct (allow_public_wiki_access course).
Qed.

End TabAccess.

Lemma tabs_access_hierarchy_witness :
  Tabs.EnrolledOrStaffTab_is_enabled (fun _ _ _ _ => true) (fun _ _ => false)
    (Tabs.mkCourse (course_v1 "X" "1" "r") false false None [] [] [])
    (Tabs.mkSettings true ∅) (Some (Tabs.mkTabUser "alice" true))
  = true.
Proof.
  exact (proj1 (tabs_access_hierarchy (fun _ _ _ _ => true) (fun _ _ => false) false
                  (Tabs.mkCourse (course_v1 "X" "1" "r") false false None [] [] [])
                  (Tabs.mkSettings true ∅) (Some (Tabs.mkTabUser "alice" true)))
               eq_refl).
Defined.

(** ** The textbook tab collections *)

Section TextbookTabs.

Import Tabs.





End TextbookTabs.


(** * More on overlaying and deleting fields *)

(** [set] never removes a field: after [set] of [P] by the owner the
    stored field names are those stored before together with those of
    [P], so every field stored before is still there; with [P] empty the
    map is the one stored before, or the empty map of a record that now
    exists where there was none. *)
Theorem set_keeps_fields self u (Hu : username (user self) = u) k P db :
  exists db' d,
    set self u k P user_state db = (Ok tt, db')
    /\ stored db' u k = Some d
    /\ dom d = dom P ∪ dom (default ∅ (stored db u k))
    /\ (forall f, is_Some (default ∅ (stored db u k) !! f) -> is_Some (d !! f))
    /\ (P = ∅ -> d = default ∅ (stored db u k)).
Proof.
  destruct (set_eval self u k P db Hu) as (db' & sm' & Hset & Hfind & Hst & _).
  exists db', (update (default ∅ (stored db u k)) P).
  split; [done|]. split.
  { rewrite (stored_find_row _ _ _ _ Hfind). unfold fields_of. by rewrite Hst. }
  unfold update. split; [by rewrite dom_union_L|]. split.
  - intros f [v Hv]. rewrite lookup_union, Hv. destruct (P !! f); by eexists.
  - intros ->. by rewrite (left_id_L ∅ (∪)).
Qed.

Lemma set_keeps_fields_witness :
  exists db' d,
    set alice "alice" k1 ∅ user_state db_null = (Ok tt, db')
    /\ stored db' "alice" k1 = Some d
    /\ d = ∅.
Proof.
  destruct (set_keeps_fields alice "alice" eq_refl k1 ∅ db_null)
    as (db' & d & Hset & Hst & _ & _ & Hempty).
  exists db', d. split; [exact Hset|]. split; [exact Hst|].
  exact (Hempty eq_refl).
Defined.

Lemma targeted_key u ks r r' :
  row_key r' = row_key r -> targeted u ks r' = targeted u ks r.
Proof. unfold targeted. by intros [= -> -> ->]. Qed.

(** Two [delete_many] with name lists by the owner on a batch whose
    course keys are of one class, when no row the first resolves has a
    NULL state, both return and leave every key reading as after the
    single [delete_many] with the two lists joined; so deleting the same
    names again changes no field. *)
Theorem delete_many_twice self u (Hu : username (user self) = u) ks L1 L2 db
    (Hone : one_class course_key ks = true)
    (Huniq : unique_together (table db))
    (Hst : forall r, In r (table db) -> targeted u ks r = true -> state r <> None) :
  exists db1 db2 db12,
    delete_many self u ks user_state (Some L1) db = (Ok tt, db1)
    /\ delete_many self u ks user_state (Some L2) db1 = (Ok tt, db2)
    /\ delete_many self u ks user_state (Some (L1 ++ L2)) db = (Ok tt, db12)
    /\ (forall k, stored db2 u k = stored db12 u k)
    /\ (L2 = L1 -> forall k, stored db2 u k = stored db1 u k).
Proof.
  destruct (delete_many_batch_eval self u Hu ks (Some L1) db Hone Huniq (fun _ => Hst))
    as (db1 & Hd1 & Htab1 & Hin1 & Hout1).
  assert (Huniq1 : unique_together (table db1)).
  { unfold unique_together. rewrite Htab1, row_keys_map; [done|].
    intros r. by destruct (targeted u ks r). }
  assert (Hst1 : forall r, In r (table db1) -> targeted u ks r = true ->
                           state r <> None).
  { intros r1 Hr1 Ht1. rewrite Htab1 in Hr1.
    apply in_map_iff in Hr1 as (r & <- & Hr).
    destruct (targeted u ks r) eqn:E; [done|]. by rewrite E in Ht1. }
  destruct (delete_many_batch_eval self u Hu ks (Some L2) db1 Hone Huniq1 (fun _ => Hst1))
    as (db2 & Hd2 & _ & Hin2 & Hout2).
  destruct (delete_many_batch_eval self u Hu ks (Some (L1 ++ L2)) db Hone Huniq
              (fun _ => Hst)) as (db12 & Hd12 & _ & Hin12 & Hout12).
  exists db1, db2, db12. split; [done|]. split; [done|]. split; [done|].
  assert (H2 : forall k, stored db2 u k
                 = if decide (k ∈ ks)
                   then (fun d => foldl del_if_in d (L1 ++ L2)) <$> stored db u k
                   else stored db u k).
  { intros k. destruct (decide (k ∈ ks)) as [Hk|Hk].
    - rewrite (Hin2 k Hk), (Hin1 k Hk). destruct (stored db u k); cbn; [|done].
      by rewrite foldl_app.
    - unfold stored. by rewrite (Hout2 k Hk), (Hout1 k Hk). }
  split.
  - intros k. rewrite H2. destruct (decide (k ∈ ks)) as [Hk|Hk].
    + by rewrite (Hin12 k Hk).
    + unfold stored. by rewrite (Hout12 k Hk).
  - intros -> k. rewrite H2. destruct (decide (k ∈ ks)) as [Hk|Hk].
    + rewrite (Hin1 k Hk). destruct (stored db u k) as [d|]; cbn; [|done].
      f_equal. apply map_eq. intros f. rewrite !foldl_del_lookup.
      destruct (decide (f ∈ L1 ++ L1)) as [H|H], (decide (f ∈ L1)) as [H'|H'];
        try done.
      * apply elem_of_app in H. by destruct H.
      * destruct H. apply elem_of_app. by left.
    + unfold stored. by rewrite (Hout1 k Hk).
Qed.

Lemma delete_many_twice_witness :
  exists db1 db2,
    delete_many alice "alice" [k1] user_state (Some ["a"]) db_alice = (Ok tt, db1)
    /\ delete_many alice "alice" [k1] user_state (Some ["b"]) db1 = (Ok tt, db2)
    /\ stored db2 "alice" k1 = Some ∅.
Proof.
  assert (Huniq : unique_together (table db_alice)).
  { unfold unique_together. simpl. apply NoDup_singleton. }
  assert (Hst : forall r, In r (table db_alice) ->
                          targeted "alice" [k1] r = true -> state r <> None).
  { intros r [<-|[]] _. discriminate. }
  destruct (delete_many_twice alice "alice" eq_refl [k1] ["a"] ["b"] db_alice
              eq_refl Huniq Hst) as (db1 & db2 & db12 & H1 & H2 & H12 & Hsame & _).
  exists db1, db2. split; [exact H1|]. split; [exact H2|].
  rewrite (Hsame k1).
  injection H12 as <-. reflexivity.
Defined.
